(** * TACC job manager: command execution and job lifecycle

    A shallow embedding of [src/taccjm/TACCJobManager.py].  The manager talks
    to a remote cluster through a paramiko client and to the local machine
    through the Python runtime; both are interfaces here ([SSHClient],
    [LocalHost]) over an abstract world, and every call made through them is
    recorded in a trace.  Job configurations are the dictionaries that
    [json.load] produces, mutated in place by the lifecycle methods. *)

From Stdlib Require Import String Ascii List ZArith Bool Lia DecimalString.
Import ListNotations.
Local Open Scope list_scope.
Local Open Scope string_scope.
Local Set Warnings "-register-all".

(** ** Python values *)

(** The values a job configuration is made of: what [json.load] returns.
    A [dict] keeps its insertion order ([for arg in d.keys()] walks it in that
    order), so it is an association list.  Numbers are integers. *)
Inductive json : Type :=
| JNull
| JBool (b : bool)
| JNum (n : Z)
| JStr (s : string)
| JList (l : list json)
| JDict (d : list (string * json)).

Module Dict.

(** [d[k]] / [d.get(k)] on the association list. *)
Fixpoint get {V : Type} (k : string) (d : list (string * V)) : option V :=
  match d with
  | [] => None
  | (k', v) :: d' => if String.eqb k' k then Some v else get k d'
  end.

(** [d[k] = v]: an existing key keeps its position, a new key goes last. *)
Fixpoint set {V : Type} (k : string) (v : V) (d : list (string * V))
  : list (string * V) :=
  match d with
  | [] => [(k, v)]
  | (k', v') :: d' =>
      if String.eqb k' k then (k, v) :: d' else (k', v') :: set k v d'
  end.

(** [d.pop(k, None)], the dictionary part. *)
Definition pop {V : Type} (k : string) (d : list (string * V))
  : list (string * V) :=
  filter (fun kv => negb (String.eqb (fst kv) k)) d.

Definition keys {V : Type} (d : list (string * V)) : list string :=
  map fst d.

Definition mem {V : Type} (k : string) (d : list (string * V)) : bool :=
  match get k d with Some _ => true | None => false end.

End Dict.

(** ** Exceptions *)

(** The exception classes the module can raise or meet.  All of them derive
    from [Exception]; [Other] stands for any further library exception
    ([SSHException], [IOError], [UnicodeDecodeError], ...). *)
Inductive exn : Type :=
| Exception (msg : string)
| KeyError (key : string)
| IndexError
| TypeError
| AttributeError
| NameError (name : string)
| UnboundLocalError (name : string)
| FileNotFoundError
| EOFError
| Other (cls msg : string).

Inductive result (A : Type) : Type :=
| Ok (a : A)
| Raise (e : exn).
Arguments Ok {A} a.
Arguments Raise {A} e.

Definition is_FileNotFoundError (e : exn) : bool :=
  match e with FileNotFoundError => true | _ => false end.

(** ** The outside world *)

(** What [exec_command] hands back once the remote command has run:
    [stdout_text] is [stdout.read().decode('ascii')], [stderr_text] is
    [stderr.read().decode('utf-8')] (either can raise), and [exit_status] is
    the remote exit status kept by the channel. *)
Record channel : Type := {
  stdout_text : result string;
  stderr_text : result string;
  exit_status : Z
}.

(** The paramiko client held in [self._client]. *)
Class SSHClient (W : Type) : Type := {
  exec_command : string -> W -> W * result channel;
  open_sftp : W -> W * result unit;
  sftp_close : W -> W * result unit;
  (** [sftp.open(path, mode)], [f.write(data)], [f.read()], [f.close()];
      at most one remote file is open at a time *)
  sftp_file_open : string -> string -> W -> W * result unit;
  sftp_file_write : string -> string -> W -> W * result unit;
  sftp_file_read : string -> W -> W * result string;
  sftp_file_close : string -> W -> W * result unit;
  sftp_put : string -> string -> W -> W * result unit
}.

(** The local machine and the Python libraries the module calls. *)
Class LocalHost (W : Type) : Type := {
  (** [datetime.datetime.fromtimestamp(time.time()).strftime('%Y%m%d_%H%M%S')] *)
  strftime_now : W -> W * string;
  (** [input(prompt)] *)
  input : string -> W -> W * result string;
  os_path_exists : string -> W -> bool;
  os_path_isdir : string -> W -> bool;
  os_path_abspath : string -> W -> string;
  os_remove : string -> W -> W * result unit;
  (** [with tarfile.open(tar, "w:gz") as t: t.add(local, arcname, filter)] *)
  tar_add : string -> string -> string -> bool -> W -> W * result unit;
  (** [config = ConfigParser(); config.read(path); config._sections] *)
  config_read : string -> W -> W * result json;
  (** [open(path).read()] *)
  file_read : string -> W -> W * result string;
  (** [Template(text).render(config)] *)
  template_render : string -> json -> result string;
  (** [json.loads] and the chunks [json.dump] writes one after the other *)
  json_loads : string -> result json;
  json_iterencode : json -> list string;
  (** [repr] of a list or a dictionary *)
  py_repr : json -> string
}.

(** One entry per call that leaves the interpreter. *)
Inductive event : Type :=
| EExec (cmnd : string)
| EOpenSftp
| ECloseSftp
| EFileOpen (path mode : string)
| EFileWrite (path data : string)
| EFileRead (path : string)
| EFileClose (path : string)
| EPut (local remote : string)
| ETime
| EInput (prompt : string)
| ERemove (path : string)
| ETar (local arcname tar : string)
| EConfigRead (path : string)
| ELocalRead (path : string)
| ELogError (msg : string)
| EPrint (text : string).

(** ** Strings the way Python handles them *)

Module Py.

(** [s.split(sep)] for a one-character separator; [tok] is the piece read
    so far. *)
Fixpoint split_from (sep : ascii) (s tok : string) : list string :=
  match s with
  | EmptyString => [tok]
  | String c s' =>
      if Ascii.eqb c sep then tok :: split_from sep s' ""
      else split_from sep s' (tok ++ String c "")
  end.

Definition split (sep : ascii) (s : string) : list string :=
  split_from sep s "".

(** What the pattern [\s] matches among the ASCII characters. *)
Definition is_space (c : ascii) : bool :=
  let n := nat_of_ascii c in
  (((9 <=? n) && (n <=? 13)) || ((28 <=? n) && (n <=? 32)))%nat.

(** [re.split("\\s+", s)]; [in_ws] says that the previous character was
    part of a separator. *)
Fixpoint re_split_ws_from (s tok : string) (in_ws : bool) : list string :=
  match s with
  | EmptyString => [tok]
  | String c s' =>
      if is_space c then
        if in_ws then re_split_ws_from s' tok true
        else tok :: re_split_ws_from s' "" true
      else re_split_ws_from s' (tok ++ String c "") false
  end.

Definition re_split_ws (s : string) : list string :=
  re_split_ws_from s "" false.

(** [l[-1]] and [l[-2]] *)
Definition last (l : list string) : result string :=
  match rev l with
  | x :: _ => Ok x
  | [] => Raise IndexError
  end.

Definition last_but_one (l : list string) : result string :=
  match rev l with
  | _ :: x :: _ => Ok x
  | _ => Raise IndexError
  end.

(** [l.remove(v)] when [v in l]: the first occurrence goes. *)
Fixpoint remove_first (v : string) (l : list string) : list string :=
  match l with
  | [] => []
  | x :: l' => if String.eqb x v then l' else x :: remove_first v l'
  end.

Fixpoint insert_sorted (x : string) (l : list string) : list string :=
  match l with
  | [] => [x]
  | y :: l' => if String.leb x y then x :: l else y :: insert_sorted x l'
  end.

(** [l.sort()] on strings *)
Definition sort (l : list string) : list string :=
  fold_right insert_sorted [] l.

Definition mem (x : string) (l : list string) : bool :=
  existsb (String.eqb x) l.

Definition lower_ascii (c : ascii) : ascii :=
  let n := nat_of_ascii c in
  if ((65 <=? n) && (n <=? 90))%nat then ascii_of_nat (n + 32) else c.

(** [s.lower()] on ASCII text *)
Fixpoint lower (s : string) : string :=
  match s with
  | EmptyString => EmptyString
  | String c s' => String (lower_ascii c) (lower s')
  end.

(** [os.path.basename(p)]: what follows the last slash. *)
Definition basename (p : string) : string :=
  match rev (split "/" p) with
  | x :: _ => x
  | [] => ""
  end.

(** [x != None] *)
Definition not_None (v : json) : bool :=
  match v with JNull => false | _ => true end.

(** A value used where only [str] will do: ['...' + v], [v + '...'],
    an item of ['/'.join([...])]. *)
Definition as_str (v : json) : result string :=
  match v with JStr s => Ok s | _ => Raise TypeError end.

(** [o[k]] with a string key *)
Definition getitem (o : json) (k : string) : result json :=
  match o with
  | JDict d =>
      match Dict.get k d with
      | Some v => Ok v
      | None => Raise (KeyError k)
      end
  | _ => Raise TypeError
  end.

(** [o[k] = v] with a string key; the result is [o] afterwards. *)
Definition setitem (o : json) (k : string) (v : json) : result json :=
  match o with
  | JDict d => Ok (JDict (Dict.set k v d))
  | _ => Raise TypeError
  end.

(** [o.pop(k)]: the value popped and [o] afterwards. *)
Definition pop (o : json) (k : string) : result (json * json) :=
  match o with
  | JDict d =>
      match Dict.get k d with
      | Some v => Ok (v, JDict (Dict.pop k d))
      | None => Raise (KeyError k)
      end
  | JList _ => Raise TypeError
  | _ => Raise AttributeError
  end.

(** [o.pop(k, None)] *)
Definition pop_default (o : json) (k : string) : result (json * json) :=
  match o with
  | JDict d =>
      match Dict.get k d with
      | Some v => Ok (v, JDict (Dict.pop k d))
      | None => Ok (JNull, o)
      end
  | JList _ => Raise TypeError
  | _ => Raise AttributeError
  end.

(** [o[k1][k2]] *)
Definition getitem2 (o : json) (k1 k2 : string) : result json :=
  match getitem o k1 with
  | Ok o' => getitem o' k2
  | Raise e => Raise e
  end.

(** [o[k1][k2] = v]; the result is [o] afterwards. *)
Definition setitem2 (o : json) (k1 k2 : string) (v : json) : result json :=
  match getitem o k1 with
  | Ok o1 =>
      match setitem o1 k2 v with
      | Ok o1' => setitem o k1 o1'
      | Raise e => Raise e
      end
  | Raise e => Raise e
  end.

(** [o.keys()] *)
Definition keys (o : json) : result (list string) :=
  match o with
  | JDict d => Ok (Dict.keys d)
  | _ => Raise AttributeError
  end.

End Py.

(** The attributes of a manager the methods below read. *)
Record TACCJobManager : Type := {
  user : string;
  jobs_dir : string;
  apps_dir : string;
  trash_dir : string
}.

(** ** The monad of a method call *)

(** A call runs in the world, extends the trace, and works on the dictionary
    its [job_config] argument refers to.  What it did to any of the three
    stays done when it raises. *)
Record state (W : Type) : Type := {
  world : W;
  trace : list event;
  job_config : json
}.
Arguments world {W} s.
Arguments trace {W} s.
Arguments job_config {W} s.

Definition M (W A : Type) : Type := state W -> state W * result A.

Section Monad.
Context {W : Type}.

Definition ret {A : Type} (a : A) : M W A := fun s => (s, Ok a).

Definition raise {A : Type} (e : exn) : M W A := fun s => (s, Raise e).

Definition bind {A B : Type} (m : M W A) (k : A -> M W B) : M W B :=
  fun s =>
    match m s with
    | (s', Ok a) => k a s'
    | (s', Raise e) => (s', Raise e)
    end.

(** [try: m except Exception as e: h e] *)
Definition try_except {A : Type} (m : M W A) (h : exn -> M W A) : M W A :=
  fun s =>
    match m s with
    | (s', Ok a) => (s', Ok a)
    | (s', Raise e) => h e s'
    end.

(** A pure computation that may raise. *)
Definition lift {A : Type} (r : result A) : M W A := fun s => (s, r).

(** Runs [m] and hands back how it ended. *)
Definition attempt {A : Type} (m : M W A) : M W (result A) :=
  fun s => let (s', r) := m s in (s', Ok r).

(** A call through one of the interfaces, recorded as [ev]. *)
Definition call {A : Type} (ev : event) (f : W -> W * result A) : M W A :=
  fun s =>
    let (w, r) := f (world s) in
    ({| world := w; trace := (trace s ++ [ev])%list; job_config := job_config s |},
     r).

Definition emit (ev : event) : M W unit :=
  call ev (fun w => (w, Ok tt)).

(** A question to the local machine that changes nothing. *)
Definition ask {A : Type} (f : W -> A) : M W A :=
  fun s => (s, Ok (f (world s))).

Definition get_config : M W json := fun s => (s, Ok (job_config s)).

Definition put_config (j : json) : M W unit :=
  fun s =>
    ({| world := world s; trace := trace s; job_config := j |}, Ok tt).

(** [Q] holds of the state [m] ends in and of its outcome. *)
Definition post {A : Type} (m : M W A) (s : state W)
  (Q : state W -> result A -> Prop) : Prop :=
  Q (fst (m s)) (snd (m s)).

(** [m] leaves the job configuration as it found it. *)
Definition keeps_config {A : Type} (m : M W A) : Prop :=
  forall s, job_config (fst (m s)) = job_config s.

End Monad.

Declare Scope py_scope.
Delimit Scope py_scope with py.
Notation "x <- m ;; k" := (bind m (fun x => k))
  (at level 61, m at next level, right associativity) : py_scope.
Notation "m ;; k" := (bind m (fun _ => k))
  (at level 61, right associativity) : py_scope.
Local Open Scope py_scope.

Section Statements.
Context {W : Type}.

(** [with enter as x: body], where leaving calls [leave]: also when the body
    raised, and an exception of [leave] then takes its place. *)
Definition with_ {A : Type} (enter leave : M W unit) (body : M W A)
  : M W A :=
  enter ;;
  r <- attempt body ;;
  leave ;;
  lift r.

(** [for x in l: body x] *)
Fixpoint for_ {A : Type} (l : list A) (body : A -> M W unit) : M W unit :=
  match l with
  | [] => ret tt
  | x :: l' => body x ;; for_ l' body
  end.

(** [for x in l: acc = body x acc] *)
Fixpoint fold_ {A S : Type} (l : list A) (body : A -> S -> M W S) (acc : S)
  : M W S :=
  match l with
  | [] => ret acc
  | x :: l' => acc' <- body x acc ;; fold_ l' body acc'
  end.

(** [logger.error(msg)] *)
Definition logger_error (msg : string) : M W unit := emit (ELogError msg).

(** The state after [logger.error(msg)]. *)
Definition logged (s : state W) (msg : string) : state W :=
  {| world := world s;
     trace := trace s ++ [ELogError msg];
     job_config := job_config s |}.

(** [job_config[k]] *)
Definition config_get (k : string) : M W json :=
  j <- get_config ;; lift (Py.getitem j k).

(** [job_config[k1][k2]] *)
Definition config_get2 (k1 k2 : string) : M W json :=
  o <- config_get k1 ;; lift (Py.getitem o k2).

(** [job_config[k] = v] *)
Definition config_set (k : string) (v : json) : M W unit :=
  j <- get_config ;;
  j' <- lift (Py.setitem j k v) ;;
  put_config j'.

(** [job_config[k1][k2] = v]: the inner dictionary is changed in place. *)
Definition config_set2 (k1 k2 : string) (v : json) : M W unit :=
  o <- config_get k1 ;;
  o' <- lift (Py.setitem o k2 v) ;;
  config_set k1 o'.

End Statements.

(** ** The methods of [TACCJobManager] *)

Definition LF : ascii := "010"%char.

(** A line feed and a double quote, as strings. *)
Definition nl : string := String LF EmptyString.
Definition DQ : string := String "034"%char EmptyString.

(** [[f(x) for x in l]] when [f] can raise *)
Fixpoint map_result {A B : Type} (f : A -> result B) (l : list A)
  : result (list B) :=
  match l with
  | [] => Ok []
  | x :: l' =>
      match f x with
      | Raise e => Raise e
      | Ok y =>
          match map_result f l' with
          | Raise e => Raise e
          | Ok ys => Ok (y :: ys)
          end
      end
  end.

(** ['/'.join(items)] *)
Definition join_slash (items : list json) : result string :=
  match map_result Py.as_str items with
  | Ok l => Ok (String.concat "/" l)
  | Raise e => Raise e
  end.

(** [os.path.join(a, b)] *)
Definition os_path_join (a b : string) : string :=
  match b with
  | String "/" _ => b
  | _ =>
      match rev (list_ascii_of_string a) with
      | [] => b
      | c :: _ => if Ascii.eqb c "/" then a ++ b else a ++ "/" ++ b
      end
  end.

(** [x in l] for a list of strings [l] *)
Definition in_list (x : json) (l : list string) : bool :=
  match x with
  | JStr s => Py.mem s l
  | _ => false
  end.

Section Manager.
Context {W : Type} `{SSHClient W} `{LocalHost W}.
Variable self : TACCJobManager.

(** [str(v)], which is also what [format] puts in place of a field *)
Definition py_str (v : json) : string :=
  match v with
  | JNull => "None"
  | JBool true => "True"
  | JBool false => "False"
  | JNum n => NilZero.string_of_int (Z.to_int n)
  | JStr s => s
  | JList _ | JDict _ => py_repr v
  end.

Definition get_ts : M W string :=
  call ETime (fun w => let (w', t) := strftime_now w in (w', Ok t)).

Definition _execute_command (cmnd : string) (prnt : bool) : M W string :=
  ch <- call (EExec cmnd) (exec_command cmnd) ;;
  out <- lift (stdout_text ch) ;;
  err <- lift (stderr_text ch) ;;
  if (0 <? String.length err)%nat then raise (Exception err)
  else
    (if prnt then emit (EPrint ("stdout: " ++ nl ++ out))
     else ret tt) ;;
    ret out.

Definition list_files (path : string) : M W (list string) :=
  let cmnd := "ls -lat " ++ path in
  ret_ <- try_except (_execute_command cmnd false)
            (fun _ =>
               logger_error ("Unable to access path at " ++ path) ;;
               raise FileNotFoundError) ;;
  files <- lift (map_result (fun x => Py.last (Py.re_split_ws x))
                   (tl (Py.split LF ret_))) ;;
  let files :=
    fold_left
      (fun fs v => if Py.mem v fs then Py.remove_first v fs else fs)
      [""; "."; ".."] files in
  ret (Py.sort files).

(** [with self._client.open_sftp() as sftp: body] *)
Definition with_sftp {A : Type} (body : M W A) : M W A :=
  with_ (call EOpenSftp open_sftp) (call ECloseSftp sftp_close) body.

(** [with sftp.open(path, mode) as f: body] *)
Definition with_file {A : Type} (path mode : string) (body : M W A)
  : M W A :=
  with_ (call (EFileOpen path mode) (sftp_file_open path mode))
    (call (EFileClose path) (sftp_file_close path)) body.

(** [json.dump(obj, f)] *)
Definition json_dump (obj : json) (path : string) : M W unit :=
  for_ (json_iterencode obj)
    (fun chunk => call (EFileWrite path chunk) (sftp_file_write path chunk)).

(** [json.load(f)] *)
Definition json_load (path : string) : M W json :=
  text <- call (EFileRead path) (sftp_file_read path) ;;
  lift (json_loads text).

Definition send_file (local remote : string) (exclude_hidden : bool)
  : M W (list string) :=
  let remote_fname := Py.basename remote in
  remote_dir <- ask (os_path_abspath (os_path_join remote "..")) ;;
  isdir <- ask (os_path_isdir local) ;;
  (if isdir : bool then
     let fname := Py.basename local in
     let local_tar_file := "." ++ fname ++ ".taccjm.tar" in
     let remote_tar_file :=
       remote_dir ++ "/.taccjm_temp_" ++ fname ++ ".tar" in
     call (ETar local remote_fname local_tar_file)
       (tar_add local remote_fname local_tar_file exclude_hidden) ;;
     with_sftp (call (EPut local_tar_file remote_tar_file)
                  (sftp_put local_tar_file remote_tar_file)) ;;
     call (ERemove local_tar_file) (os_remove local_tar_file) ;;
     let untar_cmd :=
       "tar -xzvf " ++ remote_tar_file ++ " -C " ++ remote_dir
         ++ "; rm " ++ remote_tar_file in
     _execute_command untar_cmd false ;;
     ret tt
   else
     with_sftp (call (EPut local remote) (sftp_put local remote))) ;;
  list_files remote_dir.

Definition get_apps : M W (list string) := list_files (apps_dir self).

Definition load_app_config (appId : json) : M W json :=
  cur_apps <- get_apps ;;
  if negb (in_list appId cur_apps) then
    let msg := "Application " ++ py_str appId ++ " does not exist." in
    logger_error msg ;;
    raise (Exception msg)
  else
    app_config_path <-
      lift (join_slash [JStr (apps_dir self); appId; JStr "app.json"]) ;;
    with_sftp (with_file app_config_path "rb" (json_load app_config_path)).

Definition get_app_wrapper_script (appId : json) : M W string :=
  app_config <- load_app_config appId ;;
  template_path <- lift (Py.getitem app_config "templatePath") ;;
  wrapper_script <-
    lift (join_slash [JStr (apps_dir self); appId; template_path]) ;;
  let cmnd := "cat " ++ wrapper_script in
  try_except (_execute_command cmnd false)
    (fun _ =>
       logger_error
         "App main entry point {wrapper_script} not found for app {appId}" ;;
       raise FileNotFoundError).

Definition get_jobs : M W (list string) := list_files (jobs_dir self).

Definition save_job : M W unit :=
  try_except
    (ts <- get_ts ;;
     config_set2 "ts" "dump_ts" (JStr ts) ;;
     job_dir <- config_get "job_dir" ;;
     job_dir <- lift (Py.as_str job_dir) ;;
     let dest := job_dir ++ "/job_config.json" in
     with_sftp
       (with_file dest "w"
          (job_config <- get_config ;; json_dump job_config dest)))
    (fun e =>
       logger_error "Unable to write json job config file" ;;
       raise e).

Definition load_job_config (job_name : string) : M W json :=
  jobs <- get_jobs ;;
  if negb (Py.mem job_name jobs) then raise (NameError "Exeception")
  else
    let job_config :=
      String.concat "/" [jobs_dir self; job_name; "job_config.json"] in
    call EOpenSftp open_sftp ;;
    job_config' <-
      try_except (with_file job_config "rb" (json_load job_config))
        (fun e =>
           if is_FileNotFoundError e then
             logger_error ("Job config for job " ++ job_name
                             ++ " not found at " ++ job_config) ;;
             raise FileNotFoundError
           else raise e) ;;
    call ECloseSftp sftp_close ;;
    ret job_config'.

(** The timestamp block of a job that is not set up. *)
Definition empty_ts : json :=
  JDict [("setup_ts", JNull); ("submit_ts", JNull);
         ("start_ts", JNull); ("end_ts", JNull)].

(** [v == s] for a string [s] *)
Definition eq_str (v : json) (s : string) : bool :=
  match v with JStr t => String.eqb t s | _ => false end.

Definition submit_job : M W json :=
  setup_ts <- config_get2 "ts" "setup_ts" ;;
  submit_ts <- config_get2 "ts" "submit_ts" ;;
  if Py.not_None setup_ts && negb (Py.not_None submit_ts) then
    job_dir <- config_get "job_dir" ;;
    let cmnd := "cd " ++ py_str job_dir ++ ";sbatch submit_script.sh" in
    (* [ret] stays unbound when the handler ends without raising *)
    ret_ <- try_except
              (out <- _execute_command cmnd false ;; ret (Some out))
              (fun _ =>
                 job_id <- config_get "job_id" ;;
                 job_id <- lift (Py.as_str job_id) ;;
                 logger_error ("Failed to run submit job - " ++ job_id) ;;
                 ret None) ;;
    ret_ <- lift (match ret_ with
                  | Some out => Ok out
                  | None => Raise (UnboundLocalError "ret")
                  end) ;;
    line <- lift (Py.last_but_one (Py.split LF ret_)) ;;
    slurm_id <- lift (Py.last (Py.split " " line)) ;;
    config_set2 "slurm" "slurm_id" (JStr slurm_id) ;;
    id1 <- config_get2 "slurm" "slurm_id" ;;
    failed <- (if eq_str id1 "FAILED" then ret true
               else id2 <- config_get2 "slurm" "slurm_id" ;;
                    ret (eq_str id2 EmptyString)) ;;
    if failed : bool then
      config_set2 "slurm" "sbatch_ret" (JStr ret_) ;;
      raise (Exception "Failed to submit SLURM Job!")
    else
      slurm <- config_get "slurm" ;;
      popped <- lift (Py.pop_default slurm "sbatch_ret") ;;
      config_set "slurm" (snd popped) ;;
      ts <- get_ts ;;
      config_set2 "ts" "submit_ts" (JStr ts) ;;
      save_job ;;
      get_config
  else
    let msg :=
      "Job has not been initialized or has already been submitted." in
    logger_error msg ;;
    raise (Exception msg).

Definition cancel_job : M W json :=
  submit_ts <- config_get2 "ts" "submit_ts" ;;
  if Py.not_None submit_ts then
    slurm_id <- config_get2 "slurm" "slurm_id" ;;
    slurm_id <- lift (Py.as_str slurm_id) ;;
    _execute_command ("scancel " ++ slurm_id) false ;;
    slurm <- config_get "slurm" ;;
    popped <- lift (Py.pop slurm "slurm_id") ;;
    config_set "slurm" (snd popped) ;;
    config_set "ts" empty_ts ;;
    save_job ;;
    get_config
  else
    let msg := "Job has not been submitted yet." in
    logger_error msg ;;
    raise (Exception msg).

(** [input(prompt).lower() == 'yes'] *)
Definition confirm (prompt : string) : M W bool :=
  choice <- call (EInput prompt) (input prompt) ;;
  ret (String.eqb (Py.lower choice) "yes").

(** The end of [cleanup_job], from the second [if check:] on. *)
Definition cleanup_remove (check : bool) : M W json :=
  go <- (if check then
           confirm "Are you sure yo want to delete job directory? [yes/no]"
         else ret true) ;;
  if go : bool then
    job_dir <- config_get "job_dir" ;;
    job_dir <- lift (Py.as_str job_dir) ;;
    _execute_command ("rm -r " ++ job_dir) false ;;
    config_set "job_dir" JNull ;;
    get_config
  else ret JNull.

Definition cleanup_job (check : bool) : M W json :=
  setup_ts <- config_get2 "ts" "setup_ts" ;;
  if Py.not_None setup_ts then
    active <- (if check then
                 submit_ts <- config_get2 "ts" "submit_ts" ;;
                 ret (Py.not_None submit_ts)
               else ret false) ;;
    if active : bool then
      go <- confirm "Are you sure yo want to cancel the job? [yes/no]" ;;
      if go : bool then cancel_job ;; cleanup_remove check
      else ret JNull
    else cleanup_remove check
  else
    let msg := "No job to cleanup. Job has not been initialized." in
    logger_error msg ;;
    raise (Exception msg).

(** *** [setup_job] *)

Definition load_project_config (project_config_file : string) : M W json :=
  found <- ask (os_path_exists project_config_file) ;;
  if negb found then raise FileNotFoundError
  else call (EConfigRead project_config_file)
         (config_read project_config_file).

Definition load_templated_json_file (path : string) (config : json)
  : M W json :=
  try_except
    (text <- call (ELocalRead path) (file_read path) ;;
     rendered <- lift (template_render text config) ;;
     lift (json_loads rendered))
    (fun e =>
       if is_FileNotFoundError e then
         logger_error ("Unable to find json file to template " ++ path) ;;
         raise FileNotFoundError
       else raise e).

(** Lines 333-342: the job configuration is read and becomes [job_config];
    the result is [app_config]. *)
Definition setup_load (local_job_dir job_config_file proj_config_file : string)
  : M W json :=
  let proj_config_path := os_path_join local_job_dir proj_config_file in
  proj_config <- load_project_config proj_config_path ;;
  let job_config_path := os_path_join local_job_dir job_config_file in
  job_config <- load_templated_json_file job_config_path proj_config ;;
  put_config job_config ;;
  appId <- config_get "appId" ;;
  load_app_config appId.

(** Lines 344-364: timestamps, identity, and the job directory. *)
Definition setup_job_dir : M W unit :=
  config_set "ts" empty_ts ;;
  ts <- get_ts ;;
  config_set2 "ts" "setup_ts" (JStr ts) ;;
  name <- config_get "name" ;;
  setup_ts <- config_get2 "ts" "setup_ts" ;;
  config_set "job_id" (JStr (py_str name ++ "_" ++ py_str setup_ts)) ;;
  job_id <- config_get "job_id" ;;
  config_set "job_dir" (JStr (jobs_dir self ++ "/" ++ py_str job_id)) ;;
  try_except
    (job_dir <- config_get "job_dir" ;;
     job_dir <- lift (Py.as_str job_dir) ;;
     _execute_command ("mkdir " ++ job_dir) false ;;
     ret tt)
    (fun e =>
       job_id <- config_get "job_id" ;;
       job_id <- lift (Py.as_str job_id) ;;
       logger_error ("Unable to setup job dir for " ++ job_id) ;;
       raise e).

Definition _cleanup : M W string :=
  job_dir <- config_get "job_dir" ;;
  job_dir <- lift (Py.as_str job_dir) ;;
  _execute_command ("rm -rf " ++ job_dir) false.

(** Lines 370-380: the application's files, and its [setup.sh] if any. *)
Definition setup_copy_app : M W unit :=
  appId <- config_get "appId" ;;
  job_dir <- config_get "job_dir" ;;
  let cmnd := "cp -r " ++ apps_dir self ++ "/" ++ py_str appId ++ "/* "
                ++ py_str job_dir ++ "/" in
  _execute_command cmnd false ;;
  job_dir <- config_get "job_dir" ;;
  files <- list_files (py_str job_dir) ;;
  if Py.mem "setup.sh" files then
    job_dir <- config_get "job_dir" ;;
    _execute_command ("chmod +x " ++ py_str job_dir ++ "/setup.sh") false ;;
    job_dir <- config_get "job_dir" ;;
    let cmnd := py_str job_dir ++ "/setup.sh " ++ py_str job_dir in
    _execute_command cmnd false ;;
    ret tt
  else ret tt.

(** Lines 399-405: [None] when [wrapper_script] was left unbound. *)
Definition setup_wrapper_script : M W (option string) :=
  try_except
    (appId <- config_get "appId" ;;
     wrapper_script <- get_app_wrapper_script appId ;;
     ret (Some wrapper_script))
    (fun _ =>
       _cleanup ;;
       job_id <- config_get "job_id" ;;
       job_id <- lift (Py.as_str job_id) ;;
       logger_error
         ("Couldn't get wrapper script to setup job dir for " ++ job_id) ;;
       ret None).

Definition _get_attr (app_config : json) (j a : string) : M W json :=
  job_config <- get_config ;;
  keys <- lift (Py.keys job_config) ;;
  if Py.mem j keys then config_get j else lift (Py.getitem app_config a).

(** Lines 413-417 *)
Definition setup_defaults (app_config : json) : M W unit :=
  v <- _get_attr app_config "desc" "shortDescription" ;;
  config_set "desc" v ;;
  v <- _get_attr app_config "queue" "defaultQueue" ;;
  config_set "queue" v ;;
  v <- _get_attr app_config "nodeCount" "defaultNodeCount" ;;
  config_set "nodeCount" v ;;
  v <- _get_attr app_config "processorsPerNode" "defaultProcessorsPerNode" ;;
  config_set "processorsPerNode" v ;;
  v <- _get_attr app_config "maxRunTime" "defaultMaxRunTime" ;;
  config_set "maxRunTime" v.

Definition rule : string :=
  "#----------------------------------------------------".

(** The submit script template of lines 383-396, filled in. *)
Definition submit_script_template
  (job_name job_desc ts job_id queue N n rt : string) : string :=
  String.concat nl
    [ "#!/bin/bash";
      rule;
      "# " ++ job_name;
      "# " ++ job_desc;
      "# Created: " ++ ts;
      rule;
      EmptyString;
      "#SBATCH -J " ++ job_id
        ++ "                               # Job name";
      "#SBATCH -o " ++ job_id
        ++ ".o%j                           # Name of stdout output file";
      "#SBATCH -e " ++ job_id
        ++ ".e%j                           # Name of stderr error file";
      "#SBATCH -p " ++ queue
        ++ "                                # Queue (partition) name";
      "#SBATCH -N " ++ N
        ++ "                                    # Total # of nodes";
      "#SBATCH -n " ++ n
        ++ "                                    # Total # of mpi tasks";
      "#SBATCH -t " ++ rt
        ++ "                                   # Run time (hh:mm:ss)" ].

(** Lines 420-438 *)
Definition setup_submit_script : M W string :=
  job_name <- config_get "name" ;;
  job_desc <- config_get "desc" ;;
  ts <- config_get2 "ts" "setup_ts" ;;
  job_id <- config_get "job_id" ;;
  queue <- config_get "queue" ;;
  N <- config_get "nodeCount" ;;
  n <- config_get "processorsPerNode" ;;
  rt <- config_get "maxRunTime" ;;
  let submit_script :=
    submit_script_template (py_str job_name) (py_str job_desc) (py_str ts)
      (py_str job_id) (py_str queue) (py_str N) (py_str n) (py_str rt) in
  job_config <- get_config ;;
  keys <- lift (Py.keys job_config) ;;
  submit_script <-
    (if Py.mem "email" keys then
       email <- config_get "email" ;;
       ret (submit_script
              ++ nl ++ "#SBATCH --mail-user=" ++ py_str email
              ++ " # Email to send to"
              ++ nl ++ "#SBATCH --mail-type=all     # Email to send to")
     else ret submit_script) ;;
  job_config <- get_config ;;
  keys <- lift (Py.keys job_config) ;;
  submit_script <-
    (if Py.mem "allocation" keys then
       allocation <- config_get "allocation" ;;
       ret (submit_script
              ++ nl ++ "#SBATCH -A " ++ py_str allocation
              ++ " # Allocation name ")
     else ret submit_script) ;;
  let submit_script := submit_script ++ nl ++ rule ++ nl in
  job_dir <- config_get "job_dir" ;;
  ret (submit_script ++ nl ++ "cd " ++ py_str job_dir ++ nl).

(** Lines 444-451 *)
Definition wrapper_preamble_head : string :=
  "# Create start ts file" ++ nl
    ++ "touch start_$(date +" ++ DQ ++ "%FT%H%M%S" ++ DQ ++ ")" ++ nl
    ++ nl ++ "# Parse arguments passed" ++ nl
    ++ "for ARGUMENT in " ++ DQ ++ "$@" ++ DQ ++ nl ++ "do" ++ nl
    ++ nl ++ "    KEY=$(echo $ARGUMENT | cut -f1 -d=)"
    ++ nl ++ "    VALUE=$(echo $ARGUMENT | cut -f2 -d=)" ++ nl
    ++ nl ++ "    case " ++ DQ ++ "$KEY" ++ DQ ++ " in"
    ++ nl ++ "        NP)           NP=${VALUE} ;;".

(** One [case] branch of the wrapper's argument parser. *)
Definition wrapper_case (arg : string) : string :=
  nl ++ "        " ++ arg ++ ")           " ++ arg ++ "=${VALUE} ;;".

(** Lines 456-470, the body of the loop over the inputs: [acc] is
    [(execute_line, wrapper_preamble)]. *)
Definition stage_input (arg : string) (acc : string * string)
  : M W (string * string) :=
  inputs <- config_get "inputs" ;;
  path <- lift (Py.getitem inputs arg) ;;
  job_dir <- config_get "job_dir" ;;
  path <- lift (Py.as_str path) ;;
  dest_path <- lift (join_slash [job_dir; JStr (Py.basename path)]) ;;
  try_except (send_file path dest_path true ;; ret tt)
    (fun _ =>
       _cleanup ;;
       (* [arg] is a key, a string: [arg['name']] *)
       name <- lift (Py.getitem (JStr arg) "name") ;;
       let msg := "Unable to send input file for arg " ++ py_str name
                    ++ " to dest " ++ dest_path in
       logger_error msg ;;
       raise (Exception msg)) ;;
  ret (fst acc ++ " " ++ arg ++ "=" ++ dest_path,
       snd acc ++ wrapper_case arg).

(** Lines 455-470 *)
Definition setup_inputs (acc : string * string) : M W (string * string) :=
  inputs <- config_get "inputs" ;;
  args <- lift (Py.keys inputs) ;;
  fold_ args stage_input acc.

(** Lines 473-478 *)
Definition setup_parameters (acc : string * string) : M W (string * string) :=
  parameters <- config_get "parameters" ;;
  args <- lift (Py.keys parameters) ;;
  fold_ args
    (fun arg acc =>
       parameters <- config_get "parameters" ;;
       value <- lift (Py.getitem parameters arg) ;;
       ret (fst acc ++ " " ++ arg ++ "=" ++ py_str value,
            snd acc ++ wrapper_case arg))
    acc.

Definition wrapper_post : string :=
  nl ++ "# Create end ts file" ++ nl
    ++ "touch end_$(date +" ++ DQ ++ "%FT%H%M%S" ++ DQ ++ ")" ++ nl.

(** Lines 490-496: the result is [(submit_dest, wrapper_dest)]. *)
Definition setup_write_scripts
  (submit_script wrapper_preamble : string) (wrapper_script : option string)
  : M W (string * string) :=
  with_sftp
    (job_dir <- config_get "job_dir" ;;
     job_dir <- lift (Py.as_str job_dir) ;;
     let submit_dest := job_dir ++ "/submit_script.sh" in
     job_dir <- config_get "job_dir" ;;
     wrapper_dest <- lift (join_slash [job_dir; JStr "/wrapper.sh"]) ;;
     with_file submit_dest "w"
       (call (EFileWrite submit_dest submit_script)
          (sftp_file_write submit_dest submit_script)) ;;
     with_file wrapper_dest "w"
       (wrapper_script <-
          lift (match wrapper_script with
                | Some text => Ok text
                | None => Raise (UnboundLocalError "wrapper_script")
                end) ;;
        let text := wrapper_preamble ++ wrapper_script ++ wrapper_post in
        call (EFileWrite wrapper_dest text)
          (sftp_file_write wrapper_dest text)) ;;
     ret (submit_dest, wrapper_dest)).

(** Lines 499-506 *)
Definition setup_chmod (submit_dest wrapper_dest : string) : M W unit :=
  try_except
    (_execute_command ("chmod +x " ++ submit_dest) false ;;
     _execute_command ("chmod +x " ++ wrapper_dest) false ;;
     ret tt)
    (fun _ =>
       _cleanup ;;
       logger_error "Unable to chmod wrapper or submit scripts in job dir." ;;
       ret tt).

(** Lines 509-515 *)
Definition setup_save : M W unit :=
  try_except save_job
    (fun e =>
       _cleanup ;;
       logger_error "Unable to save job config after setup." ;;
       raise e).

(** Lines 440-487: the staging of inputs and the text of both scripts;
    the result is [(submit_script, wrapper_preamble)]. *)
Definition setup_stage (submit_script : string) : M W (string * string) :=
  job_dir <- config_get "job_dir" ;;
  let execute_line := nl ++ py_str job_dir ++ "/wrapper.sh " in
  let wrapper_preamble := wrapper_preamble_head in
  processorsPerNode <- config_get "processorsPerNode" ;;
  let execute_line := execute_line ++ " NP=" ++ py_str processorsPerNode in
  acc <- setup_inputs (execute_line, wrapper_preamble) ;;
  acc <- setup_parameters acc ;;
  let wrapper_preamble :=
    snd acc ++ nl ++ "        *)" ++ nl ++ "    esac" ++ nl ++ nl ++ "done"
      ++ nl ++ nl in
  ret (submit_script ++ fst acc ++ nl, wrapper_preamble).

(** Lines 333-364: up to the creation of the job directory; the result is
    [app_config]. *)
Definition setup_prepare
  (local_job_dir job_config_file proj_config_file : string) : M W json :=
  app_config <- setup_load local_job_dir job_config_file proj_config_file ;;
  setup_job_dir ;;
  ret app_config.

(** Lines 382-506: from the wrapper script to the [chmod] of both scripts. *)
Definition setup_build (app_config : json) : M W unit :=
  wrapper_script <- setup_wrapper_script ;;
  setup_defaults app_config ;;
  submit_script <- setup_submit_script ;;
  scripts <- setup_stage submit_script ;;
  dests <- setup_write_scripts (fst scripts) (snd scripts) wrapper_script ;;
  setup_chmod (fst dests) (snd dests).

Definition setup_job (local_job_dir job_config_file proj_config_file : string)
  : M W json :=
  app_config <-
    setup_prepare local_job_dir job_config_file proj_config_file ;;
  setup_copy_app ;;
  setup_build app_config ;;
  setup_save ;;
  get_config.

End Manager.

(** ** Reading a job record *)

(** [job_config['ts'][k]] is there and is not [None]. *)
Definition timestamp_set (c : json) (k : string) : bool :=
  match Py.getitem2 c "ts" k with
  | Ok v => Py.not_None v
  | Raise _ => false
  end.

(** [job_config['ts'][k]] is [None]. *)
Definition timestamp_null (c : json) (k : string) : bool :=
  match Py.getitem2 c "ts" k with
  | Ok JNull => true
  | _ => false
  end.

(** The record holds a scheduler job identifier:
    ['slurm_id' in job_config['slurm']]. *)
Definition has_slurm_id (c : json) : bool :=
  match Py.getitem2 c "slurm" "slurm_id" with
  | Ok _ => true
  | Raise _ => false
  end.

(** [c'] is [c], possibly with [dump_ts] stamped: all [save_job] can do to
    the record it is given. *)
Definition stamped (c c' : json) : Prop :=
  c' = c \/ exists now, Py.setitem2 c "ts" "dump_ts" (JStr now) = Ok c'.

(** What a successful [save_job] puts on the wire: the time is read, then
    [dest] is opened for writing and receives the chunks one by one. *)
Definition save_events (dest : string) (chunks : list string) : list event :=
  [ETime; EOpenSftp; EFileOpen dest "w"]
    ++ map (EFileWrite dest) chunks
    ++ [EFileClose dest; ECloseSftp].

(** What the trace says the remote file [path] holds, as far as SFTP goes:
    opening it for writing empties it, a write appends to it, and [put]
    replaces it by something the trace does not tell. *)
Definition written_step (path : string) (content : option string)
  (ev : event) : option string :=
  match ev with
  | EFileOpen p mode =>
      if String.eqb p path && String.eqb mode "w" then Some EmptyString
      else content
  | EFileWrite p data =>
      if String.eqb p path then
        match content with
        | Some old => Some (old ++ data)
        | None => None
        end
      else content
  | EPut _ remote => if String.eqb remote path then None else content
  | _ => content
  end.

Definition written (t : list event) (path : string) : option string :=
  fold_left (written_step path) t None.

(** The command [cmnd] was sent to the cluster. *)
Definition issued (cmnd : string) (t : list event) : bool :=
  existsb (fun ev => match ev with
                     | EExec c => String.eqb c cmnd
                     | _ => false
                     end) t.

(** An event [save_job] may cause when it writes to [dest]: reading the
    clock, the SFTP session, the destination file itself, the log. *)
Definition in_place (dest : string) (ev : event) : Prop :=
  match ev with
  | ETime | EOpenSftp | ECloseSftp | ELogError _ => True
  | EFileOpen path mode => path = dest /\ mode = "w"
  | EFileWrite path _ | EFileClose path => path = dest
  | _ => False
  end.

(** The invariant of the record as the specification words it: [submit_ts]
    only with [setup_ts], and a scheduler job identifier exactly when
    [submit_ts] is set. *)
Definition lifecycle_strict (c : json) : bool :=
  implb (timestamp_set c "submit_ts") (timestamp_set c "setup_ts")
  && Bool.eqb (has_slurm_id c) (timestamp_set c "submit_ts").

(** The invariant the methods keep: [submit_ts] only with [setup_ts] and
    with a scheduler job identifier. *)
Definition lifecycle_ok (c : json) : bool :=
  implb (timestamp_set c "submit_ts")
    (timestamp_set c "setup_ts" && has_slurm_id c).

(** [slurm_id] is one of the two values [submit_job] takes for a submission
    that failed: ['FAILED'] or the empty string (line 530). *)
Definition sentinel_id (c : json) : bool :=
  match Py.getitem2 c "slurm" "slurm_id" with
  | Ok v => eq_str v "FAILED" || eq_str v EmptyString
  | Raise _ => false
  end.

(** The invariant the methods keep, in both directions: [submit_ts] only
    with [setup_ts] and with a scheduler job identifier, and a scheduler job
    identifier only with [submit_ts], unless it is the failure sentinel. *)
Definition lifecycle_invariant (c : json) : bool :=
  lifecycle_ok c
  && implb (has_slurm_id c) (timestamp_set c "submit_ts" || sentinel_id c).

(** ** A test double for the cluster and the local machine

    The counterpart of the mocked transports of the test suite: canned
    command output, an in-memory remote file store whose connection can drop
    after a number of writes, a scripted clock and scripted answers. *)

Module Mock.

Record env : Type := {
  commands : list (string * channel);
  remote_files : list (string * string);
  writes_left : nat;
  clock : list string;
  answers : list string;
  local_files : list (string * string);
  local_dirs : list string
}.

Definition quiet : channel :=
  {| stdout_text := Ok EmptyString;
     stderr_text := Ok EmptyString;
     exit_status := 0 |}.

(** A channel that printed [out] and [err] and exited with [code]. *)
Definition said (out err : string) (code : Z) : channel :=
  {| stdout_text := Ok out; stderr_text := Ok err; exit_status := code |}.

Definition set_files (w : env) (fs : list (string * string)) : env :=
  {| commands := commands w; remote_files := fs;
     writes_left := writes_left w; clock := clock w; answers := answers w;
     local_files := local_files w; local_dirs := local_dirs w |}.

Definition run_command (cmnd : string) (w : env) : env * result channel :=
  match Dict.get cmnd (commands w) with
  | Some ch => (w, Ok ch)
  | None => (w, Ok quiet)
  end.

(** Opening for writing creates the file or empties it, as SFTP does. *)
Definition file_open (path mode : string) (w : env) : env * result unit :=
  if String.eqb mode "w" then
    (set_files w (Dict.set path EmptyString (remote_files w)), Ok tt)
  else if Dict.mem path (remote_files w) then (w, Ok tt)
  else (w, Raise FileNotFoundError).

Definition file_write (path data : string) (w : env) : env * result unit :=
  match writes_left w with
  | O => (w, Raise (Other "OSError" "Socket is closed"))
  | S n =>
      let old := match Dict.get path (remote_files w) with
                 | Some text => text
                 | None => EmptyString
                 end in
      ({| commands := commands w;
          remote_files := Dict.set path (old ++ data) (remote_files w);
          writes_left := n; clock := clock w; answers := answers w;
          local_files := local_files w; local_dirs := local_dirs w |},
       Ok tt)
  end.

Definition file_get (path : string) (w : env) : env * result string :=
  match Dict.get path (remote_files w) with
  | Some text => (w, Ok text)
  | None => (w, Raise FileNotFoundError)
  end.

Definition put (local remote : string) (w : env) : env * result unit :=
  match Dict.get local (local_files w) with
  | Some text =>
      (set_files w (Dict.set remote text (remote_files w)), Ok tt)
  | None => (w, Raise FileNotFoundError)
  end.

Definition tick (w : env) : env * string :=
  match clock w with
  | [] => (w, "19700101_000000")
  | t :: ts =>
      ({| commands := commands w; remote_files := remote_files w;
          writes_left := writes_left w; clock := ts; answers := answers w;
          local_files := local_files w; local_dirs := local_dirs w |}, t)
  end.

Definition answer (prompt : string) (w : env) : env * result string :=
  match answers w with
  | [] => (w, Raise EOFError)
  | a :: rest =>
      ({| commands := commands w; remote_files := remote_files w;
          writes_left := writes_left w; clock := clock w; answers := rest;
          local_files := local_files w; local_dirs := local_dirs w |}, Ok a)
  end.

(** [os.path.abspath] of an absolute path: [.] and [..] are resolved. *)
Fixpoint resolve (parts stack : list string) : list string :=
  match parts with
  | [] => rev stack
  | p :: parts' =>
      if String.eqb p EmptyString || String.eqb p "." then
        resolve parts' stack
      else if String.eqb p ".." then resolve parts' (tl stack)
      else resolve parts' (p :: stack)
  end.

Definition abspath (p : string) (w : env) : string :=
  "/" ++ String.concat "/" (resolve (Py.split "/" p) []).

Definition local_get (path : string) (w : env) : env * result string :=
  match Dict.get path (local_files w) with
  | Some text => (w, Ok text)
  | None => (w, Raise FileNotFoundError)
  end.

(** *** A JSON codec for the double *)

Definition hex_digit (n : nat) : ascii :=
  nth n (list_ascii_of_string "0123456789abcdef") "0"%char.

Definition escape (c : ascii) : string :=
  let n := nat_of_ascii c in
  if Ascii.eqb c "034" then "\" ++ DQ
  else if Ascii.eqb c "\" then "\\"
  else if Ascii.eqb c LF then "\n"
  else if Ascii.eqb c "013" then "\r"
  else if Ascii.eqb c "009" then "\t"
  else if ((n <? 32) || (126 <? n))%nat then
    "\u00" ++ String (hex_digit (n / 16)) (String (hex_digit (n mod 16))
                                                   EmptyString)
  else String c EmptyString.

Fixpoint escape_all (s : string) : string :=
  match s with
  | EmptyString => EmptyString
  | String c s' => escape c ++ escape_all s'
  end.

Definition quote (s : string) : string := DQ ++ escape_all s ++ DQ.

(** The chunks of [json.dump], with the default separators. *)
Fixpoint encode (j : json) : list string :=
  match j with
  | JNull => ["null"]
  | JBool true => ["true"]
  | JBool false => ["false"]
  | JNum n => [NilZero.string_of_int (Z.to_int n)]
  | JStr s => [quote s]
  | JList l =>
      ("[" ::
       (fix items (l : list json) (first : bool) : list string :=
          match l with
          | [] => []
          | x :: l' =>
              (if first then [] else [", "]) ++ encode x ++ items l' false
          end) l true ++ ["]"])%list
  | JDict d =>
      ("{" ::
       (fix members (d : list (string * json)) (first : bool)
          : list string :=
          match d with
          | [] => []
          | (k, v) :: d' =>
              (if first then [] else [", "]) ++ [quote k; ": "]
                ++ encode v ++ members d' false
          end) d true ++ ["}"])%list
  end.

Fixpoint skip_ws (s : string) : string :=
  match s with
  | String c s' => if Py.is_space c then skip_ws s' else s
  | EmptyString => s
  end.

Definition digit_value (c : ascii) : option nat :=
  let n := nat_of_ascii c in
  if ((48 <=? n) && (n <=? 57))%nat then Some (n - 48)
  else if ((97 <=? n) && (n <=? 102))%nat then Some (n - 87)
  else None.

Fixpoint parse_digits (s : string) (acc : Z) : Z * string :=
  match s with
  | String c s' =>
      match digit_value c with
      | Some d => if (d <? 10)%nat then parse_digits s' (10 * acc + Z.of_nat d)
                  else (acc, s)
      | None => (acc, s)
      end
  | EmptyString => (acc, s)
  end.

Definition push (c : ascii) (r : option (string * string))
  : option (string * string) :=
  match r with
  | Some (text, rest) => Some (String c text, rest)
  | None => None
  end.

(** The characters of a string literal after its opening quote. *)
Fixpoint parse_string (s : string) : option (string * string) :=
  match s with
  | EmptyString => None
  | String c s' =>
      if Ascii.eqb c "034" then Some (EmptyString, s')
      else if Ascii.eqb c "\" then
        match s' with
        | String "u" (String "0" (String "0" (String h (String l s'')))) =>
            match digit_value h, digit_value l with
            | Some a, Some b => push (ascii_of_nat (16 * a + b))
                                  (parse_string s'')
            | _, _ => None
            end
        | String e s'' =>
            if Ascii.eqb e "n" then push LF (parse_string s'')
            else if Ascii.eqb e "r" then push "013" (parse_string s'')
            else if Ascii.eqb e "t" then push "009" (parse_string s'')
            else if Ascii.eqb e "034" || Ascii.eqb e "\" || Ascii.eqb e "/"
            then push e (parse_string s'')
            else None
        | EmptyString => None
        end
      else push c (parse_string s')
  end.

Definition literal (word : string) (v : json) (s : string)
  : option (json * string) :=
  if String.prefix word s
  then Some (v, substring (String.length word)
                  (String.length s - String.length word) s)
  else None.

Fixpoint parse_value (fuel : nat) (s : string) : option (json * string) :=
  match fuel with
  | O => None
  | S fuel' =>
      match skip_ws s with
      | EmptyString => None
      | String c rest =>
          if Ascii.eqb c "034" then
            match parse_string rest with
            | Some (text, rest') => Some (JStr text, rest')
            | None => None
            end
          else if Ascii.eqb c "[" then
            match skip_ws rest with
            | String "]" rest' => Some (JList [], rest')
            | _ => parse_items fuel' rest []
            end
          else if Ascii.eqb c "{" then
            match skip_ws rest with
            | String "}" rest' => Some (JDict [], rest')
            | _ => parse_members fuel' rest []
            end
          else if Ascii.eqb c "-" then
            match parse_digits rest 0 with
            | (n, rest') =>
                if String.eqb rest rest' then None else Some (JNum (- n), rest')
            end
          else
            match digit_value c with
            | Some d =>
                if (d <? 10)%nat then
                  match parse_digits (String c rest) 0 with
                  | (n, rest') => Some (JNum n, rest')
                  end
                else if Ascii.eqb c "f" then literal "alse" (JBool false) rest
                else None
            | None =>
                if Ascii.eqb c "n" then literal "ull" JNull rest
                else if Ascii.eqb c "t" then literal "rue" (JBool true) rest
                else None
            end
      end
  end
with parse_items (fuel : nat) (s : string) (acc : list json)
  : option (json * string) :=
  match fuel with
  | O => None
  | S fuel' =>
      match parse_value fuel' s with
      | None => None
      | Some (v, rest) =>
          match skip_ws rest with
          | String "," rest' => parse_items fuel' rest' (v :: acc)
          | String "]" rest' => Some (JList (rev (v :: acc)), rest')
          | _ => None
          end
      end
  end
with parse_members (fuel : nat) (s : string) (acc : list (string * json))
  : option (json * string) :=
  match fuel with
  | O => None
  | S fuel' =>
      match skip_ws s with
      | String "034" rest =>
          match parse_string rest with
          | None => None
          | Some (k, rest') =>
              match skip_ws rest' with
              | String ":" rest'' =>
                  match parse_value fuel' rest'' with
                  | None => None
                  | Some (v, rest3) =>
                      match skip_ws rest3 with
                      | String "," rest4 =>
                          parse_members fuel' rest4 (Dict.set k v acc)
                      | String "}" rest4 =>
                          Some (JDict (Dict.set k v acc), rest4)
                      | _ => None
                      end
                  end
              | _ => None
              end
          end
      | _ => None
      end
  end.

(** [json.loads] *)
Definition decode (s : string) : result json :=
  match parse_value (2 * String.length s + 2) s with
  | Some (v, rest) =>
      match skip_ws rest with
      | EmptyString => Ok v
      | _ => Raise (Other "JSONDecodeError" "Extra data")
      end
  | None => Raise (Other "JSONDecodeError" "Expecting value")
  end.

#[global] Instance ssh : SSHClient env := {
  exec_command := run_command;
  open_sftp := fun w => (w, Ok tt);
  sftp_close := fun w => (w, Ok tt);
  sftp_file_open := file_open;
  sftp_file_write := file_write;
  sftp_file_read := file_get;
  sftp_file_close := fun _ w => (w, Ok tt);
  sftp_put := put
}.

#[global] Instance host : LocalHost env := {
  strftime_now := tick;
  input := answer;
  os_path_exists := fun path w => Dict.mem path (local_files w);
  os_path_isdir := fun path w => Py.mem path (local_dirs w);
  os_path_abspath := abspath;
  os_remove := fun _ w => (w, Ok tt);
  tar_add := fun _ _ _ _ w => (w, Ok tt);
  config_read := fun _ w => (w, Ok (JDict []));
  file_read := local_get;
  template_render := fun text _ => Ok text;
  json_loads := decode;
  json_iterencode := encode;
  py_repr := fun v => String.concat EmptyString (encode v)
}.

(** A state to start a call from. *)
Definition start (w : env) (config : json) : state env :=
  {| world := w; trace := []; job_config := config |}.

End Mock.

(** ** The command registry

    [TACCSSHClient.process_command], which the test suite exercises, is not
    part of the sources at hand; the registry below follows sections 3, 4.1
    and 4.2 of the specification. *)

Module Registry.

Inductive status : Type := STARTED | RUNNING | COMPLETE | FAILED.

Definition terminal (st : status) : bool :=
  match st with
  | COMPLETE | FAILED => true
  | STARTED | RUNNING => false
  end.

(** Modelled from the spec: the command record of section 3, which the absent
    [TACCSSHClient] keeps per issued command: identity, command text, issue
    timestamp, status, accumulated output and the history of status changes.
    The channel handle is the stream of [report]s below. *)
Record Command : Type := {
  id : nat;
  cmd : string;
  ts : string;
  state_of : status;
  stdout : string;
  stderr : string;
  history : list (status * string)
}.

(** Modelled from the spec: what the channel of the absent transport layer
    reports when it is looked at (section 4.2): nothing ready and still open;
    bytes ready on the two streams; closed, with the bytes still buffered and
    the remote exit status; or an I/O error raised while draining. *)
Inductive report : Type :=
| Idle
| Ready (out err : string)
| Closed (out err : string) (exit_code : Z)
| Broken (text : string).

(** Modelled from the spec: the read of section 4.2 that the absent
    [process_command] performs on ready data: up to [max_bytes], or all that
    is available when [max_bytes] is negative (unspecified). *)
Definition read_upto (max_bytes : Z) (data : string) : string :=
  if (max_bytes <? 0)%Z then data
  else substring 0 (Z.to_nat max_bytes) data.

(** Modelled from the spec: the side effect of section 4.1 in the absent
    registry: a call that changes the status appends (status, timestamp) to
    the history. *)
Definition set_status (c : Command) (st : status) (now : string) : Command :=
  {| id := id c; cmd := cmd c; ts := ts c; state_of := st;
     stdout := stdout c; stderr := stderr c;
     history := history c ++ [(st, now)] |}.

(** Modelled from the spec: appending to the two buffers of a command, the
    only way the absent [process_command] changes them (section 4.2). *)
Definition append (c : Command) (out err : string) : Command :=
  {| id := id c; cmd := cmd c; ts := ts c; state_of := state_of c;
     stdout := stdout c ++ out; stderr := stderr c ++ err;
     history := history c |}.

(** Modelled from the spec: STARTED becomes RUNNING at the first look at the
    channel, in the absent [process_command] (section 4.2). *)
Definition mark_running (c : Command) (now : string) : Command :=
  match state_of c with
  | STARTED => set_status c RUNNING now
  | _ => c
  end.

(** Modelled from the spec: the transition rule of [poll] in section 4.2,
    for the absent [process_command], on one command: [reports] is what the
    channel reports from now on, and the result is the snapshot returned with
    the reports left, or [None] when a waiting poll is never woken.
    A terminal command is frozen.  Idle: a poll that does not wait returns
    with no new bytes, a waiting poll looks again.  Ready: up to [max_bytes]
    of each stream are appended.  Closed: everything left is drained and the
    exit status decides between COMPLETE and FAILED.  Broken: FAILED, with
    the error text captured at the end of the standard-error buffer. *)
Fixpoint poll (c : Command) (wait : bool) (max_bytes : Z) (now : string)
  (reports : list report) : option (Command * list report) :=
  if terminal (state_of c) then Some (c, reports)
  else
    match reports with
    | [] => if wait then None else Some (mark_running c now, [])
    | Idle :: rest =>
        if wait then poll c wait max_bytes now rest
        else Some (mark_running c now, rest)
    | Ready out err :: rest =>
        Some (append (mark_running c now)
                (read_upto max_bytes out) (read_upto max_bytes err), rest)
    | Closed out err exit_code :: rest =>
        Some (set_status (append c out err)
                (if (exit_code =? 0)%Z then COMPLETE else FAILED) now, rest)
    | Broken text :: rest =>
        Some (set_status (append c EmptyString text) FAILED now, rest)
    end.

(** Modelled from the spec: successive polls of one command by a caller of
    the absent registry, each with its own [wait] and [max_bytes]; the result
    lists the snapshots in the order they were returned. *)
Fixpoint polls (c : Command) (calls : list (bool * Z)) (now : string)
  (reports : list report) : list Command :=
  match calls with
  | [] => []
  | (wait, max_bytes) :: calls' =>
      match poll c wait max_bytes now reports with
      | None => []
      | Some (c', reports') => c' :: polls c' calls' now reports'
      end
  end.

(** Modelled from the spec: [issue] of section 4.1 in the absent registry: the
    next identity is the number of commands issued so far, and the command
    starts as STARTED with empty buffers. *)
Definition issue (commands : list Command) (text now : string)
  : list Command * Command :=
  let c := {| id := List.length commands; cmd := text; ts := now;
              state_of := STARTED; stdout := EmptyString;
              stderr := EmptyString; history := [(STARTED, now)] |} in
  ((commands ++ [c])%list, c).

End Registry.

(** ** Scenarios

    A manager, a user's cluster and job records to run the methods on. *)

Module Scenario.

Definition manager : TACCJobManager :=
  {| user := "clos21";
     jobs_dir := "/scratch/06307/clos21/taccjm-jobs";
     apps_dir := "/scratch/06307/clos21/taccjm-apps";
     trash_dir := "/scratch/06307/clos21/taccjm-trash" |}.

Definition job_dir : string :=
  "/scratch/06307/clos21/taccjm-jobs/test_20210512_101500".

(** A job as [setup_job] leaves it. *)
Definition ready : json :=
  JDict [("name", JStr "test");
         ("appId", JStr "test_app--1.0.0");
         ("inputs", JDict []);
         ("parameters", JDict []);
         ("slurm", JDict []);
         ("ts", JDict [("setup_ts", JStr "20210512_101500");
                       ("submit_ts", JNull);
                       ("start_ts", JNull);
                       ("end_ts", JNull);
                       ("dump_ts", JStr "20210512_101502")]);
         ("job_id", JStr "test_20210512_101500");
         ("job_dir", JStr job_dir)].

Definition sbatch : string :=
  "cd " ++ job_dir ++ ";sbatch submit_script.sh".

Definition listing (names : list string) : string :=
  "total 8" ++ nl
    ++ String.concat EmptyString
         (map (fun n => "drwx------ 2 clos21 G-0 4096 May 12 10:15 " ++ n
                          ++ nl) names).

(** The scheduler accepts the job; the jobs directory lists it. *)
Definition cluster : Mock.env :=
  {| Mock.commands :=
       [(sbatch,
         Mock.said
           ("Welcome to the Stampede2 Supercomputer" ++ nl
              ++ "Submitted batch job 7771234" ++ nl)
           EmptyString 0);
        ("ls -lat /scratch/06307/clos21/taccjm-jobs",
         Mock.said (listing ["."; ".."; "test_20210512_101500"])
           EmptyString 0)];
     Mock.remote_files := [];
     Mock.writes_left := 1000;
     Mock.clock := ["20210512_101700"; "20210512_101701";
                    "20210512_101800"; "20210512_101801"];
     Mock.answers := ["yes"; "yes"];
     Mock.local_files := [];
     Mock.local_dirs := [] |}.

(** A build that succeeds but warns on standard error. *)
Definition warning_cluster : Mock.env :=
  {| Mock.commands :=
       [("make", Mock.said "built" "warning: unused variable" 0)];
     Mock.remote_files := [];
     Mock.writes_left := 0;
     Mock.clock := [];
     Mock.answers := [];
     Mock.local_files := [];
     Mock.local_dirs := [] |}.

(** [cluster] with other canned commands. *)
Definition with_commands (cmds : list (string * channel)) : Mock.env :=
  {| Mock.commands := cmds;
     Mock.remote_files := Mock.remote_files cluster;
     Mock.writes_left := Mock.writes_left cluster;
     Mock.clock := Mock.clock cluster;
     Mock.answers := Mock.answers cluster;
     Mock.local_files := Mock.local_files cluster;
     Mock.local_dirs := Mock.local_dirs cluster |}.

(** The scheduler answers with the failure sentinel, as the mocked
    [_execute_command] of [test_jobs] does. *)
Definition rejecting : Mock.env :=
  with_commands [(sbatch, Mock.said ("FAILED" ++ nl) EmptyString 0)].

(** [sbatch] itself fails. *)
Definition refusing : Mock.env :=
  with_commands
    [(sbatch,
      Mock.said EmptyString
        "sbatch: error: Batch job submission failed: Invalid account" 1)].

(** [ready] after a successful [submit_job] on [cluster]. *)
Definition submitted : json :=
  JDict [("name", JStr "test");
         ("appId", JStr "test_app--1.0.0");
         ("inputs", JDict []);
         ("parameters", JDict []);
         ("slurm", JDict [("slurm_id", JStr "7771234")]);
         ("ts", JDict [("setup_ts", JStr "20210512_101500");
                       ("submit_ts", JStr "20210512_101700");
                       ("start_ts", JNull);
                       ("end_ts", JNull);
                       ("dump_ts", JStr "20210512_101701")]);
         ("job_id", JStr "test_20210512_101500");
         ("job_dir", JStr job_dir)].

(** The scheduler does not let the job be cancelled. *)
Definition stuck : Mock.env :=
  with_commands
    [("scancel 7771234",
      Mock.said EmptyString
        "scancel: error: Kill job error on job id 7771234" 1)].

(** The serialized form of a value. *)
Definition text (j : json) : string :=
  String.concat EmptyString (Mock.encode j).

Definition job_config_json : string := job_dir ++ "/job_config.json".

(** [ready] is on the cluster, and the connection drops after [writes]
    more writes. *)
Definition flaky (writes : nat) : Mock.env :=
  {| Mock.commands := Mock.commands cluster;
     Mock.remote_files := [(job_config_json, text ready)];
     Mock.writes_left := writes;
     Mock.clock := ["20210512_103000"];
     Mock.answers := [];
     Mock.local_files := [];
     Mock.local_dirs := [] |}.

(** The job and the application of the test suite. *)
Definition job_json : json :=
  JDict [("name", JStr "test");
         ("appId", JStr "test_app--1.0.0");
         ("inputs", JDict [("input1", JStr "data.txt")]);
         ("parameters", JDict [("param1", JNum 3)]);
         ("slurm", JDict [])].

Definition app_json : json :=
  JDict [("name", JStr "test_app--1.0.0");
         ("shortDescription", JStr "Test application");
         ("defaultQueue", JStr "development");
         ("defaultNodeCount", JNum 1);
         ("defaultProcessorsPerNode", JNum 4);
         ("defaultMaxRunTime", JStr "00:10:00");
         ("templatePath", JStr "run.sh")].

Definition app_dir : string :=
  "/scratch/06307/clos21/taccjm-apps/test_app--1.0.0".

Definition copy_app : string :=
  "cp -r " ++ app_dir ++ "/* " ++ job_dir ++ "/".

(** A cluster with the application deployed and a local job directory;
    [cp] is what copying the application prints, [writes] the number of
    SFTP writes before the connection drops, and [data] the local files
    besides [job.json] and [project.ini]. *)
Definition setup_cluster (cp : channel) (writes : nat)
  (data : list (string * string)) : Mock.env :=
  {| Mock.commands :=
       [("ls -lat /scratch/06307/clos21/taccjm-apps",
         Mock.said (listing ["."; ".."; "test_app--1.0.0"]) EmptyString 0);
        (copy_app, cp);
        ("cat " ++ app_dir ++ "/run.sh",
         Mock.said ("echo ${input1} ${param1}" ++ nl) EmptyString 0)];
     Mock.remote_files := [(app_dir ++ "/app.json", text app_json)];
     Mock.writes_left := writes;
     Mock.clock := ["20210512_101500"; "20210512_101502"];
     Mock.answers := [];
     Mock.local_files :=
       [("./project.ini", "[app]"); ("./job.json", text job_json)] ++ data;
     Mock.local_dirs := [] |}.

Definition data_txt : list (string * string) :=
  [("data.txt", "hello" ++ nl ++ "world" ++ nl)].

(** The command of [test_process_command], as issued, and a channel that
    stays idle, then delivers [test], then closes with status 0. *)
Definition pwd : Registry.Command :=
  snd (Registry.issue [] "pwd" "20210512_101500").

Definition channel_reports : list Registry.report :=
  [Registry.Idle; Registry.Ready "test" EmptyString;
   Registry.Closed "est" EmptyString 0].

(** A poll that does not wait, a poll for one byte, and a waiting poll. *)
Definition three_polls : list (bool * Z) :=
  [(false, (-1)%Z); (false, 1%Z); (true, 1%Z)].

End Scenario.

(** ** The other methods of [TACCJobManager]

    The constructor, the file helpers and the job-file helpers: what the
    class offers besides the job lifecycle. *)

(** *** Library functions they call *)

Module Str.

(** [s.lstrip()] *)
Fixpoint lstrip (s : string) : string :=
  match s with
  | String c s' => if Py.is_space c then lstrip s' else s
  | EmptyString => s
  end.

(** [s.rstrip(chars)], with [strippable] telling the characters of [chars] *)
Fixpoint rstrip_with (strippable : ascii -> bool) (s : string) : string :=
  match s with
  | EmptyString => EmptyString
  | String c s' =>
      match rstrip_with strippable s' with
      | EmptyString =>
          if strippable c then EmptyString else String c EmptyString
      | rest => String c rest
      end
  end.

(** [s.strip()] *)
Definition strip (s : string) : string :=
  rstrip_with Py.is_space (lstrip s).

(** [s.rstrip('/')] *)
Definition rstrip_slash (s : string) : string :=
  rstrip_with (Ascii.eqb "/") s.

(** Some character of [s] is white space. *)
Definition has_space (s : string) : bool :=
  existsb Py.is_space (list_ascii_of_string s).

(** Some character of [s] is a line feed. *)
Definition has_line_feed (s : string) : bool :=
  existsb (Ascii.eqb LF) (list_ascii_of_string s).

(** The list is in ascending order, the order [sort] puts strings in. *)
Fixpoint ascending (l : list string) : bool :=
  match l with
  | x :: ((y :: _) as l') => String.leb x y && ascending l'
  | _ => true
  end.

End Str.

Module Posix.

Definition is_nil {A : Type} (l : list A) : bool :=
  match l with [] => true | _ :: _ => false end.

(** The loop of [posixpath.normpath] over the components of the path:
    [new_comps] is what it has kept so far. *)
Fixpoint normpath_comps (initial_slashes : nat) (comps new_comps : list string)
  : list string :=
  match comps with
  | [] => new_comps
  | comp :: comps' =>
      if String.eqb comp EmptyString || String.eqb comp "." then
        normpath_comps initial_slashes comps' new_comps
      else if negb (String.eqb comp "..")
              || ((initial_slashes =? 0)%nat && is_nil new_comps)
              || (negb (is_nil new_comps)
                  && String.eqb (List.last new_comps EmptyString) "..")
      then normpath_comps initial_slashes comps' (new_comps ++ [comp])
      else normpath_comps initial_slashes comps' (removelast new_comps)
  end.

(** [os.path.normpath(path)] *)
Definition normpath (path : string) : string :=
  if String.eqb path EmptyString then "."
  else
    let initial_slashes :=
      if String.prefix "/" path then
        if String.prefix "//" path && negb (String.prefix "///" path)
        then 2%nat else 1%nat
      else 0%nat in
    let comps := normpath_comps initial_slashes (Py.split "/" path) [] in
    let path' := String.concat "/" comps in
    let path' :=
      match initial_slashes with
      | O => path'
      | 1%nat => "/" ++ path'
      | _ => "//" ++ path'
      end in
    if String.eqb path' EmptyString then "." else path'.

End Posix.

(** What the constructor and the downloads call besides [SSHClient] and
    [LocalHost]. *)
Class Workstation (W : Type) : Type := {
  (** [self._client.load_system_host_keys()] *)
  load_system_host_keys : W -> W * result unit;
  (** [self._client.connect(system, uid=user, pswd=psw, mfa_pswd=mfa)] *)
  connect : string -> string -> option string -> option string
            -> W -> W * result unit;
  (** [sftp.get(remote, local)] *)
  sftp_get : string -> string -> W -> W * result unit;
  (** [with tarfile.open(tar) as t: t.extractall(path=dir)] *)
  tar_extractall : string -> string -> W -> W * result unit;
  (** [os.mkdir(path)] *)
  os_mkdir : string -> W -> W * result unit
}.

Definition is_FileExistsError (e : exn) : bool :=
  match e with
  | Other cls _ => String.eqb cls "FileExistsError"
  | _ => false
  end.

Section Calls.
Context {W : Type}.

(** A call through [Workstation]; the trace has no entry for these. *)
Definition run {A : Type} (f : W -> W * result A) : M W A :=
  fun s =>
    let (w, r) := f (world s) in
    ({| world := w; trace := trace s; job_config := job_config s |}, r).

(** [logger.info(msg)]: the trace keeps the errors of the log only. *)
Definition logger_info (msg : string) : M W unit := ret tt.

(** All that [m] adds to the trace are events that [allowed] admits. *)
Definition emits {A : Type} (allowed : event -> Prop) (m : M W A) : Prop :=
  forall s, exists t,
    trace (fst (m s)) = (trace s ++ t)%list /\ Forall allowed t.

End Calls.

Definition TACC_SYSTEMS : list string :=
  ["stampede2"; "ls5"; "frontera"; "maverick2"].

Definition TACCJM_DIR : string := "$SCRATCH".

Section Files.
Context {W : Type} `{SSHClient W} `{LocalHost W} `{Workstation W}.
Variable self : TACCJobManager.

(** The constructor, called with a user name; [apps], [jobs] and [trash] are
    its arguments [apps_dir], [jobs_dir] and [trash_dir].  The result is
    [self.system] and the attributes the methods read. *)
Definition __init__ (system user : string) (psw mfa : option string)
  (apps jobs trash : string) : M W (string * TACCJobManager) :=
  if negb (Py.mem system TACC_SYSTEMS) then
    let msg := "Unrecognized TACC system " ++ system
                 ++ ". Must be one of "
                 ++ "['stampede2', 'ls5', 'frontera', 'maverick2']." in
    logger_error msg ;;
    raise (Exception msg)
  else
    let system' := system ++ ".tacc.utexas.edu" in
    logger_info ("Connecting to TACC system " ++ system ++ "...") ;;
    run load_system_host_keys ;;
    run (connect system' user psw mfa) ;;
    logger_info ("Succesfuly connected to " ++ system) ;;
    out <- _execute_command ("echo " ++ TACCJM_DIR) false ;;
    let taccjm_path := Str.strip out in
    let jobs_dir' := String.concat "/" [taccjm_path; jobs] in
    let apps_dir' := String.concat "/" [taccjm_path; apps] in
    let trash_dir' := String.concat "/" [taccjm_path; trash] in
    logger_info "Creating if apps/jobs dirs if they don't already exist" ;;
    _execute_command ("mkdir -p " ++ jobs_dir') false ;;
    _execute_command ("mkdir -p " ++ apps_dir') false ;;
    ret (system',
         {| user := user; jobs_dir := jobs_dir'; apps_dir := apps_dir';
            trash_dir := trash_dir' |}).

Definition showq : M W string :=
  _execute_command ("showq -u " ++ user self) false.

Definition get_allocations : M W string :=
  let cmd := "/usr/local/etc/taccinfo" in
  _execute_command cmd false.

Definition peak_file (path : string) (head tail : Z) : M W string :=
  let cmnd :=
    if (0 <? head)%Z then "head -" ++ py_str (JNum head) ++ " " ++ path
    else if (0 <? tail)%Z then "tail -" ++ py_str (JNum tail) ++ " " ++ path
    else "head " ++ path in
  try_except (_execute_command cmnd false)
    (fun _ =>
       let msg := "Unable to peak at file at " ++ path in
       logger_error msg ;;
       raise (Exception msg)).

Definition get_file (remote local : string) : M W unit :=
  let local := Str.rstrip_slash local in
  try_except
    (let fname := Py.basename remote in
     let cmd := "cd " ++ remote ++ "/.. && { tar -czvf "
                  ++ fname ++ ".tar.gz " ++ fname ++ "; }" in
     _execute_command cmd false ;;
     local_dir <- ask (os_path_abspath (os_path_join local "..")) ;;
     let local_tar := local_dir ++ "/" ++ fname ++ ".tar.gz" in
     with_sftp (run (sftp_get (remote ++ ".tar.gz") local_tar)) ;;
     run (tar_extractall local_tar local_dir) ;;
     call (ERemove local_tar) (os_remove local_tar))
    (fun _ => with_sftp (run (sftp_get remote local))).

(** The handler of lines 247-250. *)
Definition deploy_failed {A : Type} (app_config_path : string) (e : exn)
  : M W A :=
  logger_error ("Unable to save app config file to " ++ app_config_path
                  ++ ". Retry deploying app.") ;;
  raise e.

(** The [try] of lines 236-250 is entered twice here, since what its handler
    logs is [app_config_path] as it is when the exception comes: the local
    path of line 224 until line 243 binds it again. *)
Definition deploy_app
  (local_app_dir app_config_file proj_config_file : string) (overwrite : bool)
  : M W json :=
  let proj_config_path := os_path_join local_app_dir proj_config_file in
  proj_config <- load_project_config proj_config_path ;;
  let app_config_path := os_path_join local_app_dir app_config_file in
  app_config <- load_templated_json_file app_config_path proj_config ;;
  cur_apps <- get_apps self ;;
  name <- lift (Py.getitem app_config "name") ;;
  if in_list name cur_apps && negb overwrite then
    let msg := "Unable to deploy app " ++ py_str name
                 ++ " - already exists and overwite is not set." in
    logger_info msg ;;
    raise (Exception msg)
  else
    remote_app_dir <-
      try_except
        (let local_app_dir := os_path_join local_app_dir "assets" in
         name <- lift (Py.getitem app_config "name") ;;
         remote_app_dir <- lift (join_slash [JStr (apps_dir self); name]) ;;
         send_file local_app_dir remote_app_dir true ;;
         ret remote_app_dir)
        (deploy_failed app_config_path) ;;
    let app_config_path := String.concat "/" [remote_app_dir; "app.json"] in
    try_except
      (with_sftp
         (with_file app_config_path "w"
            (json_dump app_config app_config_path)))
      (deploy_failed app_config_path) ;;
    ret app_config.

(** [job_config] is not a name of the method's scope. *)
Definition ls_job (jobId path : string) : M W (list string) :=
  raise (NameError "job_config").

Definition get_job_file (fpath dest_dir : string) : M W string :=
  job_dir <- config_get "job_dir" ;;
  job_dir <- lift (Py.as_str job_dir) ;;
  let local_data_dir := Py.basename (Posix.normpath job_dir) in
  let fname := Py.basename (Posix.normpath fpath) in
  let local_data_dir := os_path_join dest_dir local_data_dir in
  try_except (run (os_mkdir local_data_dir))
    (fun e =>
       if is_FileExistsError e then
         logger_info "Local Job Data dir for already exists."
       else raise e) ;;
  job_dir <- config_get "job_dir" ;;
  job_dir <- lift (Py.as_str job_dir) ;;
  let src_path := job_dir ++ "/" ++ fpath in
  let dest_path := os_path_join local_data_dir fname in
  try_except (get_file src_path dest_path)
    (fun _ =>
       let msg := "Unable to download job file " ++ src_path
                    ++ " to destination " ++ dest_path in
       logger_error msg ;;
       raise (Exception msg)) ;;
  ret dest_path.

(** The [try] of lines 620-629 is entered twice here: until line 623 has
    bound [dest_path], the handler's own message cannot be built. *)
Definition send_job_file (fpath dest_dir : string) : M W string :=
  dest_path <-
    try_except
      (let fname := Py.basename (Posix.normpath fpath) in
       job_dir <- config_get "job_dir" ;;
       lift (join_slash [job_dir; JStr dest_dir; JStr fname]))
      (fun _ => raise (UnboundLocalError "dest_path")) ;;
  try_except (send_file fpath dest_path true ;; ret tt)
    (fun _ =>
       let msg := "Unable to send file " ++ fpath
                    ++ " to destination destination " ++ dest_path in
       logger_error msg ;;
       raise (Exception msg)) ;;
  ret dest_path.

Definition peak_job_file (fpath : string) (head tail : Z) : M W string :=
  job_dir <- config_get "job_dir" ;;
  job_dir <- lift (Py.as_str job_dir) ;;
  let path := job_dir ++ "/" ++ fpath in
  peak_file path head tail.

End Files.

(** *** Reading the trace and the record of these methods *)

(** The events of a [cleanup_job] that asks nothing: the removal of a
    directory, and the log. *)
Definition removal_only (ev : event) : Prop :=
  match ev with
  | EExec cmnd => String.prefix "rm -r " cmnd = true
  | ELogError _ => True
  | _ => False
  end.

(** The attributes [setup_job] fills in, each with the key of the
    application's configuration that holds its default (lines 413-417). *)
Definition defaults : list (string * string) :=
  [("desc", "shortDescription");
   ("queue", "defaultQueue");
   ("nodeCount", "defaultNodeCount");
   ("processorsPerNode", "defaultProcessorsPerNode");
   ("maxRunTime", "defaultMaxRunTime")].

(** What [json.dump] into a fresh remote file [dest] puts on the wire. *)
Definition dump_events (dest : string) (chunks : list string) : list event :=
  [EOpenSftp; EFileOpen dest "w"]
    ++ map (EFileWrite dest) chunks
    ++ [EFileClose dest; ECloseSftp].

(** The events of a download of [remote]: the command that packs it, the
    SFTP sessions, and the removal of the local archive. *)
Definition download_events (remote : string) (ev : event) : Prop :=
  match ev with
  | EExec cmnd =>
      cmnd = "cd " ++ remote ++ "/.. && { tar -czvf "
               ++ Py.basename remote ++ ".tar.gz " ++ Py.basename remote
               ++ "; }"
  | EOpenSftp | ECloseSftp | ERemove _ => True
  | _ => False
  end.

(** *** The test double, for the constructor and the downloads *)

Module Station.

Definition set_local (w : Mock.env) (fs : list (string * string))
  (ds : list string) : Mock.env :=
  {| Mock.commands := Mock.commands w;
     Mock.remote_files := Mock.remote_files w;
     Mock.writes_left := Mock.writes_left w;
     Mock.clock := Mock.clock w;
     Mock.answers := Mock.answers w;
     Mock.local_files := fs;
     Mock.local_dirs := ds |}.

(** A download copies the remote file to the local path. *)
Definition get (remote local : string) (w : Mock.env)
  : Mock.env * result unit :=
  match Dict.get remote (Mock.remote_files w) with
  | Some text =>
      (set_local w (Dict.set local text (Mock.local_files w))
         (Mock.local_dirs w), Ok tt)
  | None => (w, Raise FileNotFoundError)
  end.

Definition mkdir (path : string) (w : Mock.env) : Mock.env * result unit :=
  if Py.mem path (Mock.local_dirs w) then
    (w, Raise (Other "FileExistsError" path))
  else (set_local w (Mock.local_files w) (path :: Mock.local_dirs w), Ok tt).

#[global] Instance station : Workstation Mock.env := {
  load_system_host_keys := fun w => (w, Ok tt);
  connect := fun _ _ _ _ w => (w, Ok tt);
  sftp_get := get;
  tar_extractall := fun _ _ w => (w, Ok tt);
  os_mkdir := mkdir
}.

End Station.

(** *** More scenarios *)

Module Cases.

Definition jobs_listing : string :=
  "ls -lat /scratch/06307/clos21/taccjm-jobs".

Definition apps_listing : string :=
  "ls -lat /scratch/06307/clos21/taccjm-apps".

(** The jobs directory holds a job whose name has a blank in it. *)
Definition spaced : Mock.env :=
  Scenario.with_commands
    [(jobs_listing,
      Mock.said (Scenario.listing ["."; ".."; "my job"; "alpha"])
        EmptyString 0)].




(** A record that holds a scheduler job identifier and was never
    submitted. *)
Definition stray : json :=
  JDict [("name", JStr "test");
         ("slurm", JDict [("slurm_id", JStr "7771234")]);
         ("ts", JDict [("setup_ts", JStr "20210512_101500");
                       ("submit_ts", JNull);
                       ("start_ts", JNull);
                       ("end_ts", JNull)]);
         ("job_id", JStr "test_20210512_101500");
         ("job_dir", JStr Scenario.job_dir)].

(** [ls] lists the jobs directory and complains about one entry. *)
Definition complaining : Mock.env :=
  Scenario.with_commands
    [(jobs_listing,
      Mock.said (Scenario.listing ["."; ".."; "alpha"])
        "ls: cannot access 'beta': Permission denied" 2)].

(** [Scenario.ready] as [cleanup_job] leaves it. *)
Definition cleaned : json :=
  JDict [("name", JStr "test");
         ("appId", JStr "test_app--1.0.0");
         ("inputs", JDict []);
         ("parameters", JDict []);
         ("slurm", JDict []);
         ("ts", JDict [("setup_ts", JStr "20210512_101500");
                       ("submit_ts", JNull);
                       ("start_ts", JNull);
                       ("end_ts", JNull);
                       ("dump_ts", JStr "20210512_101502")]);
         ("job_id", JStr "test_20210512_101500");
         ("job_dir", JNull)].

(** The user answers no. *)
Definition declining : Mock.env :=
  {| Mock.commands := Mock.commands Scenario.cluster;
     Mock.remote_files := [];
     Mock.writes_left := 1000;
     Mock.clock := [];
     Mock.answers := ["No"];
     Mock.local_files := [];
     Mock.local_dirs := [] |}.

(** [sbatch] prints the identifier and does not end the line. *)
Definition terse : Mock.env :=
  Scenario.with_commands
    [(Scenario.sbatch,
      Mock.said "Submitted batch job 7771234" EmptyString 0)].

(** The job of the test suite, asking for a queue of its own. *)
Definition job_with_queue : json :=
  JDict [("name", JStr "test");
         ("appId", JStr "test_app--1.0.0");
         ("queue", JStr "normal");
         ("inputs", JDict []);
         ("parameters", JDict []);
         ("slurm", JDict [])].

(** A local directory to send, of which no archive can be read. *)
Definition unpacked : Mock.env :=
  {| Mock.commands := [];
     Mock.remote_files := [];
     Mock.writes_left := 1000;
     Mock.clock := [];
     Mock.answers := [];
     Mock.local_files := [];
     Mock.local_dirs := ["assets"] |}.

(** The application of the test suite, ready to be deployed from the
    current directory to a cluster that has it already. *)
Definition deploying : Mock.env :=
  {| Mock.commands :=
       [(apps_listing,
         Mock.said (Scenario.listing ["."; ".."; "test_app--1.0.0"])
           EmptyString 0)];
     Mock.remote_files := [];
     Mock.writes_left := 1000;
     Mock.clock := [];
     Mock.answers := [];
     Mock.local_files :=
       [("./project.ini", "[app]");
        ("./app.json", Scenario.text Scenario.app_json);
        (".assets.taccjm.tar", "assets, packed")];
     Mock.local_dirs := ["./assets"] |}.

(** A cluster that tells where the scratch directory is. *)
Definition fresh : Mock.env :=
  Scenario.with_commands
    [("echo $SCRATCH",
      Mock.said ("/scratch/06307/clos21" ++ nl) EmptyString 0)].

(** A job directory with an output file in it. *)
Definition finished : Mock.env :=
  {| Mock.commands :=
       [("cd " ++ Scenario.job_dir ++ "/out.txt/.. && { tar -czvf "
           ++ "out.txt.tar.gz out.txt; }",
         Mock.said EmptyString
           ("bash: cd: " ++ Scenario.job_dir ++ "/out.txt/..: Not a directory")
           1)];
     Mock.remote_files := [(Scenario.job_dir ++ "/out.txt", "42" ++ nl)];
     Mock.writes_left := 1000;
     Mock.clock := [];
     Mock.answers := [];
     Mock.local_files := [];
     Mock.local_dirs := [] |}.

End Cases.

(** * Properties *)

(** ** Dictionaries *)

Lemma dict_get_set_eq {V : Type} (k : string) (v : V) d :
  Dict.get k (Dict.set k v d) = Some v.
Proof.
  induction d as [|[k' v'] d IH]; simpl.
  - now rewrite String.eqb_refl.
  - destruct (String.eqb k' k) eqn:E; simpl.
    + now rewrite String.eqb_refl.
    + now rewrite E.
Qed.

Lemma dict_get_set_ne {V : Type} (k k' : string) (v : V) d :
  k <> k' -> Dict.get k' (Dict.set k v d) = Dict.get k' d.
Proof.
  intros Hne. induction d as [|[k0 v0] d IH]; simpl.
  - destruct (String.eqb_spec k k'); [contradiction | reflexivity].
  - destruct (String.eqb_spec k0 k) as [->|Hk]; simpl.
    + destruct (String.eqb_spec k k'); [contradiction | reflexivity].
    + destruct (String.eqb_spec k0 k'); [reflexivity | exact IH].
Qed.

Lemma dict_get_pop_eq {V : Type} (k : string) (d : list (string * V)) :
  Dict.get k (Dict.pop k d) = None.
Proof.
  induction d as [|[k0 v0] d IH]; simpl; [reflexivity|].
  destruct (String.eqb_spec k0 k) as [->|Hk]; simpl; [exact IH|].
  destruct (String.eqb_spec k0 k); [contradiction | exact IH].
Qed.

Lemma dict_get_pop_ne {V : Type} (k k' : string) (d : list (string * V)) :
  k <> k' -> Dict.get k' (Dict.pop k d) = Dict.get k' d.
Proof.
  intros Hne. induction d as [|[k0 v0] d IH]; simpl; [reflexivity|].
  destruct (String.eqb_spec k0 k) as [->|Hk]; simpl.
  - destruct (String.eqb_spec k k'); [contradiction | exact IH].
  - destruct (String.eqb_spec k0 k'); [reflexivity | exact IH].
Qed.

(** ** Rules for stepping through a method *)

Section Rules.
Context {W : Type}.

Lemma post_ret {A : Type} (a : A) (s : state W) Q :
  Q s (Ok a) -> post (ret a) s Q.
Proof. exact (fun q => q). Qed.

Lemma post_raise {A : Type} (e : exn) (s : state W) (Q : _ -> result A -> Prop) :
  Q s (Raise e) -> post (raise e) s Q.
Proof. exact (fun q => q). Qed.

Lemma post_lift {A : Type} (r : result A) (s : state W) Q :
  Q s r -> post (lift r) s Q.
Proof. exact (fun q => q). Qed.

Lemma post_bind {A B : Type} (m : M W A) (k : A -> M W B) s Q :
  post m s (fun s' r =>
              match r with
              | Ok a => post (k a) s' Q
              | Raise e => Q s' (Raise e)
              end) ->
  post (bind m k) s Q.
Proof.
  unfold post, bind. destruct (m s) as [s' [a|e]]; simpl; auto.
Qed.

Lemma post_try {A : Type} (m : M W A) (h : exn -> M W A) s Q :
  post m s (fun s' r =>
              match r with
              | Ok a => Q s' (Ok a)
              | Raise e => post (h e) s' Q
              end) ->
  post (try_except m h) s Q.
Proof.
  unfold post, try_except. destruct (m s) as [s' [a|e]]; simpl; auto.
Qed.

Lemma post_attempt {A : Type} (m : M W A) s Q :
  post m s (fun s' r => Q s' (Ok r)) -> post (attempt m) s Q.
Proof.
  unfold post, attempt. destruct (m s) as [s' r]; simpl; auto.
Qed.

Lemma post_call {A : Type} (ev : event) (f : W -> W * result A) s Q :
  (forall w r,
      Q {| world := w; trace := trace s ++ [ev];
           job_config := job_config s |} r) ->
  post (call ev f) s Q.
Proof.
  intros HQ. unfold post, call. destruct (f (world s)) as [w r]. apply HQ.
Qed.

Lemma post_ask {A : Type} (f : W -> A) s Q :
  Q s (Ok (f (world s))) -> post (ask f) s Q.
Proof. exact (fun q => q). Qed.

Lemma post_get_config (s : state W) Q :
  Q s (Ok (job_config s)) -> post get_config s Q.
Proof. exact (fun q => q). Qed.

Lemma post_put_config (j : json) (s : state W) Q :
  Q {| world := world s; trace := trace s; job_config := j |} (Ok tt) ->
  post (put_config j) s Q.
Proof. exact (fun q => q). Qed.

Lemma post_weaken {A : Type} (m : M W A) s (Q Q' : _ -> _ -> Prop) :
  post m s Q -> (forall s' r, Q s' r -> Q' s' r) -> post m s Q'.
Proof. unfold post. auto. Qed.

Lemma post_keeps {A : Type} (m : M W A) s Q :
  keeps_config m ->
  (forall w t r,
      Q {| world := w; trace := t; job_config := job_config s |} r) ->
  post m s Q.
Proof.
  intros Hk HQ. unfold post. specialize (Hk s).
  destruct (m s) as [[w t c] r]. simpl in *. subst c. apply HQ.
Qed.

(** *** Methods that leave the configuration alone *)

Lemma keeps_ret {A : Type} (a : A) : keeps_config (W := W) (ret a).
Proof. intros s. reflexivity. Qed.

Lemma keeps_raise {A : Type} (e : exn) : keeps_config (W := W) (A := A) (raise e).
Proof. intros s. reflexivity. Qed.

Lemma keeps_lift {A : Type} (r : result A) : keeps_config (W := W) (lift r).
Proof. intros s. reflexivity. Qed.

Lemma keeps_ask {A : Type} (f : W -> A) : keeps_config (ask f).
Proof. intros s. reflexivity. Qed.

Lemma keeps_get_config : keeps_config (W := W) get_config.
Proof. intros s. reflexivity. Qed.

Lemma keeps_call {A : Type} (ev : event) (f : W -> W * result A) :
  keeps_config (call ev f).
Proof. intros s. unfold call. now destruct (f (world s)). Qed.

Lemma keeps_bind {A B : Type} (m : M W A) (k : A -> M W B) :
  keeps_config m -> (forall a, keeps_config (k a)) -> keeps_config (bind m k).
Proof.
  intros Hm Hk s. unfold bind. specialize (Hm s).
  destruct (m s) as [s' [a|e]]; simpl in *; [|exact Hm].
  now rewrite Hk.
Qed.

Lemma keeps_try {A : Type} (m : M W A) (h : exn -> M W A) :
  keeps_config m -> (forall e, keeps_config (h e)) ->
  keeps_config (try_except m h).
Proof.
  intros Hm Hh s. unfold try_except. specialize (Hm s).
  destruct (m s) as [s' [a|e]]; simpl in *; [exact Hm|].
  now rewrite Hh.
Qed.

Lemma keeps_attempt {A : Type} (m : M W A) :
  keeps_config m -> keeps_config (attempt m).
Proof.
  intros Hm s. unfold attempt. specialize (Hm s).
  now destruct (m s).
Qed.

Lemma keeps_for {A : Type} (l : list A) (body : A -> M W unit) :
  (forall x, keeps_config (body x)) -> keeps_config (for_ l body).
Proof.
  intros Hb. induction l as [|x l IH]; simpl.
  - apply keeps_ret.
  - apply keeps_bind; auto.
Qed.

Lemma keeps_fold {A S : Type} (l : list A) (body : A -> S -> M W S) acc :
  (forall x a, keeps_config (body x a)) -> keeps_config (fold_ l body acc).
Proof.
  intros Hb. revert acc. induction l as [|x l IH]; simpl; intros acc.
  - apply keeps_ret.
  - apply keeps_bind; auto.
Qed.

Lemma keeps_with {A : Type} (enter leave : M W unit) (body : M W A) :
  keeps_config enter -> keeps_config leave -> keeps_config body ->
  keeps_config (with_ enter leave body).
Proof.
  intros He Hl Hb. unfold with_.
  repeat (apply keeps_bind; [|intros ?]);
    auto using keeps_attempt, keeps_lift.
Qed.

End Rules.

Ltac keeps :=
  repeat first
    [ progress (intros; cbv beta)
    | apply keeps_ret | apply keeps_raise | apply keeps_lift | apply keeps_ask
    | apply keeps_get_config | apply keeps_call
    | apply keeps_bind | apply keeps_try | apply keeps_attempt
    | apply keeps_for | apply keeps_fold | apply keeps_with
    | assumption
    | match goal with
      | |- keeps_config (if ?b then _ else _) => destruct b
      | |- keeps_config (match ?x with _ => _ end) => destruct x
      | |- keeps_config (let (_, _) := ?x in _) => destruct x
      end ].

(** ** Subscripts *)

Lemma getitem_setitem_eq c k v c' :
  Py.setitem c k v = Ok c' -> Py.getitem c' k = Ok v.
Proof.
  destruct c; simpl; try discriminate. intros [= <-]. simpl.
  now rewrite dict_get_set_eq.
Qed.

Lemma getitem_setitem_ne c k v c' k' :
  Py.setitem c k v = Ok c' -> k <> k' -> Py.getitem c' k' = Py.getitem c k'.
Proof.
  destruct c; simpl; try discriminate. intros [= <-] Hne. simpl.
  now rewrite dict_get_set_ne.
Qed.

Lemma setitem_dict c k v c' :
  Py.setitem c k v = Ok c' -> exists d, c = JDict d.
Proof. destruct c; simpl; try discriminate. eauto. Qed.


Lemma getitem2_setitem2_eq c k1 k2 v c' :
  Py.setitem2 c k1 k2 v = Ok c' -> Py.getitem2 c' k1 k2 = Ok v.
Proof.
  unfold Py.setitem2, Py.getitem2.
  destruct (Py.getitem c k1) as [o|] eqn:Ho; [|discriminate].
  destruct (Py.setitem o k2 v) as [o'|] eqn:Ho'; [|discriminate].
  intros Hc. rewrite (getitem_setitem_eq _ _ _ _ Hc).
  exact (getitem_setitem_eq _ _ _ _ Ho').
Qed.

Lemma getitem2_setitem2_inner c k1 k2 v c' k2' :
  Py.setitem2 c k1 k2 v = Ok c' -> k2 <> k2' ->
  Py.getitem2 c' k1 k2' = Py.getitem2 c k1 k2'.
Proof.
  unfold Py.setitem2, Py.getitem2.
  destruct (Py.getitem c k1) as [o|] eqn:Ho; [|discriminate].
  destruct (Py.setitem o k2 v) as [o'|] eqn:Ho'; [|discriminate].
  intros Hc Hne. rewrite (getitem_setitem_eq _ _ _ _ Hc).
  exact (getitem_setitem_ne _ _ _ _ _ Ho' Hne).
Qed.

Lemma getitem2_setitem2_outer c k1 k2 v c' k1' k :
  Py.setitem2 c k1 k2 v = Ok c' -> k1 <> k1' ->
  Py.getitem2 c' k1' k = Py.getitem2 c k1' k.
Proof.
  unfold Py.setitem2, Py.getitem2.
  destruct (Py.getitem c k1) as [o|] eqn:Ho; [|discriminate].
  destruct (Py.setitem o k2 v) as [o'|] eqn:Ho'; [|discriminate].
  intros Hc Hne. now rewrite (getitem_setitem_ne _ _ _ _ _ Hc Hne).
Qed.

Lemma getitem2_setitem_outer c k1 v c' k1' k :
  Py.setitem c k1 v = Ok c' -> k1 <> k1' ->
  Py.getitem2 c' k1' k = Py.getitem2 c k1' k.
Proof.
  intros Hc Hne. unfold Py.getitem2.
  now rewrite (getitem_setitem_ne _ _ _ _ _ Hc Hne).
Qed.

Lemma getitem2_setitem_eq c k1 v c' k :
  Py.setitem c k1 v = Ok c' -> Py.getitem2 c' k1 k = Py.getitem v k.
Proof.
  intros Hc. unfold Py.getitem2. now rewrite (getitem_setitem_eq _ _ _ _ Hc).
Qed.

Section ConfigRules.
Context {W : Type}.

Lemma post_logger_error (msg : string) (s : state W) Q :
  Q (logged s msg) (Ok tt) -> post (logger_error msg) s Q.
Proof. exact (fun q => q). Qed.

Lemma post_config_get (k : string) (s : state W) Q :
  Q s (Py.getitem (job_config s) k) -> post (config_get k) s Q.
Proof. exact (fun q => q). Qed.

Lemma post_config_get2 (k1 k2 : string) (s : state W) Q :
  Q s (Py.getitem2 (job_config s) k1 k2) -> post (config_get2 k1 k2) s Q.
Proof.
  unfold post, config_get2, config_get, bind, get_config, lift, Py.getitem2.
  simpl. now destruct (Py.getitem (job_config s) k1).
Qed.

Lemma post_config_set (k : string) (v : json) (s : state W) Q :
  match Py.setitem (job_config s) k v with
  | Ok c => Q {| world := world s; trace := trace s; job_config := c |}
              (Ok tt)
  | Raise e => Q s (Raise e)
  end ->
  post (config_set k v) s Q.
Proof.
  unfold post, config_set, bind, get_config, lift, put_config. simpl.
  now destruct (Py.setitem (job_config s) k v).
Qed.

Lemma post_config_set2 (k1 k2 : string) (v : json) (s : state W) Q :
  match Py.setitem2 (job_config s) k1 k2 v with
  | Ok c => Q {| world := world s; trace := trace s; job_config := c |}
              (Ok tt)
  | Raise e => Q s (Raise e)
  end ->
  post (config_set2 k1 k2 v) s Q.
Proof.
  unfold post, config_set2, config_set, config_get, bind, get_config, lift,
    put_config, Py.setitem2. simpl.
  destruct (Py.getitem (job_config s) k1) as [o|]; simpl; [|auto].
  destruct (Py.setitem o k2 v) as [o'|]; simpl; [|auto].
  now destruct (Py.setitem (job_config s) k1 o').
Qed.
End ConfigRules.
(** ** Tracking a record through assignments *)

Lemma getitem2_after_setitem2 c k1 k2 v c' k1' k2' :
  Py.setitem2 c k1 k2 v = Ok c' ->
  Py.getitem2 c' k1' k2'
  = if String.eqb k1 k1' then
      if String.eqb k2 k2' then Ok v else Py.getitem2 c k1' k2'
    else Py.getitem2 c k1' k2'.
Proof.
  intros Hs.
  destruct (String.eqb_spec k1 k1') as [<-|Hk1].
  - destruct (String.eqb_spec k2 k2') as [<-|Hk2].
    + exact (getitem2_setitem2_eq _ _ _ _ _ Hs).
    + exact (getitem2_setitem2_inner _ _ _ _ _ _ Hs Hk2).
  - exact (getitem2_setitem2_outer _ _ _ _ _ _ _ Hs Hk1).
Qed.

Lemma getitem2_after_setitem c k1 v c' k1' k :
  Py.setitem c k1 v = Ok c' ->
  Py.getitem2 c' k1' k
  = if String.eqb k1 k1' then Py.getitem v k else Py.getitem2 c k1' k.
Proof.
  intros Hs.
  destruct (String.eqb_spec k1 k1') as [<-|Hk1].
  - exact (getitem2_setitem_eq _ _ _ _ _ Hs).
  - exact (getitem2_setitem_outer _ _ _ _ _ _ Hs Hk1).
Qed.

Lemma getitem_after_setitem c k v c' k' :
  Py.setitem c k v = Ok c' ->
  Py.getitem c' k' = if String.eqb k k' then Ok v else Py.getitem c k'.
Proof.
  intros Hs.
  destruct (String.eqb_spec k k') as [<-|Hk].
  - exact (getitem_setitem_eq _ _ _ _ Hs).
  - exact (getitem_setitem_ne _ _ _ _ _ Hs Hk).
Qed.

Lemma getitem_after_setitem2 c k1 k2 v c' k :
  Py.setitem2 c k1 k2 v = Ok c' -> k1 <> k ->
  Py.getitem c' k = Py.getitem c k.
Proof.
  unfold Py.setitem2.
  destruct (Py.getitem c k1) as [o|]; [|discriminate].
  destruct (Py.setitem o k2 v) as [o'|]; [|discriminate].
  apply getitem_setitem_ne.
Qed.

Lemma getitem2_after_stamped c c' k1 k2 :
  stamped c c' -> String.eqb k1 "ts" && String.eqb k2 "dump_ts" = false ->
  Py.getitem2 c' k1 k2 = Py.getitem2 c k1 k2.
Proof.
  intros [->|[now Hs]] Hk; [reflexivity|].
  rewrite (getitem2_after_setitem2 _ _ _ _ _ k1 k2 Hs).
  rewrite (String.eqb_sym "ts"), (String.eqb_sym "dump_ts").
  destruct (String.eqb k1 "ts"); [|reflexivity].
  destruct (String.eqb k2 "dump_ts"); [discriminate | reflexivity].
Qed.

Lemma getitem_after_stamped c c' k :
  stamped c c' -> "ts" <> k -> Py.getitem c' k = Py.getitem c k.
Proof.
  intros [->|[now Hs]] Hk; [reflexivity|].
  exact (getitem_after_setitem2 _ _ _ _ _ _ Hs Hk).
Qed.

Lemma getitem_after_pop_default o k p k' :
  Py.pop_default o k = Ok p -> k <> k' ->
  Py.getitem (snd p) k' = Py.getitem o k'.
Proof.
  destruct o; simpl; try discriminate.
  destruct (Dict.get k d); intros [= <-] Hne; simpl; [|reflexivity].
  now rewrite dict_get_pop_ne.
Qed.

Lemma getitem_after_pop o k p :
  Py.pop o k = Ok p -> Py.getitem (snd p) k = Raise (KeyError k).
Proof.
  destruct o; simpl; try discriminate.
  destruct (Dict.get k d); intros [= <-]; simpl.
  now rewrite dict_get_pop_eq.
Qed.

Lemma getitem2_unfold c k1 o k2 :
  Py.getitem c k1 = Ok o -> Py.getitem o k2 = Py.getitem2 c k1 k2.
Proof. intros Ho. unfold Py.getitem2. now rewrite Ho. Qed.

Lemma setitem_after_setitem c k v c' k' v' e :
  Py.setitem c k v = Ok c' -> Py.setitem c' k' v' = Raise e -> False.
Proof.
  destruct c; simpl; try discriminate. intros [= <-]. discriminate.
Qed.

Lemma setitem_after_setitem2 c k1 k2 v c' k' v' e :
  Py.setitem2 c k1 k2 v = Ok c' -> Py.setitem c' k' v' = Raise e -> False.
Proof.
  unfold Py.setitem2. destruct (Py.getitem c k1) as [o|]; [|discriminate].
  destruct (Py.setitem o k2 v) as [o'|]; [|discriminate].
  apply setitem_after_setitem.
Qed.

Lemma setitem_after_getitem c k v k' v' e :
  Py.getitem c k = Ok v -> Py.setitem c k' v' = Raise e -> False.
Proof. destruct c; simpl; discriminate. Qed.

(** Rewrites a subscript of a later configuration into a subscript of the
    configuration it came from. *)
Ltac backtrack :=
  repeat match goal with
    | Hs : stamped ?c ?c' |- context [Py.getitem2 ?c' ?k1 ?k2] =>
        rewrite (getitem2_after_stamped c c' k1 k2 Hs) by reflexivity
    | Hs : stamped ?c ?c' |- context [Py.getitem ?c' ?k] =>
        rewrite (getitem_after_stamped c c' k Hs) by discriminate
    | Hs : Py.setitem2 ?c ?k1 ?k2 ?v = Ok ?c'
      |- context [Py.getitem2 ?c' ?k1' ?k2'] =>
        rewrite (getitem2_after_setitem2 c k1 k2 v c' k1' k2' Hs); cbn
    | Hs : Py.setitem2 ?c ?k1 ?k2 ?v = Ok ?c'
      |- context [Py.getitem ?c' ?k] =>
        rewrite (getitem_after_setitem2 c k1 k2 v c' k Hs) by discriminate
    | Hs : Py.setitem ?c ?k1 ?v = Ok ?c'
      |- context [Py.getitem2 ?c' ?k1' ?k] =>
        rewrite (getitem2_after_setitem c k1 v c' k1' k Hs); cbn
    | Hs : Py.setitem ?c ?k1 ?v = Ok ?c' |- context [Py.getitem ?c' ?k] =>
        rewrite (getitem_after_setitem c k1 v c' k Hs); cbn
    | Hp : Py.pop_default ?o ?k = Ok ?p
      |- context [Py.getitem (snd ?p) ?k'] =>
        rewrite (getitem_after_pop_default o k p k' Hp) by discriminate
    | Hp : Py.pop ?o ?k = Ok ?p |- context [Py.getitem (snd ?p) ?k] =>
        rewrite (getitem_after_pop o k p Hp)
    | Ho : Py.getitem ?c ?k1 = Ok ?o |- context [Py.getitem ?o ?k2] =>
        rewrite (getitem2_unfold c k1 o k2 Ho)
    | Hg : Py.getitem2 ?c ?k1 ?k2 = _ |- context [Py.getitem2 ?c ?k1 ?k2] =>
        rewrite Hg
    end.

(** A configuration that was subscripted is a dictionary, so that a later
    assignment to one of its keys cannot raise. *)
Ltac impossible :=
  match goal with
  | H1 : Py.setitem ?c _ _ = Ok ?c', H2 : Py.setitem ?c' _ _ = Raise _ |- _ =>
      exfalso; exact (setitem_after_setitem _ _ _ _ _ _ _ H1 H2)
  | H1 : Py.setitem2 ?c _ _ _ = Ok ?c', H2 : Py.setitem ?c' _ _ = Raise _
    |- _ =>
      exfalso; exact (setitem_after_setitem2 _ _ _ _ _ _ _ _ H1 H2)
  | H1 : Py.getitem ?c _ = Ok _, H2 : Py.setitem ?c _ _ = Raise _ |- _ =>
      exfalso; exact (setitem_after_getitem _ _ _ _ _ _ H1 H2)
  end.

Ltac bools :=
  repeat match goal with
    | |- context [Py.not_None ?v] => destruct (Py.not_None v)
    | H : context [Py.not_None ?v] |- _ => destruct (Py.not_None v)
    | |- context [match ?r with Ok _ => _ | Raise _ => _ end] => destruct r
    | H : context [match ?r with Ok _ => _ | Raise _ => _ end] |- _ =>
        destruct r
    end;
  simpl in *; try congruence; auto.

(** ** Stepping through a method *)

Section Methods.
Context {W : Type} `{SSHClient W} `{LocalHost W}.

Lemma keeps_logger_error (msg : string) :
  keeps_config (W := W) (logger_error msg).
Proof. unfold logger_error, emit. keeps. Qed.

Lemma keeps_config_get k : keeps_config (W := W) (config_get k).
Proof. unfold config_get. keeps. Qed.

Lemma keeps_config_get2 k1 k2 : keeps_config (W := W) (config_get2 k1 k2).
Proof. unfold config_get2, config_get. keeps. Qed.

Lemma keeps_get_ts : keeps_config (W := W) get_ts.
Proof. unfold get_ts. keeps. Qed.

Lemma keeps_execute_command cmnd prnt :
  keeps_config (_execute_command cmnd prnt).
Proof. unfold _execute_command, emit. keeps. Qed.

Lemma keeps_confirm prompt : keeps_config (W := W) (confirm prompt).
Proof. unfold confirm. keeps. Qed.

Lemma keeps_list_files path : keeps_config (list_files path).
Proof.
  unfold list_files.
  keeps; auto using keeps_execute_command, keeps_logger_error.
Qed.

Lemma keeps_with_sftp {A : Type} (body : M W A) :
  keeps_config body -> keeps_config (with_sftp body).
Proof. intros Hb. unfold with_sftp. keeps. Qed.

Lemma keeps_with_file {A : Type} path mode (body : M W A) :
  keeps_config body -> keeps_config (with_file path mode body).
Proof. intros Hb. unfold with_file. keeps. Qed.

Lemma keeps_json_dump obj path : keeps_config (W := W) (json_dump obj path).
Proof. unfold json_dump. keeps. Qed.

Lemma keeps_json_load path : keeps_config (W := W) (json_load path).
Proof. unfold json_load. keeps. Qed.

End Methods.

Ltac pstep :=
  lazymatch goal with
  | |- post (bind _ _) _ _ => apply post_bind
  | |- post (ret _) _ _ => apply post_ret
  | |- post (raise _) _ _ => apply post_raise
  | |- post (lift _) _ _ => apply post_lift
  | |- post (try_except _ _) _ _ => apply post_try
  | |- post (config_get _) _ _ => apply post_config_get
  | |- post (config_get2 _ _) _ _ => apply post_config_get2
  | |- post (config_set _ _) _ _ => apply post_config_set
  | |- post (config_set2 _ _ _) _ _ => apply post_config_set2
  | |- post get_config _ _ => apply post_get_config
  | |- post (logger_error _) _ _ => apply post_logger_error
  | |- post (_execute_command _ _) _ _ =>
      apply post_keeps; [apply keeps_execute_command | intros ? ? [?|?]]
  | |- post get_ts _ _ =>
      apply post_keeps; [apply keeps_get_ts | intros ? ? [?|?]]
  | |- post (confirm _) _ _ =>
      apply post_keeps; [apply keeps_confirm | intros ? ? [?|?]]
  | |- post (if ?b then _ else _) _ _ => destruct b eqn:?
  | |- match ?r with Ok _ => _ | Raise _ => _ end =>
      destruct r eqn:?
  end; cbn [job_config world trace logged fst snd] in *.

Section Save.
Context {W : Type} `{SSHClient W} `{LocalHost W}.

Lemma post_save_job (s : state W) Q :
  (forall w t r c',
      stamped (job_config s) c' ->
      Q {| world := w; trace := t; job_config := c' |} r) ->
  post save_job s Q.
Proof.
  intros HQ. unfold save_job. destruct s as [w0 t0 c0].
  repeat pstep; try (apply HQ; first [left; reflexivity | right; eauto]).
  apply post_keeps.
  { apply keeps_with_sftp, keeps_with_file. keeps. }
  intros w1 t1 [[]|e]; repeat pstep; apply HQ; right; eauto.
Qed.

End Save.

Ltac psteps :=
  repeat first
    [ pstep
    | lazymatch goal with
      | |- post save_job _ _ =>
          apply post_save_job; intros ? ? ? ? ?;
          cbn [job_config world trace logged fst snd] in *
      end ].

Ltac settle :=
  unfold lifecycle_ok, timestamp_set, timestamp_null, has_slurm_id in *;
  backtrack; bools.

Section Lifecycle.
Context {W : Type} `{SSHClient W} `{LocalHost W}.

Lemma submit_job_keeps_lifecycle (s : state W) :
  lifecycle_ok (job_config s) = true ->
  lifecycle_ok (job_config (fst (submit_job s))) = true.
Proof.
  intros Hok.
  change (post submit_job s
            (fun s' _ => lifecycle_ok (job_config s') = true)).
  unfold submit_job. destruct s as [w0 t0 c0]. cbn [job_config] in Hok.
  psteps; try assumption; try impossible; settle.
Qed.

Lemma cancel_job_keeps_lifecycle (s : state W) :
  lifecycle_ok (job_config s) = true ->
  lifecycle_ok (job_config (fst (cancel_job s))) = true.
Proof.
  intros Hok.
  change (post cancel_job s
            (fun s' _ => lifecycle_ok (job_config s') = true)).
  unfold cancel_job. destruct s as [w0 t0 c0]. cbn [job_config] in Hok.
  psteps; try assumption; try impossible; settle.
Qed.

Lemma cleanup_remove_keeps_lifecycle check (s : state W) :
  lifecycle_ok (job_config s) = true ->
  lifecycle_ok (job_config (fst (cleanup_remove check s))) = true.
Proof.
  intros Hok.
  change (post (cleanup_remove check) s
            (fun s' _ => lifecycle_ok (job_config s') = true)).
  unfold cleanup_remove. destruct s as [w0 t0 c0]. cbn [job_config] in Hok.
  psteps; try assumption; try impossible; settle.
Qed.

Lemma cleanup_job_keeps_lifecycle check (s : state W) :
  lifecycle_ok (job_config s) = true ->
  lifecycle_ok (job_config (fst (cleanup_job check s))) = true.
Proof.
  intros Hok.
  change (post (cleanup_job check) s
            (fun s' _ => lifecycle_ok (job_config s') = true)).
  unfold cleanup_job. destruct s as [w0 t0 c0]. cbn [job_config] in Hok.
  assert (Hrem : forall s', lifecycle_ok (job_config s') = true ->
            post (cleanup_remove check) s'
              (fun s'' _ => lifecycle_ok (job_config s'') = true)).
  { intros. now apply cleanup_remove_keeps_lifecycle. }
  psteps; try assumption; try (now apply Hrem).
  unfold post.
  pose proof (cancel_job_keeps_lifecycle
                {| world := w; trace := t; job_config := c0 |} Hok) as Hc.
  destruct (cancel_job _) as [s' [r|e]]; cbn [fst snd] in *.
  - now apply Hrem.
  - exact Hc.
Qed.

Lemma config_get2_run (k1 k2 : string) (s : state W) :
  config_get2 k1 k2 s = (s, Py.getitem2 (job_config s) k1 k2).
Proof.
  unfold config_get2, config_get, bind, get_config, lift, Py.getitem2.
  now destruct (Py.getitem (job_config s) k1).
Qed.

Lemma timestamp_set_true c k :
  timestamp_set c k = true ->
  exists v, Py.getitem2 c "ts" k = Ok v /\ Py.not_None v = true.
Proof.
  unfold timestamp_set. destruct (Py.getitem2 c "ts" k); [eauto|discriminate].
Qed.

Lemma submit_job_success (s s1 : state W) (r : json) :
  submit_job s = (s1, Ok r) ->
  r = job_config s1
  /\ timestamp_set r "setup_ts" = true
  /\ timestamp_set r "submit_ts" = true
  /\ exists id, Py.getitem2 r "slurm" "slurm_id" = Ok (JStr id)
                /\ id <> "FAILED" /\ id <> EmptyString.
Proof.
  intros Hrun.
  assert (Hpost : post submit_job s
            (fun s' res =>
               forall r', res = Ok r' ->
                 r' = job_config s'
                 /\ timestamp_set r' "setup_ts" = true
                 /\ timestamp_set r' "submit_ts" = true
                 /\ exists id, Py.getitem2 r' "slurm" "slurm_id" = Ok (JStr id)
                      /\ id <> "FAILED" /\ id <> EmptyString)).
  2: { unfold post in Hpost. rewrite Hrun in Hpost. now apply Hpost. }
  clear Hrun. unfold submit_job. destruct s as [w0 t0 c0].
  psteps; try discriminate; try impossible.
  intros r' [= <-].
  split; [reflexivity|].
  rewrite (getitem2_after_setitem2 _ _ _ _ _ "slurm" "slurm_id" Heqr5)
    in Heqr7.
  cbn in Heqr7. injection Heqr7 as <-. injection Heqr6 as <-.
  repeat split; try (settle; fail).
  exists a4. unfold eq_str in *.
  repeat split.
  - backtrack. reflexivity.
  - intros ->. discriminate.
  - intros ->. discriminate.
Qed.

(** C4: once [submit_job] has succeeded on a record, a further [submit_job]
    on that record, in whatever state the world then is, raises the guard's
    exception (the specification's ValidationError); all it does is log the
    message, so no second submission is sent to the scheduler, and the
    scheduler job identifier of the first submission stays in the record. *)
Theorem second_submit_is_rejected (s s1 : state W) (r : json) :
  submit_job s = (s1, Ok r) ->
  forall s2 : state W,
    job_config s2 = r ->
    submit_job s2
    = (logged s2 "Job has not been initialized or has already been submitted.",
       Raise (Exception
                "Job has not been initialized or has already been submitted."))
    /\ exists id,
         Py.getitem2 (job_config (fst (submit_job s2))) "slurm" "slurm_id"
         = Ok (JStr id)
         /\ Py.getitem2 r "slurm" "slurm_id" = Ok (JStr id).
Proof.
  intros Hrun s2 Hs2.
  destruct (submit_job_success _ _ _ Hrun)
    as (_ & Hsetup & Hsubmit & id & Hid & _).
  destruct (timestamp_set_true _ _ Hsetup) as (u & Hu & _).
  destruct (timestamp_set_true _ _ Hsubmit) as (v & Hv & Hnn).
  assert (Hrej : submit_job s2
    = (logged s2 "Job has not been initialized or has already been submitted.",
       Raise (Exception
                "Job has not been initialized or has already been submitted."))).
  { unfold submit_job, bind. rewrite !config_get2_run, Hs2, Hu, Hv, Hnn.
    rewrite andb_false_r. reflexivity. }
  split; [exact Hrej|].
  exists id. rewrite Hrej. cbn [fst logged job_config]. rewrite Hs2. auto.
Qed.

Lemma cancel_job_success (s s1 : state W) (r : json) :
  cancel_job s = (s1, Ok r) ->
  r = job_config s1
  /\ timestamp_null r "setup_ts" = true
  /\ timestamp_null r "submit_ts" = true
  /\ timestamp_null r "start_ts" = true
  /\ timestamp_null r "end_ts" = true
  /\ has_slurm_id r = false.
Proof.
  intros Hrun.
  assert (Hpost : post cancel_job s
            (fun s' res =>
               forall r', res = Ok r' ->
                 r' = job_config s'
                 /\ timestamp_null r' "setup_ts" = true
                 /\ timestamp_null r' "submit_ts" = true
                 /\ timestamp_null r' "start_ts" = true
                 /\ timestamp_null r' "end_ts" = true
                 /\ has_slurm_id r' = false)).
  2: { unfold post in Hpost. rewrite Hrun in Hpost. now apply Hpost. }
  clear Hrun. unfold cancel_job. destruct s as [w0 t0 c0].
  psteps; try discriminate; try impossible.
  intros r' [= <-].
  repeat split; settle.
Qed.
End Lifecycle.
(** ** [setup_job] leaves the record set up *)

Create HintDb keeps.
#[global] Hint Resolve keeps_logger_error keeps_config_get keeps_config_get2
  keeps_get_ts keeps_execute_command keeps_confirm keeps_list_files
  keeps_json_dump keeps_json_load : keeps.

Ltac keeps' :=
  repeat first
    [ progress (intros; cbv beta)
    | solve [auto with keeps]
    | apply keeps_with_sftp | apply keeps_with_file
    | apply keeps_ret | apply keeps_raise | apply keeps_lift | apply keeps_ask
    | apply keeps_get_config | apply keeps_call
    | apply keeps_bind | apply keeps_try | apply keeps_attempt
    | apply keeps_for | apply keeps_fold | apply keeps_with
    | match goal with
      | |- keeps_config (if ?b then _ else _) => destruct b
      | |- keeps_config (match ?x with _ => _ end) => destruct x
      | |- keeps_config (let (_, _) := ?x in _) => destruct x
      end ].

Ltac pkeep lem :=
  apply post_keeps; [apply lem | intros ? ? [?|?]];
  cbn [job_config world trace logged fst snd] in *; try discriminate.

Section Setup.
Context {W : Type} `{SSHClient W} `{LocalHost W}.
Variable self : TACCJobManager.

Lemma keeps_send_file local remote hidden :
  keeps_config (send_file local remote hidden).
Proof. unfold send_file. keeps'. Qed.

Lemma keeps_load_app_config appId : keeps_config (load_app_config self appId).
Proof. unfold load_app_config, get_apps. keeps'. Qed.

Lemma keeps_get_app_wrapper_script appId :
  keeps_config (get_app_wrapper_script self appId).
Proof.
  unfold get_app_wrapper_script. keeps'; apply keeps_load_app_config.
Qed.

Lemma keeps_cleanup : keeps_config (W := W) _cleanup.
Proof. unfold _cleanup. keeps'. Qed.

Lemma keeps_setup_copy_app : keeps_config (setup_copy_app self).
Proof. unfold setup_copy_app. keeps'. Qed.

Lemma keeps_setup_wrapper_script : keeps_config (setup_wrapper_script self).
Proof.
  unfold setup_wrapper_script.
  keeps'; auto using keeps_get_app_wrapper_script, keeps_cleanup.
Qed.

Lemma keeps_setup_submit_script : keeps_config (W := W) setup_submit_script.
Proof. unfold setup_submit_script. keeps'. Qed.

Lemma keeps_stage_input arg acc :
  keeps_config (W := W) (stage_input arg acc).
Proof.
  unfold stage_input. keeps'; auto using keeps_send_file, keeps_cleanup.
Qed.

Lemma keeps_setup_inputs acc : keeps_config (W := W) (setup_inputs acc).
Proof. unfold setup_inputs. keeps'; apply keeps_stage_input. Qed.

Lemma keeps_setup_parameters acc :
  keeps_config (W := W) (setup_parameters acc).
Proof. unfold setup_parameters. keeps'. Qed.

Lemma keeps_setup_stage script : keeps_config (W := W) (setup_stage script).
Proof.
  unfold setup_stage.
  keeps'; auto using keeps_setup_inputs, keeps_setup_parameters.
Qed.

Lemma keeps_setup_write_scripts a b c :
  keeps_config (W := W) (setup_write_scripts a b c).
Proof. unfold setup_write_scripts. keeps'. Qed.

Lemma keeps_setup_chmod a b : keeps_config (W := W) (setup_chmod a b).
Proof. unfold setup_chmod. keeps'; apply keeps_cleanup. Qed.

Lemma post_any {A : Type} (m : M W A) s (Q : state W -> result A -> Prop) :
  (forall s' r, Q s' r) -> post m s Q.
Proof. intros HQ. apply HQ. Qed.

Lemma setup_job_success a b c (s s1 : state W) (r : json) :
  setup_job self a b c s = (s1, Ok r) ->
  r = job_config s1
  /\ timestamp_set r "setup_ts" = true
  /\ timestamp_null r "submit_ts" = true.
Proof.
  intros Hrun.
  assert (Hpost : post (setup_job self a b c) s
            (fun s' res =>
               forall r', res = Ok r' ->
                 r' = job_config s'
                 /\ timestamp_set r' "setup_ts" = true
                 /\ timestamp_null r' "submit_ts" = true)).
  2: { unfold post in Hpost. rewrite Hrun in Hpost. now apply Hpost. }
  clear Hrun. unfold setup_job, setup_prepare, setup_build.
  apply post_bind, post_bind, post_any.
  intros [w0 t0 c0] [app_config|e]; [|discriminate].
  apply post_bind. unfold setup_job_dir.
  psteps; try discriminate; try impossible.
  pkeep keeps_setup_copy_app.
  psteps. pkeep keeps_setup_wrapper_script.
  unfold setup_defaults, _get_attr.
  psteps; try discriminate; try impossible.
  all: pkeep keeps_setup_submit_script.
  all: psteps; pkeep keeps_setup_stage.
  all: psteps; pkeep keeps_setup_write_scripts.
  all: psteps; pkeep keeps_setup_chmod.
  all: unfold setup_save; psteps; try discriminate.
  all: try (pkeep keeps_cleanup; psteps; discriminate).
  all: intros r' [= <-]; repeat split; settle.
Qed.
End Setup.
(** ** What [save_job] puts on the wire *)

(** Stepping with the trace kept exact. *)
Ltac xstep :=
  lazymatch goal with
  | |- post (bind _ _) _ _ => apply post_bind
  | |- post (ret _) _ _ => apply post_ret
  | |- post (raise _) _ _ => apply post_raise
  | |- post (lift _) _ _ => apply post_lift
  | |- post (try_except _ _) _ _ => apply post_try
  | |- post (attempt _) _ _ => apply post_attempt
  | |- post (call _ _) _ _ => apply post_call; intros ? [?|?]
  | |- post (ask _) _ _ => apply post_ask
  | |- post (with_ _ _ _) _ _ => unfold with_
  | |- post (with_sftp _) _ _ => unfold with_sftp
  | |- post (with_file _ _ _) _ _ => unfold with_file
  | |- post (config_get _) _ _ => apply post_config_get
  | |- post (config_get2 _ _) _ _ => apply post_config_get2
  | |- post (config_set _ _) _ _ => apply post_config_set
  | |- post (config_set2 _ _ _) _ _ => apply post_config_set2
  | |- post get_config _ _ => apply post_get_config
  | |- post get_ts _ _ => unfold get_ts
  | |- post (logger_error _) _ _ => apply post_logger_error
  | |- post (if ?b then _ else _) _ _ => destruct b eqn:?
  | |- match ?r with Ok _ => _ | Raise _ => _ end =>
      destruct r eqn:?
  end; cbn [job_config world trace logged fst snd] in *.

Lemma Forall_map_in_place dest chunks :
  Forall (in_place dest) (map (EFileWrite dest) chunks).
Proof. induction chunks; simpl; constructor; simpl; auto. Qed.

Section Wire.
Context {W : Type} `{SSHClient W} `{LocalHost W}.

Lemma post_get_ts (s : state W) Q :
  Q {| world := fst (strftime_now (world s));
       trace := (trace s ++ [ETime])%list;
       job_config := job_config s |} (Ok (snd (strftime_now (world s)))) ->
  post get_ts s Q.
Proof.
  intros HQ. unfold post, get_ts, call.
  destruct (strftime_now (world s)) as [w now]. apply HQ.
Qed.

(** [json.dump] writes the chunks in order and stops at the first write that
    raises. *)
Lemma post_json_dump (obj : json) (path : string) (s : state W) Q :
  (forall w,
      Q {| world := w;
           trace := (trace s
                     ++ map (EFileWrite path) (json_iterencode obj))%list;
           job_config := job_config s |} (Ok tt)) ->
  (forall w k e,
      k < length (json_iterencode obj) ->
      Q {| world := w;
           trace := (trace s
                     ++ map (EFileWrite path)
                          (firstn (S k) (json_iterencode obj)))%list;
           job_config := job_config s |} (Raise e)) ->
  post (json_dump obj path) s Q.
Proof.
  unfold json_dump. generalize (json_iterencode obj) as chunks.
  intros chunks. revert s Q.
  induction chunks as [|c chunks IH]; intros s Q Hok Herr; simpl.
  - apply post_ret. destruct s as [w t cfg]; simpl in *.
    specialize (Hok w). now rewrite app_nil_r in Hok.
  - apply post_bind, post_call. intros w [[]|e].
    + apply IH; cbn [trace job_config].
      * intros w'. specialize (Hok w'). simpl in Hok.
        now rewrite <- app_assoc.
      * intros w' k e Hk. specialize (Herr w' (S k) e).
        rewrite <- app_assoc. apply Herr. simpl. lia.
    + apply (Herr w 0 e). simpl. lia.
Qed.

Lemma save_job_success (s s1 : state W) :
  save_job s = (s1, Ok tt) ->
  exists dir,
    Py.setitem2 (job_config s) "ts" "dump_ts"
      (JStr (snd (strftime_now (world s))))
    = Ok (job_config s1)
    /\ Py.getitem (job_config s1) "job_dir" = Ok (JStr dir)
    /\ trace s1
       = (trace s
            ++ save_events (dir ++ "/job_config.json")
                 (json_iterencode (job_config s1)))%list.
Proof.
  intros Hrun.
  assert (Hpost : post save_job s
            (fun s' res =>
               res = Ok tt ->
               exists dir,
                 Py.setitem2 (job_config s) "ts" "dump_ts"
                   (JStr (snd (strftime_now (world s))))
                 = Ok (job_config s')
                 /\ Py.getitem (job_config s') "job_dir" = Ok (JStr dir)
                 /\ trace s'
                    = (trace s
                         ++ save_events (dir ++ "/job_config.json")
                              (json_iterencode (job_config s')))%list)).
  2: { unfold post in Hpost. rewrite Hrun in Hpost. now apply Hpost. }
  clear Hrun. unfold save_job. destruct s as [w0 t0 c0].
  xstep. xstep. apply post_get_ts. cbn [world trace job_config].
  repeat xstep; try discriminate.
  all: try (apply post_json_dump; intros; repeat xstep; try discriminate).
  intros _. exists a1.
  destruct a0; try discriminate. injection Heqr1 as ->.
  repeat split; try assumption.
  unfold save_events. now rewrite <- !app_assoc.
Qed.

(** An event of [save_job]: the clock, the SFTP session, the log, or the
    destination file itself. *)
Lemma save_job_in_place (s : state W) (dir : string) :
  Py.getitem (job_config s) "job_dir" = Ok (JStr dir) ->
  exists added,
    trace (fst (save_job s)) = (trace s ++ added)%list
    /\ Forall (in_place (dir ++ "/job_config.json")) added.
Proof.
  intros Hdir.
  change (post save_job s
            (fun s' _ =>
               exists added,
                 trace s' = (trace s ++ added)%list
                 /\ Forall (in_place (dir ++ "/job_config.json")) added)).
  unfold save_job. destruct s as [w0 t0 c0]. cbn [job_config trace] in *.
  xstep. xstep. apply post_get_ts. cbn [world trace job_config].
  repeat xstep.
  all: try (apply post_json_dump; intros; repeat xstep).
  all: try (rewrite (getitem_after_setitem2 _ _ _ _ _ "job_dir" Heqr)
              in Heqr0 by discriminate;
            rewrite Hdir in Heqr0; injection Heqr0 as <-;
            injection Heqr1 as <-).
  all: rewrite <- ?app_assoc; eexists; split; [reflexivity|].
  all: repeat first [ apply Forall_cons | apply Forall_nil | apply Forall_app; split
                    | apply Forall_map_in_place ]; simpl; auto.
Qed.
End Wire.
(** ** Saving and loading a record *)

Lemma append_assoc (a b c : string) : (a ++ b) ++ c = a ++ b ++ c.
Proof. induction a as [|x a IH]; simpl; [reflexivity | now rewrite IH]. Qed.

Lemma append_empty (a : string) : a ++ EmptyString = a.
Proof. induction a as [|x a IH]; simpl; [reflexivity | now rewrite IH]. Qed.

Lemma concat_cons (c : string) (chunks : list string) :
  String.concat EmptyString (c :: chunks)
  = c ++ String.concat EmptyString chunks.
Proof.
  destruct chunks; simpl; [now rewrite append_empty | reflexivity].
Qed.

Lemma written_writes path (chunks : list string) (old : string) :
  fold_left (written_step path) (map (EFileWrite path) chunks) (Some old)
  = Some (old ++ String.concat EmptyString chunks).
Proof.
  revert old. induction chunks as [|c chunks IH]; intros old.
  - simpl. now rewrite append_empty.
  - rewrite concat_cons. cbn [map fold_left written_step].
    rewrite String.eqb_refl, IH. now rewrite append_assoc.
Qed.

Lemma written_save_events t path chunks :
  written (t ++ save_events path chunks) path
  = Some (String.concat EmptyString chunks).
Proof.
  unfold written, save_events.
  rewrite fold_left_app. cbn [app fold_left written_step].
  rewrite String.eqb_refl. cbn [andb String.eqb Ascii.eqb Bool.eqb].
  rewrite fold_left_app, written_writes. reflexivity.
Qed.

Lemma written_app t1 t2 path :
  written (t1 ++ t2) path = fold_left (written_step path) t2 (written t1 path).
Proof. unfold written. apply fold_left_app. Qed.

Section RoundTrip.
Context {W : Type} `{SSHClient W} `{LocalHost W}.
Variable self : TACCJobManager.

Lemma execute_command_success cmnd (s s1 : state W) out :
  _execute_command cmnd false s = (s1, Ok out) ->
  trace s1 = (trace s ++ [EExec cmnd])%list /\ job_config s1 = job_config s.
Proof.
  unfold _execute_command, bind, call, lift, raise, ret.
  destruct (exec_command cmnd (world s)) as [w [ch|e]]; [|discriminate].
  destruct (stdout_text ch); [|discriminate].
  destruct (stderr_text ch) as [err|]; [|discriminate].
  destruct (0 <? String.length err)%nat; [discriminate|].
  intros [= <- _]. auto.
Qed.

Lemma list_files_success path (s s1 : state W) files :
  list_files path s = (s1, Ok files) ->
  trace s1 = (trace s ++ [EExec ("ls -lat " ++ path)])%list
  /\ job_config s1 = job_config s.
Proof.
  unfold list_files, bind, try_except.
  destruct (_execute_command _ false s) as [s' [out|e]] eqn:Hrun.
  - apply execute_command_success in Hrun.
    unfold lift, ret. destruct (map_result _ _); [|discriminate].
    now intros [= <- _].
  - unfold logger_error, emit, call, raise. simpl. discriminate.
Qed.

(** The path [load_job_config] reads the record of [job_name] from. *)
Lemma job_config_path job_name :
  String.concat "/" [jobs_dir self; job_name; "job_config.json"]
  = (jobs_dir self ++ "/" ++ job_name) ++ "/job_config.json".
Proof. cbn [String.concat]. now rewrite !append_assoc. Qed.

End RoundTrip.
(** ** Failures of [setup_job] and of [cleanup_job] *)

Section Compensation.
Context {W : Type} `{SSHClient W} `{LocalHost W}.
Variable self : TACCJobManager.

Lemma bind_ok {A B : Type} (m : M W A) (k : A -> M W B) s s' a :
  m s = (s', Ok a) -> bind m k s = k a s'.
Proof. intros Hm. unfold bind. now rewrite Hm. Qed.

Lemma bind_raise {A B : Type} (m : M W A) (k : A -> M W B) s s' e :
  m s = (s', Raise e) -> bind m k s = (s', Raise e).
Proof. intros Hm. unfold bind. now rewrite Hm. Qed.

Lemma config_get_run (k : string) (s : state W) :
  config_get k s = (s, Py.getitem (job_config s) k).
Proof. reflexivity. Qed.

(** [_execute_command] always records the command, and nothing else when it
    does not print. *)
Lemma execute_command_trace cmnd (s : state W) :
  trace (fst (_execute_command cmnd false s)) = (trace s ++ [EExec cmnd])%list
  /\ job_config (fst (_execute_command cmnd false s)) = job_config s.
Proof.
  unfold _execute_command, bind, call, lift, raise, ret.
  destruct (exec_command cmnd (world s)) as [w [ch|e]]; [|auto].
  destruct (stdout_text ch); [|auto].
  destruct (stderr_text ch) as [err|]; [|auto].
  destruct (0 <? String.length err)%nat; auto.
Qed.

(** [_cleanup] issues the removal of the job directory. *)
Lemma cleanup_issues_removal (s : state W) (dir : string) :
  Py.getitem (job_config s) "job_dir" = Ok (JStr dir) ->
  _cleanup s = _execute_command ("rm -rf " ++ dir) false s
  /\ trace (fst (_cleanup s)) = (trace s ++ [EExec ("rm -rf " ++ dir)])%list
  /\ job_config (fst (_cleanup s)) = job_config s.
Proof.
  intros Hdir.
  assert (Hrun : _cleanup s = _execute_command ("rm -rf " ++ dir) false s).
  { unfold _cleanup, bind. rewrite config_get_run, Hdir. reflexivity. }
  rewrite Hrun. split; [reflexivity|]. apply execute_command_trace.
Qed.

Lemma setup_save_compensates (s s1 s2 : state W) (e : exn) dir out :
  save_job s = (s1, Raise e) ->
  Py.getitem (job_config s1) "job_dir" = Ok (JStr dir) ->
  _execute_command ("rm -rf " ++ dir) false s1 = (s2, Ok out) ->
  setup_save s
  = (logged s2 "Unable to save job config after setup.", Raise e).
Proof.
  intros Hsave Hdir Hrm.
  destruct (cleanup_issues_removal s1 dir Hdir) as (Hc & _).
  unfold setup_save, try_except. rewrite Hsave.
  unfold bind. rewrite Hc, Hrm. reflexivity.
Qed.

Lemma stage_input_compensates arg acc (s s1 : state W) inputs path dir e :
  Py.getitem (job_config s) "inputs" = Ok inputs ->
  Py.getitem inputs arg = Ok (JStr path) ->
  Py.getitem (job_config s) "job_dir" = Ok (JStr dir) ->
  send_file path (dir ++ "/" ++ Py.basename path) true s = (s1, Raise e) ->
  trace (fst (stage_input arg acc s))
  = (trace s1 ++ [EExec ("rm -rf " ++ dir)])%list
  /\ exists e', snd (stage_input arg acc s) = Raise e'.
Proof.
  intros Hin Hpath Hdir Hsend.
  assert (Hdir1 : Py.getitem (job_config s1) "job_dir" = Ok (JStr dir)).
  { pose proof (keeps_send_file path (dir ++ "/" ++ Py.basename path) true s)
      as Hk. rewrite Hsend in Hk. cbn [fst] in Hk. now rewrite Hk. }
  destruct (cleanup_issues_removal s1 dir Hdir1) as (_ & Ht & _).
  unfold stage_input, config_get, bind, get_config, lift.
  rewrite Hin, Hpath, Hdir. cbn [Py.as_str join_slash map_result].
  cbn [String.concat]. unfold try_except. rewrite Hsend.
  destruct (_cleanup s1) as [s2 [out|e']]; cbn [Py.getitem fst snd] in *;
    (split; [exact Ht | eauto]).
Qed.

Lemma setup_wrapper_script_compensates (s s1 : state W) appId dir e :
  Py.getitem (job_config s) "appId" = Ok appId ->
  Py.getitem (job_config s) "job_dir" = Ok (JStr dir) ->
  get_app_wrapper_script self appId s = (s1, Raise e) ->
  exists rest,
    trace (fst (setup_wrapper_script self s))
    = (trace s1 ++ EExec ("rm -rf " ++ dir) :: rest)%list.
Proof.
  intros Happ Hdir Hget.
  assert (Hdir1 : Py.getitem (job_config s1) "job_dir" = Ok (JStr dir)).
  { pose proof (keeps_get_app_wrapper_script self appId s) as Hk.
    rewrite Hget in Hk. cbn [fst] in Hk. now rewrite Hk. }
  destruct (cleanup_issues_removal s1 dir Hdir1) as (_ & Ht & Hc).
  unfold setup_wrapper_script, try_except, config_get, bind, get_config, lift.
  rewrite Happ, Hget.
  destruct (_cleanup s1) as [s2 [out|e']]; cbn [fst snd] in *.
  - destruct (Py.getitem (job_config s2) "job_id") as [job_id|];
      [destruct (Py.as_str job_id)|]; cbn [fst ret logger_error emit call
                                             world trace job_config];
      rewrite Ht, <- ?app_assoc; eexists; reflexivity.
  - rewrite Ht. eexists; reflexivity.
Qed.

Lemma setup_chmod_compensates (s s1 : state W) submit_dest wrapper_dest dir e :
  Py.getitem (job_config s) "job_dir" = Ok (JStr dir) ->
  (_execute_command ("chmod +x " ++ submit_dest) false ;;
   _execute_command ("chmod +x " ++ wrapper_dest) false ;;
   ret tt) s = (s1, Raise e) ->
  exists rest,
    trace (fst (setup_chmod submit_dest wrapper_dest s))
    = (trace s1 ++ EExec ("rm -rf " ++ dir) :: rest)%list.
Proof.
  intros Hdir Hch.
  assert (Hdir1 : Py.getitem (job_config s1) "job_dir" = Ok (JStr dir)).
  { assert (Hk : keeps_config (W := W)
              (_execute_command ("chmod +x " ++ submit_dest) false ;;
               _execute_command ("chmod +x " ++ wrapper_dest) false ;;
               ret tt)) by keeps'.
    specialize (Hk s). rewrite Hch in Hk. cbn [fst] in Hk. now rewrite Hk. }
  destruct (cleanup_issues_removal s1 dir Hdir1) as (_ & Ht & Hc).
  unfold setup_chmod, try_except. rewrite Hch. unfold bind.
  destruct (_cleanup s1) as [s2 [out|e']]; cbn [fst snd] in *.
  - cbn [fst ret logger_error emit call world trace job_config].
    rewrite Ht, <- app_assoc. eexists; reflexivity.
  - rewrite Ht. eexists; reflexivity.
Qed.

(** After the removal, the handlers of the wrapper script and of the
    [chmod] end without raising (lines 405 and 506 build the exception and
    drop it): [setup_job] goes on as if the step had succeeded. *)
Lemma setup_chmod_failure_goes_on
  (s s1 s2 : state W) submit_dest wrapper_dest dir e out :
  Py.getitem (job_config s) "job_dir" = Ok (JStr dir) ->
  (_execute_command ("chmod +x " ++ submit_dest) false ;;
   _execute_command ("chmod +x " ++ wrapper_dest) false ;;
   ret tt) s = (s1, Raise e) ->
  _execute_command ("rm -rf " ++ dir) false s1 = (s2, Ok out) ->
  setup_chmod submit_dest wrapper_dest s
  = (logged s2 "Unable to chmod wrapper or submit scripts in job dir.",
     Ok tt).
Proof.
  intros Hdir Hch Hrm.
  assert (Hdir1 : Py.getitem (job_config s1) "job_dir" = Ok (JStr dir)).
  { assert (Hk : keeps_config (W := W)
              (_execute_command ("chmod +x " ++ submit_dest) false ;;
               _execute_command ("chmod +x " ++ wrapper_dest) false ;;
               ret tt)) by keeps'.
    specialize (Hk s). rewrite Hch in Hk. cbn [fst] in Hk. now rewrite Hk. }
  destruct (cleanup_issues_removal s1 dir Hdir1) as (Hc & _).
  unfold setup_chmod, try_except. rewrite Hch. unfold bind.
  rewrite Hc, Hrm. reflexivity.
Qed.

Lemma setup_wrapper_failure_goes_on
  (s s1 s2 : state W) appId dir job_id e out :
  Py.getitem (job_config s) "appId" = Ok appId ->
  Py.getitem (job_config s) "job_dir" = Ok (JStr dir) ->
  Py.getitem (job_config s) "job_id" = Ok (JStr job_id) ->
  get_app_wrapper_script self appId s = (s1, Raise e) ->
  _execute_command ("rm -rf " ++ dir) false s1 = (s2, Ok out) ->
  setup_wrapper_script self s
  = (logged s2 ("Couldn't get wrapper script to setup job dir for " ++ job_id),
     Ok None).
Proof.
  intros Happ Hdir Hid Hget Hrm.
  pose proof (keeps_get_app_wrapper_script self appId s) as Hk.
  rewrite Hget in Hk. cbn [fst] in Hk.
  assert (Hdir1 : Py.getitem (job_config s1) "job_dir" = Ok (JStr dir))
    by now rewrite Hk.
  destruct (cleanup_issues_removal s1 dir Hdir1) as (Hc & _).
  pose proof (execute_command_trace ("rm -rf " ++ dir) s1) as [_ Hk2].
  rewrite Hrm in Hk2. cbn [fst] in Hk2.
  unfold setup_wrapper_script, try_except, config_get, bind, get_config, lift.
  rewrite Happ, Hget, Hc, Hrm, Hk2, Hk, Hid. reflexivity.
Qed.

(** The handler of a failed input raises, but not what it was writing: it
    subscripts the key [arg], a string, with ['name'] (line 463). *)
Lemma stage_input_failure_raises_type_error
  arg acc (s s1 s2 : state W) inputs path dir e out :
  Py.getitem (job_config s) "inputs" = Ok inputs ->
  Py.getitem inputs arg = Ok (JStr path) ->
  Py.getitem (job_config s) "job_dir" = Ok (JStr dir) ->
  send_file path (dir ++ "/" ++ Py.basename path) true s = (s1, Raise e) ->
  _execute_command ("rm -rf " ++ dir) false s1 = (s2, Ok out) ->
  stage_input arg acc s = (s2, Raise TypeError).
Proof.
  intros Hin Hpath Hdir Hsend Hrm.
  assert (Hdir1 : Py.getitem (job_config s1) "job_dir" = Ok (JStr dir)).
  { pose proof (keeps_send_file path (dir ++ "/" ++ Py.basename path) true s)
      as Hk. rewrite Hsend in Hk. cbn [fst] in Hk. now rewrite Hk. }
  destruct (cleanup_issues_removal s1 dir Hdir1) as (Hc & _).
  unfold stage_input, config_get, bind, get_config, lift.
  rewrite Hin, Hpath, Hdir. cbn [Py.as_str join_slash map_result].
  cbn [String.concat]. unfold try_except. rewrite Hsend, Hc, Hrm.
  reflexivity.
Qed.

(** Between the creation of the job directory and the saving of the record,
    the entry [job_dir] of the record stays what it is. *)
Lemma setup_build_keeps_job_dir app_config (s : state W) :
  Py.getitem (job_config (fst (setup_build self app_config s))) "job_dir"
  = Py.getitem (job_config s) "job_dir".
Proof.
  change (post (setup_build self app_config) s
            (fun s' _ => Py.getitem (job_config s') "job_dir"
                         = Py.getitem (job_config s) "job_dir")).
  unfold setup_build. destruct s as [w0 t0 c0]. cbn [job_config].
  psteps. pkeep keeps_setup_wrapper_script; [|reflexivity].
  unfold setup_defaults, _get_attr.
  psteps; try (backtrack; reflexivity).
  all: pkeep keeps_setup_submit_script; try (backtrack; reflexivity).
  all: psteps; pkeep keeps_setup_stage; try (backtrack; reflexivity).
  all: psteps; pkeep keeps_setup_write_scripts; try (backtrack; reflexivity).
  all: psteps; apply post_keeps; [apply keeps_setup_chmod|];
    intros; cbn [job_config]; backtrack; reflexivity.
Qed.

Lemma save_job_keeps_job_dir (s : state W) :
  Py.getitem (job_config (fst (save_job s))) "job_dir"
  = Py.getitem (job_config s) "job_dir".
Proof.
  change (post save_job s
            (fun s' _ => Py.getitem (job_config s') "job_dir"
                         = Py.getitem (job_config s) "job_dir")).
  apply post_save_job. intros w t r c' Hst. cbn [job_config].
  now apply getitem_after_stamped.
Qed.


(** What [setup_job] does about a failure once the job directory exists:
    it compensates where the code has a handler, and only there.  When persisting the record fails, the job directory is removed
    and the error of [save_job] is raised again.  When staging an input,
    fetching the wrapper script or the [chmod] of the scripts fails, the
    removal of the job directory is issued right after the failure.  When
    copying the application fails, its error reaches the caller with nothing
    else done: the job directory stays. *)
Theorem setup_failure_compensation (dir : string) :
  (forall a b c (s0 s1 s2 s3 s4 s5 : state W) app_config e out,
      setup_prepare self a b c s0 = (s1, Ok app_config) ->
      Py.getitem (job_config s1) "job_dir" = Ok (JStr dir) ->
      setup_copy_app self s1 = (s2, Ok tt) ->
      setup_build self app_config s2 = (s3, Ok tt) ->
      save_job s3 = (s4, Raise e) ->
      _execute_command ("rm -rf " ++ dir) false s4 = (s5, Ok out) ->
      setup_job self a b c s0
      = (logged s5 "Unable to save job config after setup.", Raise e)
      /\ trace s5 = (trace s4 ++ [EExec ("rm -rf " ++ dir)])%list)
  /\ (forall arg acc (s s1 : state W) inputs path e,
         Py.getitem (job_config s) "inputs" = Ok inputs ->
         Py.getitem inputs arg = Ok (JStr path) ->
         Py.getitem (job_config s) "job_dir" = Ok (JStr dir) ->
         send_file path (dir ++ "/" ++ Py.basename path) true s
         = (s1, Raise e) ->
         trace (fst (stage_input arg acc s))
         = (trace s1 ++ [EExec ("rm -rf " ++ dir)])%list
         /\ exists e', snd (stage_input arg acc s) = Raise e')
  /\ (forall (s s1 : state W) appId e,
         Py.getitem (job_config s) "appId" = Ok appId ->
         Py.getitem (job_config s) "job_dir" = Ok (JStr dir) ->
         get_app_wrapper_script self appId s = (s1, Raise e) ->
         exists rest,
           trace (fst (setup_wrapper_script self s))
           = (trace s1 ++ EExec ("rm -rf " ++ dir) :: rest)%list)
  /\ (forall (s s1 : state W) submit_dest wrapper_dest e,
         Py.getitem (job_config s) "job_dir" = Ok (JStr dir) ->
         (_execute_command ("chmod +x " ++ submit_dest) false ;;
          _execute_command ("chmod +x " ++ wrapper_dest) false ;;
          ret tt) s = (s1, Raise e) ->
         exists rest,
           trace (fst (setup_chmod submit_dest wrapper_dest s))
           = (trace s1 ++ EExec ("rm -rf " ++ dir) :: rest)%list)
  /\ (forall a b c (s0 s1 s2 : state W) app_config e,
         setup_prepare self a b c s0 = (s1, Ok app_config) ->
         setup_copy_app self s1 = (s2, Raise e) ->
         setup_job self a b c s0 = (s2, Raise e)).
Proof.
  split; [|split; [|split; [|split]]].
  - intros a b c s0 s1 s2 s3 s4 s5 app_config e out
      Hprep Hdir Hcopy Hbuild Hsave Hrm.
    split.
    + unfold setup_job.
      rewrite (bind_ok _ _ _ _ _ Hprep), (bind_ok _ _ _ _ _ Hcopy),
        (bind_ok _ _ _ _ _ Hbuild).
      apply bind_raise. eapply setup_save_compensates; eauto.
      pose proof (save_job_keeps_job_dir s3) as Hs.
      rewrite Hsave in Hs. cbn [fst] in Hs. rewrite Hs.
      pose proof (setup_build_keeps_job_dir app_config s2) as Hb.
      rewrite Hbuild in Hb. cbn [fst] in Hb. rewrite Hb.
      pose proof (keeps_setup_copy_app self s1) as Hc.
      rewrite Hcopy in Hc. cbn [fst] in Hc. now rewrite Hc.
    + pose proof (execute_command_trace ("rm -rf " ++ dir) s4) as [Ht _].
      rewrite Hrm in Ht. exact Ht.
  - intros. eapply stage_input_compensates; eauto.
  - intros. eapply setup_wrapper_script_compensates; eauto.
  - intros. eapply setup_chmod_compensates; eauto.
  - intros a b c s0 s1 s2 app_config e Hprep Hcopy.
    unfold setup_job. rewrite (bind_ok _ _ _ _ _ Hprep).
    now apply bind_raise.
Qed.

End Compensation.

Section Cleanup.
Context {W : Type} `{SSHClient W} `{LocalHost W}.


End Cleanup.
Lemma timestamp_null_not_set c k :
  timestamp_null c k = true -> timestamp_set c k = false.
Proof.
  unfold timestamp_null, timestamp_set.
  destruct (Py.getitem2 c "ts" k) as [[]|]; simpl; congruence.
Qed.

(** ** Output accumulation in the registry *)

Lemma prefix_append (a b : string) : String.prefix a (a ++ b) = true.
Proof.
  induction a as [|x a IH]; simpl; [now destruct b|].
  destruct (ascii_dec x x); [exact IH | contradiction].
Qed.

Lemma prefix_refl (a : string) : String.prefix a a = true.
Proof. rewrite <- (append_empty a) at 2. apply prefix_append. Qed.

Lemma prefix_exists (a b : string) :
  String.prefix a b = true -> exists c, b = a ++ c.
Proof.
  revert b. induction a as [|x a IH]; intros b.
  - intros _. now exists b.
  - destruct b as [|y b]; simpl; [discriminate|].
    destruct (ascii_dec x y) as [->|]; [|discriminate].
    intros Hp. destruct (IH _ Hp) as [c ->]. now exists c.
Qed.

Lemma prefix_trans (a b c : string) :
  String.prefix a b = true -> String.prefix b c = true ->
  String.prefix a c = true.
Proof.
  intros Hab Hbc.
  destruct (prefix_exists _ _ Hab) as [x ->].
  destruct (prefix_exists _ _ Hbc) as [y ->].
  rewrite append_assoc. apply prefix_append.
Qed.

Lemma mark_running_output c now :
  Registry.stdout (Registry.mark_running c now) = Registry.stdout c
  /\ Registry.stderr (Registry.mark_running c now) = Registry.stderr c.
Proof. unfold Registry.mark_running. now destruct (Registry.state_of c). Qed.

(** One poll only appends to the two buffers. *)
Lemma poll_extends c wait max_bytes now reports c' rest :
  Registry.poll c wait max_bytes now reports = Some (c', rest) ->
  String.prefix (Registry.stdout c) (Registry.stdout c') = true
  /\ String.prefix (Registry.stderr c) (Registry.stderr c') = true.
Proof.
  revert c' rest.
  induction reports as [|r reports IH]; intros c' rest; simpl.
  - destruct (Registry.terminal (Registry.state_of c)).
    + intros [= <- _]. split; apply prefix_refl.
    + destruct wait; [discriminate|]. intros [= <- _].
      destruct (mark_running_output c now) as [-> ->].
      split; apply prefix_refl.
  - destruct (Registry.terminal (Registry.state_of c)) eqn:Hterm.
    + intros [= <- _]. split; apply prefix_refl.
    + destruct r as [|out err|out err code|text].
      * destruct wait.
        -- apply IH.
        -- intros [= <- _].
           destruct (mark_running_output c now) as [-> ->].
           split; apply prefix_refl.
      * intros [= <- _]. simpl.
        destruct (mark_running_output c now) as [-> ->].
        split; apply prefix_append.
      * intros [= <- _]. simpl. split; apply prefix_append.
      * intros [= <- _]. simpl. split; [|apply prefix_append].
        rewrite append_empty. apply prefix_refl.
Qed.

Lemma polls_extend calls : forall c now reports ck,
  In ck (Registry.polls c calls now reports) ->
  String.prefix (Registry.stdout c) (Registry.stdout ck) = true
  /\ String.prefix (Registry.stderr c) (Registry.stderr ck) = true.
Proof.
  induction calls as [|[wait max_bytes] calls IH]; intros c now reports ck;
    simpl; [contradiction|].
  destruct (Registry.poll c wait max_bytes now reports) as [[c1 rest]|] eqn:Hp;
    [|contradiction].
  destruct (poll_extends _ _ _ _ _ _ _ Hp) as [Ho He].
  intros [<-|Hin]; [auto|].
  destruct (IH _ _ _ _ Hin) as [Ho' He'].
  split; eapply prefix_trans; eauto.
Qed.

(** C6: over successive polls of a command, the standard-output and
    standard-error buffers of a later snapshot extend those of every earlier
    snapshot, so that they never shrink. *)
Theorem poll_output_is_monotone (calls : list (bool * Z)) :
  forall (c : Registry.Command) (now : string)
         (reports : list Registry.report)
         (i j : nat) (ci cj : Registry.Command),
    i <= j ->
    nth_error (Registry.polls c calls now reports) i = Some ci ->
    nth_error (Registry.polls c calls now reports) j = Some cj ->
    String.prefix (Registry.stdout ci) (Registry.stdout cj) = true
    /\ String.prefix (Registry.stderr ci) (Registry.stderr cj) = true
    /\ String.length (Registry.stdout ci) <= String.length (Registry.stdout cj)
    /\ String.length (Registry.stderr ci) <= String.length (Registry.stderr cj).
Proof.
  assert (Hlen : forall a b, String.prefix a b = true ->
                             String.length a <= String.length b).
  { intros a b Hp. destruct (prefix_exists _ _ Hp) as [x ->].
    clear Hp. induction a; simpl; lia. }
  enough (Hpre : forall c now reports i j ci cj,
             i <= j ->
             nth_error (Registry.polls c calls now reports) i = Some ci ->
             nth_error (Registry.polls c calls now reports) j = Some cj ->
             String.prefix (Registry.stdout ci) (Registry.stdout cj) = true
             /\ String.prefix (Registry.stderr ci) (Registry.stderr cj)
                = true).
  { intros c now reports i j ci cj Hij Hi Hj.
    destruct (Hpre c now reports i j ci cj Hij Hi Hj) as [Ho He]. auto. }
  induction calls as [|[wait max_bytes] calls IH];
    intros c now reports i j ci cj Hij; simpl.
  - destruct i; discriminate.
  - destruct (Registry.poll c wait max_bytes now reports)
      as [[c1 rest]|] eqn:Hp; [|destruct i; discriminate].
    destruct i as [|i]; simpl.
    + intros [= <-]. destruct j as [|j]; simpl.
      * intros [= <-]. split; apply prefix_refl.
      * intros Hj. apply nth_error_In in Hj. eapply polls_extend; eauto.
    + destruct j as [|j]; [lia|]. simpl. apply IH. lia.
Qed.
Section Guards.
Context {W : Type} `{SSHClient W} `{LocalHost W}.

(** ** Command execution *)

(** C1, as the code has it: the outcome of [_execute_command] is decided by
    standard error alone, whatever the remote exit status.  With empty
    standard error the call returns the command's standard output; with
    non-empty standard error it raises an [Exception] carrying that text,
    also when the exit status is 0. *)
Theorem execute_command_decided_by_stderr
  (cmnd : string) (prnt : bool) (s : state W) (w : W)
  (out err : string) (code : Z) :
  exec_command cmnd (world s)
  = (w, Ok {| stdout_text := Ok out; stderr_text := Ok err;
              exit_status := code |}) ->
  snd (_execute_command cmnd prnt s)
  = if String.eqb err EmptyString then Ok out else Raise (Exception err).
Proof.
  intros Hrun. unfold _execute_command, bind, call, lift.
  rewrite Hrun. simpl.
  destruct err as [|c err]; simpl; [destruct prnt|]; reflexivity.
Qed.

(** ** The guards of the lifecycle *)

(** C5: [cancel_job] on a record whose [submit_ts] is [None] raises the
    guard's exception (the specification's ValidationError); the only thing
    it does is log the message: no command is issued, nothing is written,
    and the record is the one it was given. *)
Theorem cancel_unsubmitted_is_rejected (s : state W) (ts : json) :
  Py.getitem (job_config s) "ts" = Ok ts ->
  Py.getitem ts "submit_ts" = Ok JNull ->
  cancel_job s
  = (logged s "Job has not been submitted yet.",
     Raise (Exception "Job has not been submitted yet.")).
Proof.
  intros Hts Hsub.
  unfold cancel_job, config_get2, config_get, bind, get_config, lift.
  rewrite Hts, Hsub. reflexivity.
Qed.

End Guards.

(** ** Directory listings *)

Lemma has_space_append (a b : string) :
  Str.has_space (a ++ b) = Str.has_space a || Str.has_space b.
Proof.
  unfold Str.has_space. induction a as [|c a IH]; simpl; [reflexivity|].
  rewrite IH. now rewrite orb_assoc.
Qed.

Lemma re_split_ws_without_spaces (s : string) : forall tok in_ws,
  Str.has_space tok = false ->
  Forall (fun t => Str.has_space t = false) (Py.re_split_ws_from s tok in_ws).
Proof.
  induction s as [|c s IH]; intros tok in_ws Htok; simpl.
  - now constructor.
  - destruct (Py.is_space c) eqn:Hc.
    + destruct in_ws; [now apply IH|].
      constructor; [exact Htok|]. now apply IH.
    + apply IH. rewrite has_space_append, Htok. unfold Str.has_space. simpl.
      now rewrite Hc.
Qed.

Lemma last_of_Forall (P : string -> Prop) (l : list string) (x : string) :
  Forall P l -> Py.last l = Ok x -> P x.
Proof.
  intros Hl. unfold Py.last. destruct (rev l) as [|y r] eqn:Hr; [discriminate|].
  intros [= <-]. rewrite Forall_forall in Hl. apply Hl, in_rev.
  rewrite Hr. now left.
Qed.

Lemma map_result_Forall {A B : Type} (f : A -> result B) (P : B -> Prop)
  (l : list A) : forall ys,
  (forall x y, f x = Ok y -> P y) ->
  map_result f l = Ok ys -> Forall P ys.
Proof.
  induction l as [|x l IH]; intros ys Hf; simpl.
  - intros [= <-]. constructor.
  - destruct (f x) as [y|e] eqn:Hx; [|discriminate].
    destruct (map_result f l) as [ys'|e]; [|discriminate].
    intros [= <-]. constructor; eauto.
Qed.

Lemma remove_first_Forall (P : string -> Prop) (v : string) (l : list string) :
  Forall P l -> Forall P (Py.remove_first v l).
Proof.
  induction 1 as [|x l Hx Hl IH]; simpl; [constructor|].
  destruct (String.eqb x v); [assumption|now constructor].
Qed.

Lemma insert_sorted_Forall (P : string -> Prop) (x : string) (l : list string) :
  P x -> Forall P l -> Forall P (Py.insert_sorted x l).
Proof.
  intros Hx. induction 1 as [|y l Hy Hl IH]; simpl.
  - now repeat constructor.
  - destruct (String.leb x y); repeat constructor; assumption.
Qed.

Lemma sort_Forall (P : string -> Prop) (l : list string) :
  Forall P l -> Forall P (Py.sort l).
Proof.
  unfold Py.sort. induction 1; simpl; [constructor|].
  now apply insert_sorted_Forall.
Qed.

Lemma insert_sorted_ascending (x : string) (l : list string) :
  Str.ascending l = true -> Str.ascending (Py.insert_sorted x l) = true.
Proof.
  induction l as [|y l IH]; [reflexivity|].
  intros Hl. cbn [Py.insert_sorted].
  destruct (String.leb x y) eqn:Hxy.
  - cbn [Str.ascending]. now rewrite Hxy.
  - assert (Hyx : String.leb y x = true)
      by (destruct (String.leb_total x y); congruence).
    destruct l as [|z l].
    + cbn. now rewrite Hyx.
    + cbn [Str.ascending] in Hl. apply andb_true_iff in Hl as [Hyz Hl].
      assert (IH' := IH Hl). cbn [Py.insert_sorted] in IH' |- *.
      destruct (String.leb x z).
      * cbn [Str.ascending] in IH' |- *. now rewrite Hyx.
      * cbn [Str.ascending] in IH' |- *. now rewrite Hyz.
Qed.

Lemma sort_ascending (l : list string) : Str.ascending (Py.sort l) = true.
Proof.
  unfold Py.sort. induction l; simpl; [reflexivity|].
  now apply insert_sorted_ascending.
Qed.

Section Listing.
Context {W : Type} `{SSHClient W} `{LocalHost W}.

(** No name in a listing has white space in it. *)
Lemma list_files_names_without_spaces path (s s1 : state W) files :
  list_files path s = (s1, Ok files) ->
  Forall (fun f => Str.has_space f = false) files.
Proof.
  unfold list_files, bind, try_except, lift, ret.
  destruct (_execute_command _ false s) as [s' [out|e]]; [|discriminate].
  destruct (map_result _ _) as [names|e] eqn:Hnames; [|discriminate].
  intros [= _ <-]. apply sort_Forall. cbn [fold_left].
  assert (Hn : Forall (fun f => Str.has_space f = false) names).
  { eapply map_result_Forall; [|exact Hnames].
    intros x y Hxy.
    apply (last_of_Forall (fun f => Str.has_space f = false) _ _
             (re_split_ws_without_spaces x EmptyString false eq_refl) Hxy). }
  repeat match goal with
         | |- Forall _ (if ?b then _ else _) => destruct b
         | |- Forall _ (Py.remove_first _ _) => apply remove_first_Forall
         end; assumption.
Qed.

(** X1: the names [list_files] returns are in ascending order and none of
    them contains white space: of a file whose name has a blank in it, only
    the last word is listed. *)
Theorem list_files_sorted_without_spaces path (s s1 : state W) files :
  list_files path s = (s1, Ok files) ->
  Str.ascending files = true
  /\ Forall (fun f => Str.has_space f = false) files.
Proof.
  intros Hrun. split; [|exact (list_files_names_without_spaces _ _ _ _ Hrun)].
  revert Hrun. unfold list_files, bind, try_except, lift, ret.
  destruct (_execute_command _ false s) as [s' [out|e]]; [|discriminate].
  destruct (map_result _ _) as [names|e]; [|discriminate].
  intros [= _ <-]. apply sort_ascending.
Qed.

End Listing.

Lemma mem_of_Forall (P : string -> Prop) (x : string) (l : list string) :
  Forall P l -> ~ P x -> Py.mem x l = false.
Proof.
  intros Hl Hx. unfold Py.mem. induction Hl as [|y l Hy Hl IH]; simpl; auto.
  rewrite IH, orb_false_r. destruct (String.eqb_spec x y); congruence.
Qed.

Section Loading.
Context {W : Type} `{SSHClient W} `{LocalHost W}.
Variable self : TACCJobManager.

(** X2: any text on standard error makes [list_files] fail.  Though [ls]
    has printed the listing, [list_files] logs that the path cannot be
    accessed and raises [FileNotFoundError]; neither the listing nor the
    text of standard error is passed on. *)
Theorem list_files_fails_on_any_stderr path (s : state W) w ch out err :
  exec_command ("ls -lat " ++ path) (world s) = (w, Ok ch) ->
  stdout_text ch = Ok out ->
  stderr_text ch = Ok err ->
  err <> EmptyString ->
  list_files path s
  = ({| world := w;
        trace := (trace s
                   ++ [EExec ("ls -lat " ++ path);
                       ELogError ("Unable to access path at " ++ path)])%list;
        job_config := job_config s |},
     Raise FileNotFoundError).
Proof.
  intros Hexec Hout Herr Hne.
  unfold list_files, bind, try_except, _execute_command, bind, call.
  rewrite Hexec. cbn [lift]. rewrite Hout, Herr.
  destruct err as [|c err]; [contradiction|].
  cbn [String.length Nat.ltb Nat.leb raise].
  unfold logger_error, emit, call, raise. cbn [world trace job_config].
  now rewrite <- app_assoc.
Qed.

(** A job that the listing of the jobs directory does not show is turned
    down where [Exeception] is looked up. *)
Lemma load_job_config_unlisted job_name (s s1 : state W) jobs :
  get_jobs self s = (s1, Ok jobs) ->
  Py.mem job_name jobs = false ->
  load_job_config self job_name s = (s1, Raise (NameError "Exeception")).
Proof.
  intros Hjobs Hmem. unfold load_job_config, bind. rewrite Hjobs, Hmem.
  reflexivity.
Qed.

(** X3: a job whose name has white space in it cannot be loaded.  When the
    jobs directory can be listed, [load_job_config] raises the [NameError]
    of the misspelt [Exeception] in the state the listing left, before any
    SFTP session is opened; when it cannot, the error of the listing comes
    out. *)
Theorem load_job_config_rejects_names_with_space job_name (s : state W) :
  Str.has_space job_name = true ->
  (exists s1 jobs,
      get_jobs self s = (s1, Ok jobs)
      /\ load_job_config self job_name s
         = (s1, Raise (NameError "Exeception")))
  \/ (exists s1 e,
         get_jobs self s = (s1, Raise e)
         /\ load_job_config self job_name s = (s1, Raise e)).
Proof.
  intros Hspace. destruct (get_jobs self s) as [s1 [jobs|e]] eqn:Hjobs.
  - left. exists s1, jobs. split; [reflexivity|].
    apply load_job_config_unlisted with (jobs := jobs); [exact Hjobs|].
    apply mem_of_Forall with (P := fun f => Str.has_space f = false).
    + exact (list_files_names_without_spaces _ _ _ _ Hjobs).
    + congruence.
  - right. exists s1, e. split; [reflexivity|].
    unfold load_job_config, bind. now rewrite Hjobs.
Qed.

(** X4: when the record of a listed job cannot be opened, [load_job_config]
    raises what [sftp.open] raised, after a log entry if that is
    [FileNotFoundError], and the SFTP session it opened is left open: the
    trace ends without [ECloseSftp]. *)
Theorem load_job_config_failure_leaves_session_open
  job_name (s s1 : state W) jobs w2 w3 e :
  let path :=
    String.concat "/" [jobs_dir self; job_name; "job_config.json"] in
  get_jobs self s = (s1, Ok jobs) ->
  Py.mem job_name jobs = true ->
  open_sftp (world s1) = (w2, Ok tt) ->
  sftp_file_open path "rb" w2 = (w3, Raise e) ->
  load_job_config self job_name s
  = ({| world := w3;
        trace := (trace s1 ++ [EOpenSftp; EFileOpen path "rb"]
                   ++ (if is_FileNotFoundError e
                       then [ELogError ("Job config for job " ++ job_name
                                          ++ " not found at " ++ path)]
                       else []))%list;
        job_config := job_config s1 |},
     Raise e).
Proof.
  intros path Hjobs Hmem Hopen Hfile.
  unfold load_job_config, bind. rewrite Hjobs, Hmem. cbn [negb].
  fold path. unfold call at 1. rewrite Hopen.
  unfold try_except, with_file, with_, bind, call at 1.
  cbn [world trace job_config]. rewrite Hfile.
  destruct e; cbn [is_FileNotFoundError];
    unfold logger_error, emit, call, raise; cbn [world trace job_config];
    rewrite <- ?app_assoc; reflexivity.
Qed.

End Loading.

(** ** What a method adds to the trace *)

Section Emits.
Context {W : Type}.
Variable allowed : event -> Prop.

Lemma emits_ret {A : Type} (a : A) : emits (W := W) allowed (ret a).
Proof. intros s. exists []. now rewrite app_nil_r. Qed.

Lemma emits_raise {A : Type} (e : exn) :
  emits (W := W) (A := A) allowed (raise e).
Proof. intros s. exists []. now rewrite app_nil_r. Qed.

Lemma emits_lift {A : Type} (r : result A) : emits (W := W) allowed (lift r).
Proof. intros s. exists []. now rewrite app_nil_r. Qed.

Lemma emits_ask {A : Type} (f : W -> A) : emits allowed (ask f).
Proof. intros s. exists []. now rewrite app_nil_r. Qed.

Lemma emits_get_config : emits (W := W) allowed get_config.
Proof. intros s. exists []. now rewrite app_nil_r. Qed.

Lemma emits_put_config (j : json) : emits (W := W) allowed (put_config j).
Proof. intros s. exists []. now rewrite app_nil_r. Qed.

Lemma emits_run {A : Type} (f : W -> W * result A) : emits allowed (run f).
Proof.
  intros s. exists []. unfold run. destruct (f (world s)).
  now rewrite app_nil_r.
Qed.

Lemma emits_call {A : Type} (ev : event) (f : W -> W * result A) :
  allowed ev -> emits allowed (call ev f).
Proof.
  intros Hev s. exists [ev]. unfold call. destruct (f (world s)).
  split; [reflexivity|now constructor].
Qed.

Lemma emits_bind {A B : Type} (m : M W A) (k : A -> M W B) :
  emits allowed m -> (forall a, emits allowed (k a)) ->
  emits allowed (bind m k).
Proof.
  intros Hm Hk s. unfold bind. destruct (Hm s) as (t & Ht & Hall).
  destruct (m s) as [s' [a|e]]; cbn [fst] in *; [|eauto].
  destruct (Hk a s') as (t' & Ht' & Hall').
  exists (t ++ t')%list. rewrite Ht', Ht, app_assoc.
  split; [reflexivity|now apply Forall_app].
Qed.

Lemma emits_try {A : Type} (m : M W A) (h : exn -> M W A) :
  emits allowed m -> (forall e, emits allowed (h e)) ->
  emits allowed (try_except m h).
Proof.
  intros Hm Hh s. unfold try_except. destruct (Hm s) as (t & Ht & Hall).
  destruct (m s) as [s' [a|e]]; cbn [fst] in *; [eauto|].
  destruct (Hh e s') as (t' & Ht' & Hall').
  exists (t ++ t')%list. rewrite Ht', Ht, app_assoc.
  split; [reflexivity|now apply Forall_app].
Qed.

Lemma emits_attempt {A : Type} (m : M W A) :
  emits allowed m -> emits allowed (attempt m).
Proof.
  intros Hm s. unfold attempt. destruct (Hm s) as (t & Ht & Hall).
  destruct (m s) as [s' r]. eauto.
Qed.

Lemma emits_with {A : Type} (enter leave : M W unit) (body : M W A) :
  emits allowed enter -> emits allowed leave -> emits allowed body ->
  emits allowed (with_ enter leave body).
Proof.
  intros He Hl Hb. unfold with_.
  repeat (apply emits_bind; [|intros ?]);
    auto using emits_attempt, emits_lift.
Qed.

Lemma emits_for {A : Type} (l : list A) (body : A -> M W unit) :
  (forall x, emits allowed (body x)) -> emits allowed (for_ l body).
Proof.
  intros Hb. induction l as [|x l IH]; simpl.
  - apply emits_ret.
  - apply emits_bind; auto.
Qed.

Lemma emits_fold {A S : Type} (l : list A) (body : A -> S -> M W S) acc :
  (forall x a, emits allowed (body x a)) -> emits allowed (fold_ l body acc).
Proof.
  intros Hb. revert acc. induction l as [|x l IH]; simpl; intros acc.
  - apply emits_ret.
  - apply emits_bind; auto.
Qed.

Lemma emits_logger_error (msg : string) :
  allowed (ELogError msg) -> emits (W := W) allowed (logger_error msg).
Proof. intros Hev. now apply emits_call. Qed.

End Emits.

Ltac emits_step :=
  first
    [ progress (intros; cbv beta iota)
    | match goal with
      | |- emits ?P (bind (ret ?a) ?k) => change (emits P (k a))
      end
    | apply emits_ret | apply emits_raise | apply emits_lift | apply emits_ask
    | apply emits_get_config | apply emits_put_config | apply emits_run
    | apply emits_bind | apply emits_try | apply emits_attempt
    | apply emits_for | apply emits_fold | apply emits_with
    | match goal with
      | |- emits _ (if ?b then _ else _) => destruct b
      | |- emits _ (match ?x with _ => _ end) => destruct x
      | |- emits _ (let (_, _) := ?x in _) => destruct x
      end ].

Section EmitsMethods.
Context {W : Type} `{SSHClient W} `{LocalHost W}.
Variable allowed : event -> Prop.

Lemma emits_execute_command cmnd :
  allowed (EExec cmnd) -> emits (W := W) allowed (_execute_command cmnd false).
Proof.
  intros Hev. unfold _execute_command.
  repeat first [emits_step | now apply emits_call].
Qed.

Lemma emits_config_get k : emits (W := W) allowed (config_get k).
Proof. unfold config_get. repeat emits_step. Qed.

Lemma emits_config_get2 k1 k2 : emits (W := W) allowed (config_get2 k1 k2).
Proof. unfold config_get2, config_get. repeat emits_step. Qed.

Lemma emits_config_set k v : emits (W := W) allowed (config_set k v).
Proof. unfold config_set. repeat emits_step. Qed.

Lemma emits_config_set2 k1 k2 v :
  emits (W := W) allowed (config_set2 k1 k2 v).
Proof.
  unfold config_set2, config_set, config_get. repeat emits_step.
Qed.

End EmitsMethods.

Section Cleanup2.
Context {W : Type} `{SSHClient W} `{LocalHost W}.

(** X6: with [check=False], [cleanup_job] asks the user nothing and sends no
    [scancel]: whatever the record and the cluster, all it does is remove a
    directory ([rm -r]) or log. *)
Theorem cleanup_job_unchecked_only_removes :
  emits (W := W) removal_only (cleanup_job false).
Proof.
  unfold cleanup_job, cleanup_remove.
  repeat first
    [ apply emits_config_get | apply emits_config_get2
    | apply emits_config_set
    | apply emits_logger_error; exact I
    | apply emits_execute_command; apply prefix_append
    | emits_step ].
Qed.

End Cleanup2.

Lemma split_without_separator (sep : ascii) (s : string) : forall tok,
  existsb (Ascii.eqb sep) (list_ascii_of_string s) = false ->
  Py.split_from sep s tok = [tok ++ s].
Proof.
  induction s as [|c s IH]; intros tok; simpl.
  - now rewrite append_empty.
  - intros Hno. apply orb_false_iff in Hno as [Hc Hs].
    rewrite Ascii.eqb_sym, Hc, IH by exact Hs.
    now rewrite append_assoc.
Qed.

Section Edges.
Context {W : Type} `{SSHClient W} `{LocalHost W}.

(** X5: a record whose [job_dir] is not a string ([None], as [cleanup_job]
    leaves it) cannot be saved: [save_job] stamps [dump_ts], then fails on
    the destination with the error of the concatenation, logs it and raises
    it again; no SFTP session is opened. *)
Theorem save_job_without_job_dir (s : state W) c' v e :
  let now := strftime_now (world s) in
  Py.setitem2 (job_config s) "ts" "dump_ts" (JStr (snd now)) = Ok c' ->
  Py.getitem (job_config s) "job_dir" = Ok v ->
  Py.as_str v = Raise e ->
  save_job s
  = ({| world := fst now;
        trace := (trace s
                   ++ [ETime; ELogError "Unable to write json job config file"])%list;
        job_config := c' |},
     Raise e).
Proof.
  intros now Hset Hdir Hstr. subst now.
  assert (Hdir' : Py.getitem c' "job_dir" = Ok v).
  { rewrite (getitem_after_setitem2 _ _ _ _ _ "job_dir" Hset) by discriminate.
    exact Hdir. }
  unfold Py.setitem2 in Hset.
  destruct (Py.getitem (job_config s) "ts") as [o|] eqn:Hts; [|discriminate].
  destruct (Py.setitem o "dump_ts" _) as [o'|] eqn:Ho; [|discriminate].
  unfold save_job, try_except, bind, get_ts, call at 1.
  destruct (strftime_now (world s)) as [w1 t1]. cbn [fst snd] in *.
  unfold config_set2, bind. rewrite config_get_run.
  cbn [job_config world trace lift]. rewrite Hts, Ho.
  unfold config_set, bind, get_config, lift, put_config.
  cbn [job_config world trace]. rewrite Hset.
  rewrite config_get_run. cbn [job_config world trace].
  rewrite Hdir', Hstr.
  unfold logger_error, emit, call, raise. cbn [job_config world trace].
  now rewrite <- app_assoc.
Qed.

(** X7: [cleanup_job] goes on only when the answer to its question is
    [yes], in whatever case.  At any other answer to the first question it is
    asked (about the cancellation for a submitted job, about the directory
    otherwise) it returns [None]: nothing is sent to the cluster and the
    record is as it was. *)
Theorem cleanup_job_declined (s : state W) v w answer :
  let prompt :=
    if Py.not_None v
    then "Are you sure yo want to cancel the job? [yes/no]"
    else "Are you sure yo want to delete job directory? [yes/no]" in
  timestamp_set (job_config s) "setup_ts" = true ->
  Py.getitem2 (job_config s) "ts" "submit_ts" = Ok v ->
  input prompt (world s) = (w, Ok answer) ->
  String.eqb (Py.lower answer) "yes" = false ->
  cleanup_job true s
  = ({| world := w; trace := (trace s ++ [EInput prompt])%list;
        job_config := job_config s |},
     Ok JNull).
Proof.
  intros prompt Hsetup Hsubmit Hin Hno. subst prompt.
  destruct (timestamp_set_true _ _ Hsetup) as (u & Hu & Hnn).
  unfold cleanup_job, bind. rewrite config_get2_run, Hu, Hnn.
  rewrite config_get2_run, Hsubmit. cbn [ret]. destruct (Py.not_None v).
  - unfold confirm, bind, call. rewrite Hin. cbn [ret]. now rewrite Hno.
  - unfold cleanup_remove, confirm, bind, call. rewrite Hin. cbn [ret].
    now rewrite Hno.
Qed.

(** X8: [cleanup_job] cannot be repeated.  On the record that a successful
    [cleanup_job], with [check=False], returns ([job_dir] is [None] by
    then), a further [cleanup_job] raises [TypeError] where it builds the
    command, having sent and logged nothing. *)
Theorem cleanup_job_twice (s s1 : state W) (r : json) :
  cleanup_job false s = (s1, Ok r) ->
  forall s2 : state W,
    job_config s2 = r ->
    cleanup_job false s2 = (s2, Raise TypeError).
Proof.
  intros Hrun.
  assert (Hpost : post (cleanup_job false) s
            (fun s' res =>
               forall r', res = Ok r' ->
                 timestamp_set r' "setup_ts" = true
                 /\ Py.getitem r' "job_dir" = Ok JNull)).
  { clear Hrun. unfold cleanup_job, cleanup_remove. destruct s as [w0 t0 c0].
    psteps; try discriminate; try impossible.
    intros r' [= <-]. split.
    - unfold timestamp_set. backtrack. now rewrite Heqb.
    - backtrack. reflexivity. }
  unfold post in Hpost. rewrite Hrun in Hpost.
  destruct (Hpost r eq_refl) as [Hsetup Hdir]. clear Hpost Hrun.
  intros s2 Hs2. subst r.
  destruct (timestamp_set_true _ _ Hsetup) as (u & Hu & Hnn).
  unfold cleanup_job, cleanup_remove, bind.
  rewrite config_get2_run, Hu, Hnn. cbn [ret].
  rewrite config_get_run, Hdir. reflexivity.
Qed.

(** X9: a cancelled job is locked out of the lifecycle.  [cancel_job] also
    clears [setup_ts], so that on the record it returns [submit_job] and
    [cleanup_job] both stop at their guard, in whatever state the world is:
    they log, raise, and send nothing. *)
Theorem cancelled_job_is_locked_out (s s1 : state W) (r : json) :
  cancel_job s = (s1, Ok r) ->
  forall (s2 : state W) (check : bool),
    job_config s2 = r ->
    submit_job s2
    = (logged s2 "Job has not been initialized or has already been submitted.",
       Raise (Exception
                "Job has not been initialized or has already been submitted."))
    /\ cleanup_job check s2
       = (logged s2 "No job to cleanup. Job has not been initialized.",
          Raise (Exception
                   "No job to cleanup. Job has not been initialized.")).
Proof.
  intros Hrun s2 check Hs2.
  destruct (cancel_job_success _ _ _ Hrun) as (_ & Hsetup & Hsubmit & _).
  subst r. unfold timestamp_null in *.
  destruct (Py.getitem2 (job_config s2) "ts" "setup_ts")
    as [[| | | | |]|] eqn:Hu; try discriminate.
  destruct (Py.getitem2 (job_config s2) "ts" "submit_ts")
    as [[| | | | |]|] eqn:Hv; try discriminate.
  split.
  - unfold submit_job, bind. rewrite !config_get2_run, Hu, Hv. reflexivity.
  - unfold cleanup_job, bind. rewrite !config_get2_run, Hu. reflexivity.
Qed.

(** X10: [submit_job] reads the identifier off the last line but one of what
    [sbatch] printed.  When that output has no line feed in it, there is no
    such line: though the command has run, [submit_job] raises [IndexError]
    and the record is as it was, [submit_ts] still [None]. *)
Theorem submit_job_needs_a_line_feed (s s1 : state W) setup dir out :
  Py.getitem2 (job_config s) "ts" "setup_ts" = Ok setup ->
  Py.not_None setup = true ->
  Py.getitem2 (job_config s) "ts" "submit_ts" = Ok JNull ->
  Py.getitem (job_config s) "job_dir" = Ok dir ->
  _execute_command ("cd " ++ py_str dir ++ ";sbatch submit_script.sh") false s
  = (s1, Ok out) ->
  Str.has_line_feed out = false ->
  submit_job s = (s1, Raise IndexError) /\ job_config s1 = job_config s.
Proof.
  intros Hu Hnn Hv Hdir Hexec Hlf. split.
  - unfold submit_job, bind. rewrite !config_get2_run, Hu, Hv, Hnn.
    cbn [Py.not_None negb andb]. rewrite config_get_run, Hdir.
    unfold try_except, bind. rewrite Hexec. cbn [ret lift].
    unfold Py.split. rewrite split_without_separator by exact Hlf.
    reflexivity.
  - pose proof (keeps_execute_command
                  ("cd " ++ py_str dir ++ ";sbatch submit_script.sh") false s)
      as Hk.
    now rewrite Hexec in Hk.
Qed.

(** X12: when [scancel] fails, [cancel_job] raises what the command raised
    and the record keeps its identifier and its timestamps, so that the
    cancellation can be asked again. *)
Theorem cancel_job_failure_keeps_record (s s1 : state W) v id e :
  Py.getitem2 (job_config s) "ts" "submit_ts" = Ok v ->
  Py.not_None v = true ->
  Py.getitem2 (job_config s) "slurm" "slurm_id" = Ok (JStr id) ->
  _execute_command ("scancel " ++ id) false s = (s1, Raise e) ->
  cancel_job s = (s1, Raise e) /\ job_config s1 = job_config s.
Proof.
  intros Hv Hnn Hid Hexec. split.
  - unfold cancel_job, bind. rewrite config_get2_run, Hv, Hnn.
    rewrite config_get2_run, Hid. cbn [lift Py.as_str]. now rewrite Hexec.
  - pose proof (keeps_execute_command ("scancel " ++ id) false s) as Hk.
    now rewrite Hexec in Hk.
Qed.

End Edges.

Lemma getitem_popped_default o k p :
  Py.pop_default o k = Ok p -> Py.getitem (snd p) k = Raise (KeyError k).
Proof.
  destruct o; simpl; try discriminate.
  destruct (Dict.get k d) eqn:E; intros [= <-]; simpl.
  - now rewrite dict_get_pop_eq.
  - now rewrite E.
Qed.

(** Steps up to the next command sent to the cluster. *)
Ltac psteps_to_command :=
  repeat lazymatch goal with
    | |- post (_execute_command _ _) _ _ => fail
    | |- _ => pstep
    end.

Lemma post_run {W A : Type} (m : M W A) (s : state W) Q :
  (forall s' r, m s = (s', r) -> Q s' r) -> post m s Q.
Proof. intros HQ. unfold post. apply HQ. now destruct (m s). Qed.

(** Runs the command the goal is at, keeping what it gave. *)
Ltac run_command Hexec :=
  lazymatch goal with
  | |- post (_execute_command ?c ?p) ?s _ =>
      let Hk := fresh "Hk" in
      pose proof (keeps_execute_command c p s) as Hk;
      apply post_run; intros [? ? ?] [?|?] Hexec;
      rewrite Hexec in Hk; cbn [fst snd job_config] in Hk; subst
  end.

Section Submitted.
Context {W : Type} `{SSHClient W} `{LocalHost W}.

(** X11: on the record a successful [submit_job] returns, [slurm_id] is the
    last word, blanks apart, of the last line but one of what [sbatch]
    printed, and no [sbatch_ret] of an earlier, rejected submission is
    left. *)
Theorem submit_job_records_identifier (s s1 : state W) (r : json) :
  submit_job s = (s1, Ok r) ->
  exists dir s' out line id,
    Py.getitem (job_config s) "job_dir" = Ok dir
    /\ _execute_command ("cd " ++ py_str dir ++ ";sbatch submit_script.sh")
         false s = (s', Ok out)
    /\ Py.last_but_one (Py.split LF out) = Ok line
    /\ Py.last (Py.split " " line) = Ok id
    /\ Py.getitem2 r "slurm" "slurm_id" = Ok (JStr id)
    /\ Py.getitem2 r "slurm" "sbatch_ret" = Raise (KeyError "sbatch_ret").
Proof.
  intros Hrun.
  assert (Hpost : post submit_job s
            (fun _ res =>
               forall r', res = Ok r' ->
                 exists dir s' out line id,
                   Py.getitem (job_config s) "job_dir" = Ok dir
                   /\ _execute_command
                        ("cd " ++ py_str dir ++ ";sbatch submit_script.sh")
                        false s = (s', Ok out)
                   /\ Py.last_but_one (Py.split LF out) = Ok line
                   /\ Py.last (Py.split " " line) = Ok id
                   /\ Py.getitem2 r' "slurm" "slurm_id" = Ok (JStr id)
                   /\ Py.getitem2 r' "slurm" "sbatch_ret"
                      = Raise (KeyError "sbatch_ret"))).
  2: { unfold post in Hpost. rewrite Hrun in Hpost. now apply Hpost. }
  clear Hrun. unfold submit_job. destruct s as [w0 t0 c0].
  psteps_to_command; try discriminate.
  run_command Hexec; psteps; try discriminate; try impossible.
  intros r' [= <-].
  rewrite (getitem2_after_setitem2 _ _ _ _ _ "slurm" "slurm_id" Heqr5)
    in Heqr7.
  cbn in Heqr7. injection Heqr7 as <-. injection Heqr6 as <-.
  eexists a1, _, a2, a3, a4.
  split; [reflexivity|]. split; [exact Hexec|].
  split; [assumption|]. split; [assumption|]. split.
  - backtrack. reflexivity.
  - rewrite (getitem2_after_stamped _ _ "slurm" "sbatch_ret" H1)
      by reflexivity.
    rewrite (getitem2_after_setitem2 _ _ _ _ _ "slurm" "sbatch_ret" Heqr11).
    cbn.
    rewrite (getitem2_after_setitem _ _ _ _ "slurm" "sbatch_ret" Heqr10).
    cbn. exact (getitem_popped_default _ _ _ Heqr9).
Qed.

End Submitted.

Lemma bind_inv {W A B : Type} (m : M W A) (k : A -> M W B) s s' b :
  bind m k s = (s', Ok b) ->
  exists s0 a, m s = (s0, Ok a) /\ k a s0 = (s', Ok b).
Proof.
  unfold bind. destruct (m s) as [s0 [a|e]]; [eauto|discriminate].
Qed.

Lemma getitem_not_in_keys c ks j :
  Py.keys c = Ok ks -> Py.mem j ks = false -> Py.getitem c j = Raise (KeyError j).
Proof.
  destruct c; simpl; try discriminate. intros [= <-].
  unfold Py.mem, Dict.keys. induction d as [|[k v] d IH]; simpl; [reflexivity|].
  rewrite String.eqb_sym. destruct (String.eqb k j); [discriminate|exact IH].
Qed.

Lemma bind_split {W A : Type} (m : M W A) (f : A -> M W unit)
  (rest : M W unit) s s1 :
  (v <- m ;; f v ;; rest) s = (s1, Ok tt) ->
  exists s', (v <- m ;; f v) s = (s', Ok tt) /\ rest s' = (s1, Ok tt).
Proof.
  unfold bind. destruct (m s) as [s0 [a|e]]; [|discriminate].
  destruct (f a s0) as [s' [[]|e]]; [eauto|discriminate].
Qed.

Section Defaults.
Context {W : Type} `{SSHClient W} `{LocalHost W}.

(** One line of lines 413-417. *)
Lemma default_filled_in app_config j a (s s1 : state W) :
  (v <- _get_attr app_config j a ;; config_set j v) s = (s1, Ok tt) ->
  Py.getitem (job_config s1) j
  = match Py.getitem (job_config s) j with
    | Ok v => Ok v
    | Raise _ => Py.getitem app_config a
    end
  /\ forall k, k <> j ->
       Py.getitem (job_config s1) k = Py.getitem (job_config s) k.
Proof.
  intros Hrun. apply bind_inv in Hrun as (s0 & v & Hget & Hset).
  assert (Hv : s0 = s
               /\ Ok v = match Py.getitem (job_config s) j with
                         | Ok v => Ok v
                         | Raise _ => Py.getitem app_config a
                         end).
  { revert Hget. unfold _get_attr, bind, get_config, lift.
    destruct (Py.keys (job_config s)) as [ks|] eqn:Hks; [|discriminate].
    destruct (Py.mem j ks) eqn:Hmem.
    - rewrite config_get_run. intros [= <- Hj]. now rewrite Hj.
    - intros [= <- Hj]. now rewrite (getitem_not_in_keys _ _ _ Hks Hmem). }
  destruct Hv as [-> Hv]. rewrite <- Hv. clear Hv Hget.
  revert Hset. unfold config_set, bind, get_config, lift, put_config.
  destruct (Py.setitem (job_config s) j v) as [c'|] eqn:Hc; [|discriminate].
  intros [= <-]. cbn [job_config]. split.
  - exact (getitem_setitem_eq _ _ _ _ Hc).
  - intros k Hk. apply (getitem_setitem_ne _ _ _ _ k Hc). congruence.
Qed.

(** X14: [setup_job] takes [desc], [queue], [nodeCount],
    [processorsPerNode] and [maxRunTime] from the job's configuration when it
    has them, and from the application's defaults otherwise; no other key of
    the record is touched. *)
Theorem setup_defaults_job_wins app_config (s s1 : state W) :
  setup_defaults app_config s = (s1, Ok tt) ->
  (forall j a, In (j, a) defaults ->
     Py.getitem (job_config s1) j
     = match Py.getitem (job_config s) j with
       | Ok v => Ok v
       | Raise _ => Py.getitem app_config a
       end)
  /\ (forall k, ~ In k (map fst defaults) ->
        Py.getitem (job_config s1) k = Py.getitem (job_config s) k).
Proof.
  unfold setup_defaults. intros Hrun.
  apply bind_split in Hrun as (sa & Ha & Hrun).
  apply bind_split in Hrun as (sb & Hb & Hrun).
  apply bind_split in Hrun as (sc & Hc & Hrun).
  apply bind_split in Hrun as (sd & Hd & Hrun).
  apply default_filled_in in Ha as [Ha Ha'], Hb as [Hb Hb'],
    Hc as [Hc Hc'], Hd as [Hd Hd'], Hrun as [He He'].
  split.
  - intros j a Hin. cbn in Hin.
    repeat destruct Hin as [[= <- <-]|Hin]; try contradiction.
    + rewrite He', Hd', Hc', Hb' by discriminate. exact Ha.
    + rewrite He', Hd', Hc' by discriminate. rewrite Hb.
      now rewrite Ha' by discriminate.
    + rewrite He', Hd' by discriminate. rewrite Hc.
      now rewrite Hb', Ha' by discriminate.
    + rewrite He' by discriminate. rewrite Hd.
      now rewrite Hc', Hb', Ha' by discriminate.
    + rewrite He. now rewrite Hd', Hc', Hb', Ha' by discriminate.
  - intros k Hk. cbn in Hk.
    rewrite He', Hd', Hc', Hb', Ha'; [reflexivity|..]; intros ->; apply Hk; auto 10.
Qed.

End Defaults.

Section Identity.
Context {W : Type} `{SSHClient W} `{LocalHost W}.
Variable self : TACCJobManager.

(** X13: the record a successful [setup_job] returns names the job after
    its [name] and the time of the set-up, and places it under the manager's
    jobs directory: [job_id] is [<name>_<setup_ts>] and [job_dir] is
    [<jobs_dir>/<job_id>]. *)
Theorem setup_job_names_the_job a b c (s s1 : state W) (r : json) :
  setup_job self a b c s = (s1, Ok r) ->
  exists name ts,
    Py.getitem r "name" = Ok name
    /\ Py.getitem2 r "ts" "setup_ts" = Ok (JStr ts)
    /\ Py.getitem r "job_id" = Ok (JStr (py_str name ++ "_" ++ ts))
    /\ Py.getitem r "job_dir"
       = Ok (JStr (jobs_dir self ++ "/" ++ py_str name ++ "_" ++ ts)).
Proof.
  intros Hrun.
  assert (Hpost : post (setup_job self a b c) s
            (fun s' res =>
               forall r', res = Ok r' ->
                 exists name ts,
                   Py.getitem r' "name" = Ok name
                   /\ Py.getitem2 r' "ts" "setup_ts" = Ok (JStr ts)
                   /\ Py.getitem r' "job_id"
                      = Ok (JStr (py_str name ++ "_" ++ ts))
                   /\ Py.getitem r' "job_dir"
                      = Ok (JStr (jobs_dir self ++ "/" ++ py_str name
                                    ++ "_" ++ ts)))).
  2: { unfold post in Hpost. rewrite Hrun in Hpost. now apply Hpost. }
  clear Hrun. unfold setup_job, setup_prepare, setup_build.
  apply post_bind, post_bind, post_any.
  intros [w0 t0 c0] [app_config|e]; [|discriminate].
  apply post_bind. unfold setup_job_dir.
  psteps; try discriminate; try impossible.
  pkeep keeps_setup_copy_app.
  psteps. pkeep keeps_setup_wrapper_script.
  unfold setup_defaults, _get_attr.
  psteps; try discriminate; try impossible.
  all: pkeep keeps_setup_submit_script.
  all: psteps; pkeep keeps_setup_stage.
  all: psteps; pkeep keeps_setup_write_scripts.
  all: psteps; pkeep keeps_setup_chmod.
  all: unfold setup_save; psteps; try discriminate.
  all: try (pkeep keeps_cleanup; psteps; discriminate).
  all: intros r' [= <-].
  all: rewrite (getitem2_after_setitem2 _ _ _ _ _ "ts" "setup_ts" Heqr1)
         in Heqr3; cbn in Heqr3; injection Heqr3 as <-.
  all: rewrite (getitem_after_setitem _ _ _ _ "job_id" Heqr4) in Heqr5;
         cbn in Heqr5; injection Heqr5 as <-.
  all: rewrite (getitem_after_setitem2 _ _ _ _ _ "name" Heqr1) in Heqr2
         by discriminate;
       rewrite (getitem_after_setitem _ _ _ _ "name" Heqr0) in Heqr2;
       cbn in Heqr2.
  all: exists a3, a1; cbn [py_str]; repeat split; backtrack;
         first [reflexivity | assumption].
Qed.

End Identity.

Section Transfers.
Context {W : Type} `{SSHClient W} `{LocalHost W} `{Workstation W}.
Variable self : TACCJobManager.

(** X15: when the upload of a directory fails, [send_file] has packed the
    directory into a local archive and leaves that archive behind: the
    SFTP session is closed and the error of [put] is raised, with no
    [os.remove] and no command sent to the cluster. *)
Theorem send_file_failed_upload_keeps_archive
  local remote hidden (s : state W) w1 w2 w3 w4 e :
  let fname := Py.basename local in
  let remote_dir := os_path_abspath (os_path_join remote "..") (world s) in
  let local_tar := "." ++ fname ++ ".taccjm.tar" in
  let remote_tar := remote_dir ++ "/.taccjm_temp_" ++ fname ++ ".tar" in
  os_path_isdir local (world s) = true ->
  tar_add local (Py.basename remote) local_tar hidden (world s)
  = (w1, Ok tt) ->
  open_sftp w1 = (w2, Ok tt) ->
  sftp_put local_tar remote_tar w2 = (w3, Raise e) ->
  sftp_close w3 = (w4, Ok tt) ->
  send_file local remote hidden s
  = ({| world := w4;
        trace := (trace s
                   ++ [ETar local (Py.basename remote) local_tar;
                       EOpenSftp; EPut local_tar remote_tar;
                       ECloseSftp])%list;
        job_config := job_config s |},
     Raise e).
Proof.
  intros fname remote_dir local_tar remote_tar Hdir Htar Hopen Hput Hclose.
  unfold send_file, bind, ask. rewrite Hdir.
  fold fname remote_dir local_tar remote_tar.
  unfold call at 1. rewrite Htar. cbn [world trace job_config].
  unfold with_sftp, with_, bind, attempt, call.
  cbn [world trace job_config]. rewrite Hopen.
  cbn [world trace job_config]. rewrite Hput.
  cbn [world trace job_config]. rewrite Hclose.
  cbn [world trace job_config lift]. now rewrite <- !app_assoc.
Qed.



End Transfers.

Lemma written_dump_events t path chunks :
  written (t ++ dump_events path chunks) path
  = Some (String.concat EmptyString chunks).
Proof.
  unfold written, dump_events.
  rewrite fold_left_app. cbn [app fold_left written_step].
  rewrite String.eqb_refl. cbn [andb String.eqb Ascii.eqb Bool.eqb].
  rewrite fold_left_app, written_writes. reflexivity.
Qed.

Section Deploy.
Context {W : Type} `{SSHClient W} `{LocalHost W} `{Workstation W}.
Variable self : TACCJobManager.


(** What a successful [deploy_app] has done last: it has written the
    configuration it returns to [app.json] in the directory of the
    application. *)
Lemma deploy_app_success a b c overwrite (s s1 : state W) app :
  deploy_app self a b c overwrite s = (s1, Ok app) ->
  exists name t,
    Py.getitem app "name" = Ok (JStr name)
    /\ trace s1
       = (t ++ dump_events ((apps_dir self ++ "/" ++ name) ++ "/app.json")
                (json_iterencode app))%list.
Proof.
  intros Hrun.
  assert (Hpost : post (deploy_app self a b c overwrite) s
            (fun s' res =>
               forall app', res = Ok app' ->
                 exists name t,
                   Py.getitem app' "name" = Ok (JStr name)
                   /\ trace s'
                      = (t ++ dump_events
                                ((apps_dir self ++ "/" ++ name) ++ "/app.json")
                                (json_iterencode app'))%list)).
  2: { unfold post in Hpost. rewrite Hrun in Hpost. now apply Hpost. }
  clear Hrun. unfold deploy_app.
  apply post_bind, post_any. intros s0 [proj|e]; [|discriminate].
  apply post_bind, post_any. intros s2 [app'|e]; [|discriminate].
  apply post_bind, post_any. intros s3 [apps|e]; [|discriminate].
  unfold logger_info, deploy_failed.
  repeat pstep; try discriminate.
  destruct a0; try discriminate. cbn in Heqr0. injection Heqr0 as <-.
  pkeep keeps_send_file; repeat pstep; try discriminate.
  cbn [String.concat].
  repeat xstep; try discriminate.
  all: try (apply post_json_dump; intros; repeat xstep; try discriminate).
  intros app'' [= <-]. exists s4, t. split; [assumption|].
  unfold dump_events. now rewrite <- !app_assoc.
Qed.

(** X19: [deploy_app] followed by [load_app_config] gives back the
    configuration that was deployed.  The cluster lists the application,
    lets its [app.json] be opened and closed, hands back on reading what the
    trace says was last written to it, and [json.loads] inverts [json.dump]
    on the configuration. *)
Theorem deploy_then_load_round_trip
  a b c overwrite (s s1 s2 : state W) (app : json) (name : string)
  (apps : list string) (content : string) (w3 w4 w5 w6 w7 : W) :
  let path := String.concat "/" [apps_dir self; name; "app.json"] in
  deploy_app self a b c overwrite s = (s1, Ok app) ->
  Py.getitem app "name" = Ok (JStr name) ->
  get_apps self s1 = (s2, Ok apps) ->
  Py.mem name apps = true ->
  open_sftp (world s2) = (w3, Ok tt) ->
  sftp_file_open path "rb" w3 = (w4, Ok tt) ->
  sftp_file_read path w4 = (w5, Ok content) ->
  written (trace s2 ++ [EOpenSftp; EFileOpen path "rb"]) path
  = Some content ->
  sftp_file_close path w5 = (w6, Ok tt) ->
  sftp_close w6 = (w7, Ok tt) ->
  json_loads (String.concat EmptyString (json_iterencode app)) = Ok app ->
  snd (load_app_config self (JStr name) s1) = Ok app.
Proof.
  intros path Hdeploy Hname Hlist Hmem Hopen Hfopen Hread Hfaith Hfclose
    Hclose Hcodec.
  destruct (deploy_app_success _ _ _ _ _ _ _ Hdeploy)
    as (name' & t & Hname' & Ht1).
  rewrite Hname in Hname'. injection Hname' as <-.
  destruct (list_files_success _ _ _ _ Hlist) as [Ht2 _].
  assert (Hpath : path = (apps_dir self ++ "/" ++ name) ++ "/app.json").
  { unfold path. cbn [String.concat]. now rewrite !append_assoc. }
  assert (Hcontent :
            content = String.concat EmptyString (json_iterencode app)).
  { rewrite Ht2, Ht1, Hpath in Hfaith.
    do 2 rewrite written_app in Hfaith. rewrite written_dump_events in Hfaith.
    cbn [fold_left written_step] in Hfaith.
    rewrite String.eqb_refl in Hfaith. cbn in Hfaith.
    now injection Hfaith as <-. }
  unfold load_app_config, bind. rewrite Hlist. cbn [in_list]. rewrite Hmem.
  cbn [negb lift join_slash map_result Py.as_str]. fold path.
  unfold with_sftp, with_file, with_, bind, call, attempt, json_load, lift,
    bind, call, ret.
  cbn [world trace job_config].
  rewrite Hopen. cbn [world trace job_config].
  rewrite Hfopen. cbn [world trace job_config]. rewrite Hread.
  cbn [world trace job_config]. rewrite Hcontent, Hcodec.
  cbn [world trace job_config]. rewrite Hfclose.
  cbn [world trace job_config]. rewrite Hclose. reflexivity.
Qed.

End Deploy.

Section Stdout.
Context {W : Type} `{SSHClient W} `{LocalHost W}.

(** What [_execute_command] returns is the standard output of the channel
    that [exec_command] handed back for this very command. *)
Lemma execute_command_returns_stdout cmnd (s s1 : state W) out :
  _execute_command cmnd false s = (s1, Ok out) ->
  exists ch,
    exec_command cmnd (world s) = (world s1, Ok ch)
    /\ stdout_text ch = Ok out
    /\ trace s1 = (trace s ++ [EExec cmnd])%list
    /\ job_config s1 = job_config s.
Proof.
  unfold _execute_command, bind, call, lift, raise, ret.
  destruct (exec_command cmnd (world s)) as [w [ch|e]]; [|discriminate].
  destruct (stdout_text ch) as [o|] eqn:Hout; [|discriminate].
  destruct (stderr_text ch) as [err|]; [|discriminate].
  destruct (0 <? String.length err)%nat; [discriminate|].
  intros [= <- <-]. exists ch. auto.
Qed.

End Stdout.

Section Applied.
Context {W : Type} `{SSHClient W} `{LocalHost W} `{Workstation W}.

Lemma run_keeps_trace {A : Type} (f : W -> W * result A) (s s' : state W) r :
  run f s = (s', r) ->
  trace s' = trace s /\ job_config s' = job_config s.
Proof.
  unfold run. destruct (f (world s)). now intros [= <- _].
Qed.

Lemma run_success {A : Type} (f : W -> W * result A) (s s' : state W) a :
  run f s = (s', Ok a) ->
  f (world s) = (world s', Ok a)
  /\ trace s' = trace s /\ job_config s' = job_config s.
Proof.
  unfold run. destruct (f (world s)) as [w r]. now intros [= <- ->].
Qed.

(** X20: a manager is built for a known system only.  The constructor
    connects to [<system>.tacc.utexas.edu] with the credentials it was given
    and asks the cluster for [$SCRATCH]: the three directories of the
    manager lie under what that [echo] printed, with the white space at both
    ends taken off.  Of the three, the constructor creates the jobs and the
    applications directory: besides the [echo], the two [mkdir -p] are all
    it sends, and the trash directory is not created. *)
Theorem init_creates_jobs_and_apps_only
  system user psw mfa apps jobs trash (s s1 : state W) system' self :
  __init__ system user psw mfa apps jobs trash s = (s1, Ok (system', self)) ->
  exists w1 w2 w3 ch out,
    Py.mem system TACC_SYSTEMS = true
    /\ system' = system ++ ".tacc.utexas.edu"
    /\ load_system_host_keys (world s) = (w1, Ok tt)
    /\ connect system' user psw mfa w1 = (w2, Ok tt)
    /\ exec_command "echo $SCRATCH" w2 = (w3, Ok ch)
    /\ stdout_text ch = Ok out
    /\ jobs_dir self = Str.strip out ++ "/" ++ jobs
    /\ apps_dir self = Str.strip out ++ "/" ++ apps
    /\ trash_dir self = Str.strip out ++ "/" ++ trash
    /\ trace s1
       = (trace s
            ++ [EExec "echo $SCRATCH";
                EExec ("mkdir -p " ++ jobs_dir self);
                EExec ("mkdir -p " ++ apps_dir self)])%list.
Proof.
  unfold __init__, logger_info.
  destruct (Py.mem system TACC_SYSTEMS) eqn:Hsys; cbn [negb].
  2: { unfold bind, logger_error, emit, call, raise. discriminate. }
  intros Hrun.
  apply bind_inv in Hrun as (sa & [] & [= <-] & Hrun).
  apply bind_inv in Hrun as (sb & [] & Hkeys & Hrun).
  apply bind_inv in Hrun as (sc & [] & Hconn & Hrun).
  apply bind_inv in Hrun as (sd & [] & [= <-] & Hrun).
  apply bind_inv in Hrun as (se & out & Hecho & Hrun).
  apply bind_inv in Hrun as (sf & [] & [= <-] & Hrun).
  apply bind_inv in Hrun as (sg & o1 & Hjobs & Hrun).
  apply bind_inv in Hrun as (sh & o2 & Happs & Hrun).
  injection Hrun as <- <- <-.
  apply run_success in Hkeys as (Hkeys & Hkt & _).
  apply run_success in Hconn as (Hconn & Hct & _).
  apply execute_command_returns_stdout in Hecho as (ch & Hexec & Hout & Hecho & _).
  apply execute_command_success in Hjobs as [Hjobs _], Happs as [Happs _].
  exists (world sb), (world sc), (world se), ch, out.
  cbn [jobs_dir apps_dir trash_dir String.concat].
  repeat split; try assumption.
  rewrite Happs, Hjobs, Hecho, Hct, Hkt.
  cbn [String.concat]. now rewrite <- !app_assoc.
Qed.

(** X21: the only command [get_file] ever sends the cluster is the [tar]
    that packs [remote] into an archive beside it; whatever comes of the
    download, no command removes that archive from the cluster. *)
Theorem get_file_only_packs_remote remote local :
  emits (W := W) (download_events remote) (get_file remote local).
Proof.
  unfold get_file, with_sftp.
  repeat first
    [ apply emits_execute_command; reflexivity
    | apply emits_call; exact I
    | emits_step ].
Qed.

End Applied.



Section Downloads.
Context {W : Type} `{SSHClient W} `{LocalHost W} `{Workstation W}.



End Downloads.

Section Peek.
Context {W : Type} `{SSHClient W} `{LocalHost W} `{Workstation W}.

(** X16: what [peak_job_file] can come to.  Without a string for
    [job_dir] in the record it raises before anything is sent.  Otherwise it
    sends one command on [<job_dir>/<fpath>], [head -<head>] when [head] is
    positive, else [tail -<tail>] when [tail] is, else a plain [head].  When
    the command goes through, [peak_job_file] returns the standard output of
    that command; whatever made the command fail, it logs and raises
    [Exception] with a message that names the path, the error of the command
    being dropped.  The record is untouched. *)
Theorem peak_job_file_outcome fpath (head tail : Z) (s : state W) :
  post (peak_job_file fpath head tail) s
    (fun s' r =>
       job_config s' = job_config s
       /\ ((s' = s
            /\ (exists e, r = Raise e)
            /\ forall dir,
                 Py.getitem (job_config s) "job_dir" <> Ok (JStr dir))
           \/ exists dir,
                let path := dir ++ "/" ++ fpath in
                let cmnd :=
                  if (0 <? head)%Z
                  then "head -" ++ py_str (JNum head) ++ " " ++ path
                  else if (0 <? tail)%Z
                       then "tail -" ++ py_str (JNum tail) ++ " " ++ path
                       else "head " ++ path in
                let msg := "Unable to peak at file at " ++ path in
                Py.getitem (job_config s) "job_dir" = Ok (JStr dir)
                /\ ((exists ch out,
                        exec_command cmnd (world s) = (world s', Ok ch)
                        /\ stdout_text ch = Ok out
                        /\ _execute_command cmnd false s = (s', Ok out)
                        /\ trace s' = (trace s ++ [EExec cmnd])%list
                        /\ r = Ok out)
                    \/ (exists s0 e,
                           _execute_command cmnd false s = (s0, Raise e)
                           /\ s' = logged s0 msg
                           /\ trace s'
                              = (trace s ++ [EExec cmnd; ELogError msg])%list
                           /\ r = Raise (Exception msg))))).
Proof.
  unfold peak_job_file, peak_file.
  apply post_run. intros s' r. unfold bind at 1. rewrite config_get_run.
  destruct (Py.getitem (job_config s) "job_dir") as [v|e] eqn:Hdir.
  2: { intros [= <- <-]. split; [reflexivity|]. left.
       repeat split; [eauto|discriminate]. }
  destruct v; cbn [lift Py.as_str bind];
    try (intros [= <- <-]; split; [reflexivity|]; left;
         repeat split; [eauto|discriminate]).
  rename s0 into dir.
  set (cmnd := if (0 <? head)%Z then _ else _).
  unfold try_except.
  pose proof (execute_command_trace cmnd s) as [Ht Hc].
  destruct (_execute_command cmnd false s) as [s1 [out|e]] eqn:Hexec;
    cbn [fst] in Ht, Hc.
  - intros [= <- <-]. split; [exact Hc|]. right. exists dir.
    split; [reflexivity|]. left.
    destruct (execute_command_returns_stdout _ _ _ _ Hexec)
      as (ch & Hch & Hout & _).
    exists ch, out. repeat split; assumption.
  - unfold bind, logger_error, emit, call, raise.
    intros [= <- <-]. cbn [trace job_config].
    split; [exact Hc|]. right. exists dir.
    split; [reflexivity|]. right. exists s1, e.
    split; [exact Hexec|]. split; [reflexivity|].
    rewrite Ht, <- app_assoc. auto.
Qed.

End Peek.

Section Persisted.
Context {W : Type} `{SSHClient W} `{LocalHost W}.
Variable self : TACCJobManager.

(** Where the goal is at [save_job]: a save that succeeds has put the
    record on the wire. *)
Lemma post_save_job_wire (s : state W) (Q : state W -> result unit -> Prop) :
  (forall s1 dir,
      Py.getitem (job_config s1) "job_dir" = Ok (JStr dir) ->
      trace s1
      = (trace s
           ++ save_events (dir ++ "/job_config.json")
                (json_iterencode (job_config s1)))%list ->
      Q s1 (Ok tt)) ->
  (forall s1 e, Q s1 (Raise e)) ->
  post save_job s Q.
Proof.
  intros Hok Herr. apply post_run. intros s1 [[]|e] Hsave; [|apply Herr].
  destruct (save_job_success _ _ Hsave) as (dir & _ & Hdir & Ht). eauto.
Qed.

(** X23: the record that [setup_job], [submit_job] or [cancel_job] returns
    is the record it has just saved: by the trace, the [job_config.json] of
    the job directory holds the serialized form of what was returned. *)
Theorem lifecycle_success_is_persisted a b c (s s1 : state W) (r : json) :
  setup_job self a b c s = (s1, Ok r)
  \/ submit_job s = (s1, Ok r)
  \/ cancel_job s = (s1, Ok r) ->
  exists dir,
    Py.getitem r "job_dir" = Ok (JStr dir)
    /\ written (trace s1) (dir ++ "/job_config.json")
       = Some (String.concat EmptyString (json_iterencode r)).
Proof.
  intros Hrun.
  assert (Hgoal : forall (m : M W json),
             m s = (s1, Ok r) ->
             post m s
               (fun s' res =>
                  forall r', res = Ok r' ->
                    exists dir t,
                      Py.getitem r' "job_dir" = Ok (JStr dir)
                      /\ trace s'
                         = (t ++ save_events (dir ++ "/job_config.json")
                                   (json_iterencode r'))%list) ->
             exists dir,
               Py.getitem r "job_dir" = Ok (JStr dir)
               /\ written (trace s1) (dir ++ "/job_config.json")
                  = Some (String.concat EmptyString (json_iterencode r))).
  { intros m Hm Hpost. unfold post in Hpost. rewrite Hm in Hpost.
    destruct (Hpost r eq_refl) as (dir & t & Hdir & Ht).
    exists dir. split; [exact Hdir|].
    cbn [fst] in Ht. rewrite Ht. apply written_save_events. }
  destruct Hrun as [Hrun|[Hrun|Hrun]]; apply (Hgoal _ Hrun); clear Hgoal Hrun.
  - unfold setup_job, setup_prepare, setup_build.
    apply post_bind, post_any. intros s0 [app_config|e]; [|discriminate].
    apply post_bind, post_any. intros s2 [[]|e]; [|discriminate].
    apply post_bind, post_any. intros s3 [[]|e]; [|discriminate].
    unfold setup_save. apply post_bind, post_try, post_save_job_wire.
    + intros s4 dir Hdir Ht. apply post_get_config.
      intros r' [= <-]. eauto.
    + intros s4 e. apply post_bind. pkeep keeps_cleanup.
      all: repeat pstep; discriminate.
  - unfold submit_job. destruct s as [w0 t0 c0].
    repeat pstep; try discriminate.
    all: apply post_save_job_wire; [|discriminate].
    all: intros s4 dir Hdir Ht; apply post_get_config.
    all: intros r' [= <-]; eauto.
  - unfold cancel_job. destruct s as [w0 t0 c0].
    repeat pstep; try discriminate.
    all: apply post_save_job_wire; [|discriminate].
    all: intros s4 dir Hdir Ht; apply post_get_config.
    all: intros r' [= <-]; eauto.
Qed.

End Persisted.

(** ** The record through the lifecycle *)

Lemma setitem2_gives_dict c k1 k2 v c' :
  Py.setitem2 c k1 k2 v = Ok c' ->
  exists d, Py.getitem c' k1 = Ok (JDict d).
Proof.
  unfold Py.setitem2.
  destruct (Py.getitem c k1) as [o|] eqn:Ho; [|discriminate].
  destruct o; simpl; try discriminate.
  intros Hs. exists (Dict.set k2 v d).
  exact (getitem_setitem_eq _ _ _ _ Hs).
Qed.

Lemma getitem2_gives_dict c k1 k2 v :
  Py.getitem2 c k1 k2 = Ok v -> exists d, Py.getitem c k1 = Ok (JDict d).
Proof.
  unfold Py.getitem2. destruct (Py.getitem c k1) as [o|]; [|discriminate].
  destruct o; simpl; try discriminate. eauto.
Qed.

Lemma setitem2_on_dict c k1 d k2 v :
  Py.getitem c k1 = Ok (JDict d) -> exists c', Py.setitem2 c k1 k2 v = Ok c'.
Proof.
  intros Hd. unfold Py.setitem2. rewrite Hd. simpl.
  destruct c; simpl in *; try discriminate. eauto.
Qed.

Lemma invariant_of_rejected c v i :
  Py.getitem2 c "ts" "submit_ts" = Ok v -> Py.not_None v = false ->
  Py.getitem2 c "slurm" "slurm_id" = Ok i ->
  eq_str i "FAILED" || eq_str i EmptyString = true ->
  lifecycle_invariant c = true.
Proof.
  intros Hv Hnone Hi Hs.
  unfold lifecycle_invariant, lifecycle_ok, sentinel_id, timestamp_set,
    has_slurm_id.
  rewrite Hv, Hi, Hnone, Hs. reflexivity.
Qed.

Ltac settle2 :=
  unfold lifecycle_invariant, sentinel_id, lifecycle_ok, timestamp_set,
    timestamp_null, has_slurm_id in *;
  backtrack; bools.

Section Kept.
Context {W : Type} `{SSHClient W} `{LocalHost W}.

(** Steps as [psteps] does, but reads the clock for what it is: a call that
    does not raise. *)
Ltac isteps :=
  repeat first
    [ lazymatch goal with
      | |- post get_ts _ _ =>
          apply post_get_ts; cbn [job_config world trace logged fst snd] in *
      end
    | pstep
    | lazymatch goal with
      | |- post save_job _ _ =>
          apply post_save_job; intros ? ? ? ? ?;
          cbn [job_config world trace logged fst snd] in *
      end ].

(** What can not happen to a record once one of its entries was assigned
    through [k1]: the entry under [k1] is a dictionary. *)
Ltac absurd_step :=
  exfalso;
  match goal with
  | Hs : Py.setitem2 ?c ?k1 ?k2 ?v = Ok ?c',
    Hg : Py.getitem2 ?c' ?k1 ?k2 = Raise _ |- _ =>
      rewrite (getitem2_setitem2_eq _ _ _ _ _ Hs) in Hg; discriminate
  | Hs : Py.setitem2 ?c ?k1 _ _ = Ok ?c',
    Hg : Py.getitem ?c' ?k1 = Raise _ |- _ =>
      destruct (setitem2_gives_dict _ _ _ _ _ Hs) as [? Hd];
      rewrite Hd in Hg; discriminate
  | Hs : Py.setitem2 ?c ?k1 _ _ = Ok ?c',
    Hg : Py.getitem ?c' ?k1 = Ok ?o,
    Hp : Py.pop_default ?o _ = Raise _ |- _ =>
      destruct (setitem2_gives_dict _ _ _ _ _ Hs) as [? Hd];
      rewrite Hd in Hg; injection Hg as <-; simpl in Hp;
      match type of Hp with
      | context [Dict.get ?k ?d] => destruct (Dict.get k d)
      end; discriminate
  end.

Lemma submit_job_keeps_invariant (s : state W) :
  lifecycle_invariant (job_config s) = true ->
  lifecycle_invariant (job_config (fst (submit_job s))) = true.
Proof.
  intros Hok.
  change (post submit_job s
            (fun s' _ => lifecycle_invariant (job_config s') = true)).
  unfold submit_job. destruct s as [w0 t0 c0]. cbn [job_config] in Hok.
  isteps; try assumption; try impossible.
  all: try (settle2; fail).
  all: try (absurd_step; fail).
  all: repeat match goal with
         | Hs : Py.setitem2 _ "slurm" "slurm_id" _ = Ok ?c,
           Hx : Py.getitem2 ?c "slurm" "slurm_id" = Ok _ |- _ =>
             rewrite (getitem2_setitem2_eq _ _ _ _ _ Hs) in Hx;
             injection Hx as <-
         | Hx : Ok _ = Ok _ |- _ => injection Hx as <-
         end.
  all: apply andb_prop in Heqb as [_ Hnone]; apply negb_true_iff in Hnone.
  5: { exfalso. destruct (getitem2_gives_dict _ _ _ _ Heqr) as [d Hd].
       rewrite <- (getitem_after_setitem2 _ _ _ _ _ "ts" Heqr4) in Hd
         by discriminate.
       assert (Hd' : Py.getitem a10 "ts" = Ok (JDict d)).
       { rewrite (getitem_after_setitem _ _ _ _ "ts" Heqr9). exact Hd. }
       destruct (setitem2_on_dict _ _ _ "submit_ts"
                   (JStr (snd (strftime_now w))) Hd') as [c' Hc'].
       congruence. }
  all: eapply invariant_of_rejected with (v := a0) (i := JStr a4);
    [backtrack; reflexivity | exact Hnone | backtrack; reflexivity
    | first [now rewrite Heqb0 | now rewrite Heqb1, orb_true_r]].
Qed.

Lemma cancel_job_keeps_invariant (s : state W) :
  lifecycle_invariant (job_config s) = true ->
  lifecycle_invariant (job_config (fst (cancel_job s))) = true.
Proof.
  intros Hok.
  change (post cancel_job s
            (fun s' _ => lifecycle_invariant (job_config s') = true)).
  unfold cancel_job. destruct s as [w0 t0 c0]. cbn [job_config] in Hok.
  isteps; try assumption; try impossible.
  all: settle2.
Qed.

Lemma cleanup_remove_keeps_invariant check (s : state W) :
  lifecycle_invariant (job_config s) = true ->
  lifecycle_invariant (job_config (fst (cleanup_remove check s))) = true.
Proof.
  intros Hok.
  change (post (cleanup_remove check) s
            (fun s' _ => lifecycle_invariant (job_config s') = true)).
  unfold cleanup_remove. destruct s as [w0 t0 c0]. cbn [job_config] in Hok.
  isteps; try assumption; try impossible; settle2.
Qed.

Lemma cleanup_job_keeps_invariant check (s : state W) :
  lifecycle_invariant (job_config s) = true ->
  lifecycle_invariant (job_config (fst (cleanup_job check s))) = true.
Proof.
  intros Hok.
  change (post (cleanup_job check) s
            (fun s' _ => lifecycle_invariant (job_config s') = true)).
  unfold cleanup_job. destruct s as [w0 t0 c0]. cbn [job_config] in Hok.
  assert (Hrem : forall s', lifecycle_invariant (job_config s') = true ->
            post (cleanup_remove check) s'
              (fun s'' _ => lifecycle_invariant (job_config s'') = true)).
  { intros. now apply cleanup_remove_keeps_invariant. }
  isteps; try assumption; try (now apply Hrem).
  unfold post.
  pose proof (cancel_job_keeps_invariant
                {| world := w; trace := t; job_config := c0 |} Hok) as Hc.
  destruct (cancel_job _) as [s' [r|e]]; cbn [fst snd] in *.
  - now apply Hrem.
  - exact Hc.
Qed.

End Kept.

Section SlurmBlock.
Context {W : Type} `{SSHClient W} `{LocalHost W}.
Variable self : TACCJobManager.

(** What [setup_job] starts from: the job configuration file, templated
    with the project's configuration, becomes the record. *)
Lemma setup_load_success a b c (s s0 : state W) app_config :
  setup_load self a b c s = (s0, Ok app_config) ->
  exists sp proj sj job,
    load_project_config (os_path_join a c) s = (sp, Ok proj)
    /\ load_templated_json_file (os_path_join a b) proj sp = (sj, Ok job)
    /\ job_config s0 = job.
Proof.
  unfold setup_load. intros Hrun.
  apply bind_inv in Hrun as (sp & proj & Hproj & Hrun).
  apply bind_inv in Hrun as (sj & job & Hjob & Hrun).
  apply bind_inv in Hrun as (s2 & [] & Hput & Hrun).
  apply bind_inv in Hrun as (s3 & appId & Hget & Hrun).
  exists sp, proj, sj, job. split; [exact Hproj|]. split; [exact Hjob|].
  pose proof (keeps_load_app_config self appId s3) as Hk.
  rewrite Hrun in Hk. cbn [fst] in Hk. rewrite Hk.
  rewrite config_get_run in Hget. injection Hget as <- _.
  unfold put_config in Hput. now injection Hput as <-.
Qed.

(** [setup_job] leaves the [slurm] block of the job configuration as the
    file has it. *)
Lemma setup_job_slurm_block a b c (s s1 : state W) (r : json) :
  setup_job self a b c s = (s1, Ok r) ->
  exists sp proj sj job,
    load_project_config (os_path_join a c) s = (sp, Ok proj)
    /\ load_templated_json_file (os_path_join a b) proj sp = (sj, Ok job)
    /\ Py.getitem r "slurm" = Py.getitem job "slurm".
Proof.
  intros Hrun.
  assert (Hpost : post (setup_job self a b c) s
            (fun s' res =>
               forall r', res = Ok r' ->
                 exists s0 app_config,
                   setup_load self a b c s = (s0, Ok app_config)
                   /\ Py.getitem r' "slurm"
                      = Py.getitem (job_config s0) "slurm")).
  { clear Hrun. unfold setup_job, setup_prepare, setup_build.
    apply post_bind, post_bind, post_run.
    intros [w0 t0 c0] [app_config|e] Hload; [|discriminate].
    apply post_bind. unfold setup_job_dir.
    psteps; try discriminate; try impossible.
    pkeep keeps_setup_copy_app.
    psteps. pkeep keeps_setup_wrapper_script.
    unfold setup_defaults, _get_attr.
    psteps; try discriminate; try impossible.
    all: pkeep keeps_setup_submit_script.
    all: psteps; pkeep keeps_setup_stage.
    all: psteps; pkeep keeps_setup_write_scripts.
    all: psteps; pkeep keeps_setup_chmod.
    all: unfold setup_save; psteps; try discriminate.
    all: try (pkeep keeps_cleanup; psteps; discriminate).
    all: intros r' [= <-].
    all: eexists _, app_config; split; [exact Hload|].
    all: cbn [job_config]; backtrack; reflexivity. }
  unfold post in Hpost. rewrite Hrun in Hpost.
  destruct (Hpost r eq_refl) as (s0 & app_config & Hload & Hslurm).
  destruct (setup_load_success _ _ _ _ _ _ Hload)
    as (sp & proj & sj & job & Hproj & Hjob & Hc).
  exists sp, proj, sj, job. subst job. repeat split; assumption.
Qed.

Lemma invariant_of_set_up r job :
  timestamp_set r "setup_ts" = true ->
  timestamp_null r "submit_ts" = true ->
  Py.getitem r "slurm" = Py.getitem job "slurm" ->
  lifecycle_invariant r = implb (has_slurm_id job) (sentinel_id job).
Proof.
  intros Hsetup Hnull Hslurm.
  unfold lifecycle_invariant, lifecycle_ok, has_slurm_id, sentinel_id.
  rewrite (timestamp_null_not_set _ _ Hnull).
  unfold Py.getitem2. rewrite Hslurm. reflexivity.
Qed.

End SlurmBlock.

Section Invariant.
Context {W : Type} `{SSHClient W} `{LocalHost W}.
Variable self : TACCJobManager.

(** C3, as the code has it.  [submit_job], [cancel_job] and [cleanup_job],
    whether they succeed or fail, keep this invariant of the job record:
    [submit_ts] is not [None] only if [setup_ts] is not [None] and a
    scheduler job identifier is in the record, and a scheduler job
    identifier is in the record only if [submit_ts] is not [None] or the
    identifier is the failure sentinel, ['FAILED'] or the empty string.
    [setup_job] returns a record with [setup_ts] set, [submit_ts] [None] and
    the [slurm] block of the job configuration file, so that the record has
    the invariant exactly when that file holds no identifier but the
    sentinel.  After a successful [cancel_job] the four timestamps are
    [None] and no scheduler job identifier remains. *)
Theorem lifecycle_invariant_kept :
  (forall s : state W,
      lifecycle_invariant (job_config s) = true ->
      lifecycle_invariant (job_config (fst (submit_job s))) = true)
  /\ (forall s : state W,
         lifecycle_invariant (job_config s) = true ->
         lifecycle_invariant (job_config (fst (cancel_job s))) = true)
  /\ (forall check (s : state W),
         lifecycle_invariant (job_config s) = true ->
         lifecycle_invariant (job_config (fst (cleanup_job check s))) = true)
  /\ (forall a b c (s s1 : state W) r,
         setup_job self a b c s = (s1, Ok r) ->
         r = job_config s1
         /\ timestamp_set r "setup_ts" = true
         /\ timestamp_null r "submit_ts" = true
         /\ exists sp proj sj job,
              load_project_config (os_path_join a c) s = (sp, Ok proj)
              /\ load_templated_json_file (os_path_join a b) proj sp
                 = (sj, Ok job)
              /\ Py.getitem r "slurm" = Py.getitem job "slurm"
              /\ lifecycle_invariant r
                 = implb (has_slurm_id job) (sentinel_id job))
  /\ (forall (s s1 : state W) r,
         cancel_job s = (s1, Ok r) ->
         r = job_config s1
         /\ timestamp_null r "setup_ts" = true
         /\ timestamp_null r "submit_ts" = true
         /\ timestamp_null r "start_ts" = true
         /\ timestamp_null r "end_ts" = true
         /\ has_slurm_id r = false).
Proof.
  split; [|split; [|split; [|split]]].
  - apply submit_job_keeps_invariant.
  - apply cancel_job_keeps_invariant.
  - apply cleanup_job_keeps_invariant.
  - intros a b c s s1 r Hrun.
    destruct (setup_job_success self _ _ _ _ _ _ Hrun) as (Hr & Hset & Hnull).
    destruct (setup_job_slurm_block self _ _ _ _ _ _ Hrun)
      as (sp & proj & sj & job & Hproj & Hjob & Hslurm).
    repeat split; try assumption.
    exists sp, proj, sj, job. repeat split; try assumption.
    now apply invariant_of_set_up.
  - apply cancel_job_success.
Qed.

End Invariant.
(** ** Saving, then loading *)

Section SaveLoad.
Context {W : Type} `{SSHClient W} `{LocalHost W}.
Variable self : TACCJobManager.


End SaveLoad.

(** Settles a statement about a run on the test double by running it. *)
Ltac by_running :=
  cbv zeta;
  repeat match goal with |- _ /\ _ => split end;
  vm_compute; reflexivity.

Section InPlace.
Context {W : Type} `{SSHClient W} `{LocalHost W}.

(** Whatever makes [save_job] fail, the log entry is the last thing it
    does. *)
Lemma save_job_failure_is_logged (s s1 : state W) e :
  save_job s = (s1, Raise e) ->
  exists t,
    trace s1 = (t ++ [ELogError "Unable to write json job config file"])%list.
Proof.
  intros Hrun.
  assert (Hpost : post save_job s
            (fun s' r =>
               forall e', r = Raise e' ->
                 exists t,
                   trace s'
                   = (t ++ [ELogError
                              "Unable to write json job config file"])%list)).
  2: { unfold post in Hpost. rewrite Hrun in Hpost. now apply (Hpost e). }
  clear Hrun. unfold save_job. apply post_try, post_any.
  intros s' [[]|e0]; [discriminate|].
  repeat xstep. intros _ _. eauto.
Qed.

(** A [json.dump] that raises has sent the chunks up to the one whose write
    raised, and no other. *)
Lemma json_dump_failure obj path (s s1 : state W) e :
  json_dump obj path s = (s1, Raise e) ->
  exists k,
    k < length (json_iterencode obj)
    /\ trace s1
       = (trace s
            ++ map (EFileWrite path)
                 (firstn (S k) (json_iterencode obj)))%list
    /\ job_config s1 = job_config s.
Proof.
  intros Hrun.
  assert (Hpost : post (json_dump obj path) s
            (fun s' r =>
               forall e', r = Raise e' ->
                 exists k,
                   k < length (json_iterencode obj)
                   /\ trace s'
                      = (trace s
                           ++ map (EFileWrite path)
                                (firstn (S k) (json_iterencode obj)))%list
                   /\ job_config s' = job_config s)).
  2: { unfold post in Hpost. rewrite Hrun in Hpost. now apply (Hpost e). }
  clear Hrun. apply post_json_dump.
  - discriminate.
  - intros w k e0 Hk e' _. exists k. auto.
Qed.

(** C8, as the code has it.  [save_job] stamps the record's [dump_ts] with
    the current time, serializes the record and writes it in place: the
    destination [job_config.json] of the job directory is itself opened for
    writing and receives the chunks one after the other.  Whatever the
    outcome, [save_job] touches no other path and sends no command, so there
    is no temporary file and no rename.  Whenever it fails, the last thing it
    does is log the failure.  When a write of [json.dump] raises, the file
    and the session are closed, the failure is logged and the error of that
    write is raised again; the destination, emptied when it was opened, has
    been sent the chunks up to the one whose write raised and nothing
    else. *)
Theorem save_job_writes_in_place (s : state W) (dir : string) :
  let dest := dir ++ "/job_config.json" in
  let msg := "Unable to write json job config file" in
  Py.getitem (job_config s) "job_dir" = Ok (JStr dir) ->
  (exists added,
      trace (fst (save_job s)) = (trace s ++ added)%list
      /\ Forall (in_place dest) added)
  /\ (forall s1,
         save_job s = (s1, Ok tt) ->
         Py.setitem2 (job_config s) "ts" "dump_ts"
           (JStr (snd (strftime_now (world s))))
         = Ok (job_config s1)
         /\ trace s1
            = (trace s
                 ++ save_events dest (json_iterencode (job_config s1)))%list)
  /\ (forall s1 e,
         save_job s = (s1, Raise e) ->
         exists t, trace s1 = (t ++ [ELogError msg])%list)
  /\ (forall record w1 w2 s3 e w4 w5,
         Py.setitem2 (job_config s) "ts" "dump_ts"
           (JStr (snd (strftime_now (world s))))
         = Ok record ->
         open_sftp (fst (strftime_now (world s))) = (w1, Ok tt) ->
         sftp_file_open dest "w" w1 = (w2, Ok tt) ->
         json_dump record dest
           {| world := w2;
              trace := trace s ++ [ETime; EOpenSftp; EFileOpen dest "w"];
              job_config := record |}
         = (s3, Raise e) ->
         sftp_file_close dest (world s3) = (w4, Ok tt) ->
         sftp_close w4 = (w5, Ok tt) ->
         exists k,
           k < length (json_iterencode record)
           /\ save_job s
              = ({| world := w5;
                    trace :=
                      trace s
                        ++ [ETime; EOpenSftp; EFileOpen dest "w"]
                        ++ map (EFileWrite dest)
                             (firstn (S k) (json_iterencode record))
                        ++ [EFileClose dest; ECloseSftp; ELogError msg];
                    job_config := record |},
                 Raise e)).
Proof.
  intros dest msg Hdir. split; [now apply save_job_in_place|].
  split; [|split].
  - intros s1 Hsave.
    destruct (save_job_success _ _ Hsave) as (dir1 & Hstamp & Hdir1 & Ht).
    rewrite (getitem_after_setitem2 _ _ _ _ _ "job_dir" Hstamp) in Hdir1
      by discriminate.
    rewrite Hdir in Hdir1. injection Hdir1 as <-. auto.
  - intros s1 e. apply save_job_failure_is_logged.
  - intros record w1 w2 s3 e w4 w5 Hstamp Hopen Hfopen Hdump Hfclose Hclose.
    destruct (json_dump_failure _ _ _ _ _ Hdump) as (k & Hk & Ht & Hc).
    cbn [trace job_config] in Ht, Hc.
    exists k. split; [exact Hk|].
    assert (Hdir' : Py.getitem record "job_dir" = Ok (JStr dir)).
    { rewrite (getitem_after_setitem2 _ _ _ _ _ "job_dir" Hstamp)
        by discriminate.
      exact Hdir. }
    pose proof Hstamp as Hstamp'. unfold Py.setitem2 in Hstamp'.
    destruct (Py.getitem (job_config s) "ts") as [o|] eqn:Hts;
      [|discriminate].
    destruct (Py.setitem o "dump_ts" _) as [o'|] eqn:Ho; [|discriminate].
    unfold save_job, try_except, bind at 1, get_ts, call at 1.
    destruct (strftime_now (world s)) as [w0 now]. cbn [fst snd] in *.
    unfold bind at 1, config_set2, bind at 1. rewrite config_get_run.
    cbn [job_config world trace lift]. rewrite Hts.
    unfold bind at 1. cbn [lift]. rewrite Ho.
    unfold config_set, bind at 1, bind at 1, bind at 1, get_config, lift,
      put_config.
    cbn [job_config world trace]. rewrite Hstamp'.
    unfold bind at 1. rewrite config_get_run. cbn [job_config world trace].
    rewrite Hdir'. unfold bind at 1. cbn [lift Py.as_str]. fold dest.
    unfold with_sftp, with_file, with_, bind at 1, call at 1.
    cbn [job_config world trace]. rewrite Hopen.
    unfold bind at 1, attempt, bind at 1, call at 1.
    cbn [job_config world trace]. rewrite Hfopen.
    unfold bind at 1, bind at 1, get_config.
    cbn [job_config world trace]. rewrite <- !app_assoc. cbn [app].
    rewrite Hdump.
    unfold bind at 1, call at 1. rewrite Hfclose.
    unfold lift at 1. unfold bind at 1, call at 1.
    cbn [job_config world trace]. rewrite Hclose.
    unfold lift, logger_error, emit, bind, call, raise.
    cbn [job_config world trace]. rewrite Hc, Ht.
    rewrite <- !app_assoc. reflexivity.
Qed.

End InPlace.

(** ** The methods on the test double *)

(** C1, as stated, fails: [make] exits with status 0 and warns on standard
    error, and [_execute_command] raises. *)
Lemma exit_zero_with_stderr_raises :
  exists ch,
    Mock.run_command "make" Scenario.warning_cluster
    = (Scenario.warning_cluster, Ok ch)
    /\ exit_status ch = 0%Z
    /\ snd (_execute_command "make" false
              (Mock.start Scenario.warning_cluster JNull))
       = Raise (Exception "warning: unused variable").
Proof.
  exists (Mock.said "built" "warning: unused variable" 0).
  repeat split; reflexivity.
Qed.

Lemma execute_command_decided_by_stderr_witness :
  exec_command "make" (world (Mock.start Scenario.warning_cluster JNull))
  = (Scenario.warning_cluster,
     Ok {| stdout_text := Ok "built";
           stderr_text := Ok "warning: unused variable";
           exit_status := 0 |})
  /\ snd (_execute_command "make" false
            (Mock.start Scenario.warning_cluster JNull))
     = Raise (Exception "warning: unused variable").
Proof.
  split; [reflexivity|].
  apply (execute_command_decided_by_stderr "make" false
           (Mock.start Scenario.warning_cluster JNull)
           Scenario.warning_cluster "built" "warning: unused variable" 0).
  reflexivity.
Defined.

Lemma cancel_unsubmitted_is_rejected_witness :
  Py.getitem2 Scenario.ready "ts" "submit_ts" = Ok JNull
  /\ cancel_job (Mock.start Scenario.cluster Scenario.ready)
     = (logged (Mock.start Scenario.cluster Scenario.ready)
          "Job has not been submitted yet.",
        Raise (Exception "Job has not been submitted yet.")).
Proof.
  split; [reflexivity|].
  eapply cancel_unsubmitted_is_rejected; reflexivity.
Defined.

(** The first submission of [ready] succeeds on [cluster] and gives
    [submitted]. *)
Lemma first_submit_succeeds :
  submit_job (Mock.start Scenario.cluster Scenario.ready)
  = (fst (submit_job (Mock.start Scenario.cluster Scenario.ready)),
     Ok Scenario.submitted).
Proof. vm_compute. reflexivity. Qed.

Lemma second_submit_is_rejected_witness :
  submit_job (Mock.start Scenario.cluster Scenario.ready)
  = (fst (submit_job (Mock.start Scenario.cluster Scenario.ready)),
     Ok Scenario.submitted)
  /\ snd (submit_job (Mock.start Scenario.rejecting Scenario.submitted))
     = Raise (Exception
                "Job has not been initialized or has already been submitted.").
Proof.
  split; [vm_compute; reflexivity|].
  refine (f_equal snd
            (proj1 (second_submit_is_rejected
                      (Mock.start Scenario.cluster Scenario.ready)
                      (fst (submit_job
                              (Mock.start Scenario.cluster Scenario.ready)))
                      Scenario.submitted _
                      (Mock.start Scenario.rejecting Scenario.submitted)
                      _))).
  - vm_compute. reflexivity.
  - reflexivity.
Defined.

(** C3, as stated, fails: the scheduler answers with the failure sentinel,
    [submit_job] raises, and the record it leaves holds a scheduler job
    identifier although [submit_ts] is [None]. *)
Lemma failed_submit_leaves_identifier :
  lifecycle_strict Scenario.ready = true
  /\ snd (submit_job (Mock.start Scenario.rejecting Scenario.ready))
     = Raise (Exception "Failed to submit SLURM Job!")
  /\ Py.getitem2
       (job_config
          (fst (submit_job (Mock.start Scenario.rejecting Scenario.ready))))
       "slurm" "slurm_id"
     = Ok (JStr "FAILED")
  /\ timestamp_set
       (job_config
          (fst (submit_job (Mock.start Scenario.rejecting Scenario.ready))))
       "submit_ts"
     = false
  /\ lifecycle_strict
       (job_config
          (fst (submit_job (Mock.start Scenario.rejecting Scenario.ready))))
     = false.
Proof. by_running. Qed.

(** A scheduler job identifier that is no sentinel, in a record that was
    never submitted, is what the invariant excludes. *)
Lemma stray_identifier_breaks_invariant :
  lifecycle_ok Cases.stray = true /\ lifecycle_invariant Cases.stray = false.
Proof. by_running. Qed.

Lemma lifecycle_invariant_kept_witness :
  lifecycle_invariant Scenario.ready = true
  /\ lifecycle_invariant
       (job_config
          (fst (submit_job (Mock.start Scenario.rejecting Scenario.ready))))
     = true.
Proof.
  split; [reflexivity|].
  apply (proj1 (lifecycle_invariant_kept Scenario.manager)
           (Mock.start Scenario.rejecting Scenario.ready)).
  reflexivity.
Defined.

(** C9: [sbatch] itself fails.  The handler logs the failure, builds an
    exception without raising it, and the method goes on to read [ret],
    which was never bound: the caller gets an [UnboundLocalError].  The
    record is untouched, [submit_ts] still [None]. *)
Lemma failed_sbatch_raises_unbound_local :
  submit_job (Mock.start Scenario.refusing Scenario.ready)
  = ({| world := Scenario.refusing;
        trace := [EExec Scenario.sbatch;
                  ELogError
                    "Failed to run submit job - test_20210512_101500"];
        job_config := Scenario.ready |},
     Raise (UnboundLocalError "ret")).
Proof. vm_compute. reflexivity. Qed.



(** C7: copying the application fails once the job directory has been
    made.  [setup_job] raises the error of the copy, and the removal of the
    job directory, which the handlers of the later steps all begin with, is
    never issued: the directory stays on the cluster. *)
Lemma failed_copy_leaves_job_dir :
  let cluster :=
    Scenario.setup_cluster
      (Mock.said EmptyString "cp: cannot stat: No such file or directory" 1)
      1000 Scenario.data_txt in
  let run :=
    setup_job Scenario.manager "." "job.json" "project.ini"
      (Mock.start cluster JNull) in
  snd run = Raise (Exception "cp: cannot stat: No such file or directory")
  /\ issued ("mkdir " ++ Scenario.job_dir) (trace (fst run)) = true
  /\ issued ("rm -rf " ++ Scenario.job_dir) (trace (fst run)) = false.
Proof. by_running. Qed.

(** On a cluster that behaves, [setup_job] returns the record, set up in
    its job directory, and removes nothing. *)
Lemma setup_succeeds :
  let run :=
    setup_job Scenario.manager "." "job.json" "project.ini"
      (Mock.start (Scenario.setup_cluster Mock.quiet 1000 Scenario.data_txt)
         JNull) in
  snd run = Ok (job_config (fst run))
  /\ Py.getitem (job_config (fst run)) "job_dir"
     = Ok (JStr Scenario.job_dir)
  /\ timestamp_set (job_config (fst run)) "setup_ts" = true
  /\ timestamp_null (job_config (fst run)) "submit_ts" = true
  /\ issued ("rm -rf " ++ Scenario.job_dir) (trace (fst run)) = false.
Proof. by_running. Qed.

Lemma setup_failure_compensation_witness :
  snd (setup_job Scenario.manager "." "job.json" "project.ini"
         (Mock.start (Scenario.setup_cluster Mock.quiet 2 Scenario.data_txt)
            JNull))
  = Raise (Other "OSError" "Socket is closed").
Proof.
  pose (s0 := Mock.start
                (Scenario.setup_cluster Mock.quiet 2 Scenario.data_txt)
                JNull).
  pose (s1 := fst (setup_prepare Scenario.manager "." "job.json"
                     "project.ini" s0)).
  pose (s2 := fst (setup_copy_app Scenario.manager s1)).
  pose (s3 := fst (setup_build Scenario.manager Scenario.app_json s2)).
  pose (s4 := fst (save_job s3)).
  pose (s5 := fst (_execute_command ("rm -rf " ++ Scenario.job_dir) false
                     s4)).
  refine (f_equal snd
            (proj1 (proj1 (setup_failure_compensation Scenario.manager
                             Scenario.job_dir)
                      "." "job.json" "project.ini" s0 s1 s2 s3 s4 s5
                      Scenario.app_json (Other "OSError" "Socket is closed")
                      EmptyString _ _ _ _ _ _))).
  all: vm_compute; reflexivity.
Defined.

(** C8, as stated, fails: the previously saved record can be loaded; the
    connection drops during the next [save_job], which raises; what is left
    at the destination is the beginning of the new text, and the record can
    no longer be loaded. *)
Lemma partial_write_corrupts_saved_record :
  let before := Mock.start (Scenario.flaky 5) Scenario.ready in
  let after := fst (save_job before) in
  snd (load_job_config Scenario.manager "test_20210512_101500" before)
  = Ok Scenario.ready
  /\ snd (save_job before) = Raise (Other "OSError" "Socket is closed")
  /\ Dict.get Scenario.job_config_json (Mock.remote_files (world after))
     = Some (String.concat EmptyString
               (firstn 5 (Mock.encode (job_config after))))
  /\ snd (load_job_config Scenario.manager "test_20210512_101500" after)
     = Raise (Other "JSONDecodeError" "Expecting value").
Proof. by_running. Qed.

Lemma save_job_writes_in_place_witness :
  Py.getitem Scenario.ready "job_dir" = Ok (JStr Scenario.job_dir)
  /\ exists k,
       k < length (Mock.encode
                     (job_config
                        (fst (save_job
                                (Mock.start (Scenario.flaky 5)
                                   Scenario.ready)))))
       /\ snd (save_job (Mock.start (Scenario.flaky 5) Scenario.ready))
          = Raise (Other "OSError" "Socket is closed").
Proof.
  split; [reflexivity|].
  pose (s := Mock.start (Scenario.flaky 5) Scenario.ready).
  pose (record := job_config (fst (save_job s))).
  pose (w2 := fst (Mock.file_open Scenario.job_config_json "w"
                     (fst (Mock.tick (Scenario.flaky 5))))).
  pose (s3 := fst (json_dump record Scenario.job_config_json
                     {| world := w2;
                        trace := [ETime; EOpenSftp;
                                  EFileOpen Scenario.job_config_json "w"];
                        job_config := record |})).
  assert (Hstamp : Py.setitem2 (job_config s) "ts" "dump_ts"
                     (JStr (snd (strftime_now (world s)))) = Ok record)
    by (vm_compute; reflexivity).
  assert (Hopen : open_sftp (fst (strftime_now (world s)))
                  = (fst (Mock.tick (Scenario.flaky 5)), Ok tt))
    by reflexivity.
  assert (Hfopen : sftp_file_open (Scenario.job_dir ++ "/job_config.json")
                     "w" (fst (Mock.tick (Scenario.flaky 5)))
                   = (w2, Ok tt))
    by (vm_compute; reflexivity).
  assert (Hdump : json_dump record (Scenario.job_dir ++ "/job_config.json")
                    {| world := w2;
                       trace := trace s
                                  ++ [ETime; EOpenSftp;
                                      EFileOpen
                                        (Scenario.job_dir
                                           ++ "/job_config.json") "w"];
                       job_config := record |}
                  = (s3, Raise (Other "OSError" "Socket is closed")))
    by (vm_compute; reflexivity).
  destruct (proj2 (proj2 (proj2 (save_job_writes_in_place s Scenario.job_dir
                                   eq_refl)))
              record _ w2 s3 _ (world s3) (world s3)
              Hstamp Hopen Hfopen Hdump eq_refl eq_refl)
    as (k & Hk & Hrun).
  exists k. split; [exact Hk|]. exact (f_equal snd Hrun).
Defined.



(** The scenario of [test_process_command]: nothing on a poll that finds
    the channel idle, the first byte on a poll for one byte, and all of the
    output, whatever [max_bytes], once the channel has closed. *)
Lemma three_polls_of_pwd :
  map (fun c => (Registry.state_of c, Registry.stdout c, Registry.stderr c))
    (Registry.polls Scenario.pwd Scenario.three_polls "20210512_101501"
       Scenario.channel_reports)
  = [(Registry.RUNNING, EmptyString, EmptyString);
     (Registry.RUNNING, "t", EmptyString);
     (Registry.COMPLETE, "test", EmptyString)].
Proof. reflexivity. Qed.

Lemma poll_output_is_monotone_witness :
  exists c1 c3,
    nth_error
      (Registry.polls Scenario.pwd Scenario.three_polls "20210512_101501"
         Scenario.channel_reports) 0 = Some c1
    /\ nth_error
         (Registry.polls Scenario.pwd Scenario.three_polls "20210512_101501"
            Scenario.channel_reports) 2 = Some c3
    /\ String.prefix (Registry.stdout c1) (Registry.stdout c3) = true.
Proof.
  eexists. eexists. split; [reflexivity|]. split; [reflexivity|].
  refine (proj1 (poll_output_is_monotone Scenario.three_polls Scenario.pwd
                   "20210512_101501" Scenario.channel_reports 0 2 _ _
                   _ eq_refl eq_refl)).
  lia.
Defined.
(** ** The other methods, run on the test double *)

Lemma list_files_sorted_without_spaces_witness :
  let run :=
    list_files "/scratch/06307/clos21/taccjm-jobs"
      (Mock.start Cases.spaced JNull) in
  snd run = Ok ["alpha"; "job"]
  /\ Str.ascending ["alpha"; "job"] = true
  /\ Forall (fun f => Str.has_space f = false) ["alpha"; "job"].
Proof.
  cbv zeta. split; [vm_compute; reflexivity|].
  apply (list_files_sorted_without_spaces
           "/scratch/06307/clos21/taccjm-jobs"
           (Mock.start Cases.spaced JNull)
           (fst (list_files "/scratch/06307/clos21/taccjm-jobs"
                   (Mock.start Cases.spaced JNull)))).
  vm_compute. reflexivity.
Defined.

Lemma list_files_fails_on_any_stderr_witness :
  stdout_text
    (Mock.said (Scenario.listing ["."; ".."; "alpha"])
       "ls: cannot access 'beta': Permission denied" 2)
  = Ok (Scenario.listing ["."; ".."; "alpha"])
  /\ snd (list_files "/scratch/06307/clos21/taccjm-jobs"
            (Mock.start Cases.complaining JNull))
     = Raise FileNotFoundError.
Proof.
  split; [reflexivity|].
  refine (f_equal snd
            (list_files_fails_on_any_stderr
               "/scratch/06307/clos21/taccjm-jobs"
               (Mock.start Cases.complaining JNull)
               Cases.complaining
               (Mock.said (Scenario.listing ["."; ".."; "alpha"])
                  "ls: cannot access 'beta': Permission denied" 2)
               (Scenario.listing ["."; ".."; "alpha"])
               "ls: cannot access 'beta': Permission denied"
               _ _ _ _)).
  - vm_compute. reflexivity.
  - reflexivity.
  - reflexivity.
  - discriminate.
Defined.

Lemma load_job_config_rejects_names_with_space_witness :
  Str.has_space "my job" = true
  /\ snd (load_job_config Scenario.manager "my job"
            (Mock.start Cases.spaced JNull))
     = Raise (NameError "Exeception").
Proof.
  split; [reflexivity|].
  destruct (load_job_config_rejects_names_with_space Scenario.manager
              "my job" (Mock.start Cases.spaced JNull) eq_refl)
    as [(s1 & jobs & _ & Hload)|(s1 & e & Hjobs & _)].
  - rewrite Hload. reflexivity.
  - vm_compute in Hjobs. discriminate.
Defined.

Lemma load_job_config_failure_leaves_session_open_witness :
  let s := Mock.start Scenario.cluster JNull in
  let run := load_job_config Scenario.manager "test_20210512_101500" s in
  Dict.get Scenario.job_config_json (Mock.remote_files Scenario.cluster)
  = None
  /\ snd run = Raise FileNotFoundError
  /\ existsb (fun ev => match ev with ECloseSftp => true | _ => false end)
       (trace (fst run)) = false.
Proof.
  cbv zeta. split; [reflexivity|].
  pose (s := Mock.start Scenario.cluster JNull).
  pose (s1 := fst (get_jobs Scenario.manager s)).
  rewrite (load_job_config_failure_leaves_session_open Scenario.manager
             "test_20210512_101500" s s1 ["test_20210512_101500"]
             (world s1) (world s1) FileNotFoundError).
  - split; reflexivity.
  - vm_compute. reflexivity.
  - vm_compute. reflexivity.
  - vm_compute. reflexivity.
  - vm_compute. reflexivity.
Defined.

Lemma save_job_without_job_dir_witness :
  let s := Mock.start (Scenario.flaky 5) Cases.cleaned in
  Py.getitem Cases.cleaned "job_dir" = Ok JNull
  /\ snd (save_job s) = Raise TypeError
  /\ trace (fst (save_job s))
     = [ETime; ELogError "Unable to write json job config file"]
  /\ Py.getitem2 (job_config (fst (save_job s))) "ts" "dump_ts"
     = Ok (JStr "20210512_103000").
Proof.
  cbv zeta. split; [reflexivity|].
  rewrite (save_job_without_job_dir
             (Mock.start (Scenario.flaky 5) Cases.cleaned)
             (job_config
                (fst (save_job (Mock.start (Scenario.flaky 5) Cases.cleaned))))
             JNull TypeError).
  - repeat split; vm_compute; reflexivity.
  - vm_compute. reflexivity.
  - reflexivity.
  - reflexivity.
Defined.

Lemma cleanup_job_declined_witness :
  let s := Mock.start Cases.declining Scenario.ready in
  String.eqb (Py.lower "No") "yes" = false
  /\ snd (cleanup_job true s) = Ok JNull
  /\ trace (fst (cleanup_job true s))
     = [EInput "Are you sure yo want to delete job directory? [yes/no]"]
  /\ job_config (fst (cleanup_job true s)) = Scenario.ready.
Proof.
  cbv zeta. split; [reflexivity|].
  rewrite (cleanup_job_declined
             (Mock.start Cases.declining Scenario.ready) JNull
             (fst (Mock.answer EmptyString Cases.declining)) "No").
  - repeat split.
  - reflexivity.
  - reflexivity.
  - vm_compute. reflexivity.
  - reflexivity.
Defined.

Lemma cleanup_job_twice_witness :
  let s := Mock.start Scenario.cluster Scenario.ready in
  snd (cleanup_job false s) = Ok Cases.cleaned
  /\ cleanup_job false (Mock.start Scenario.cluster Cases.cleaned)
     = (Mock.start Scenario.cluster Cases.cleaned, Raise TypeError).
Proof.
  cbv zeta. split; [vm_compute; reflexivity|].
  apply (cleanup_job_twice
           (Mock.start Scenario.cluster Scenario.ready)
           (fst (cleanup_job false
                   (Mock.start Scenario.cluster Scenario.ready)))
           Cases.cleaned).
  - vm_compute. reflexivity.
  - reflexivity.
Defined.

Lemma cancelled_job_is_locked_out_witness :
  let s := Mock.start Scenario.cluster Scenario.submitted in
  let after := fst (cancel_job s) in
  snd (cancel_job s) = Ok (job_config after)
  /\ snd (submit_job after)
     = Raise (Exception
                "Job has not been initialized or has already been submitted.")
  /\ snd (cleanup_job false after)
     = Raise (Exception "No job to cleanup. Job has not been initialized.").
Proof.
  cbv zeta. split; [vm_compute; reflexivity|].
  pose (s := Mock.start Scenario.cluster Scenario.submitted).
  assert (Hrun : cancel_job s
                 = (fst (cancel_job s), Ok (job_config (fst (cancel_job s)))))
    by (vm_compute; reflexivity).
  destruct (cancelled_job_is_locked_out s _ _ Hrun
              (fst (cancel_job s)) false eq_refl) as [Hsubmit Hcleanup].
  fold s. rewrite Hsubmit, Hcleanup. split; reflexivity.
Defined.

Lemma submit_job_needs_a_line_feed_witness :
  let s := Mock.start Cases.terse Scenario.ready in
  Str.has_line_feed "Submitted batch job 7771234" = false
  /\ snd (submit_job s) = Raise IndexError
  /\ job_config (fst (submit_job s)) = Scenario.ready
  /\ issued Scenario.sbatch (trace (fst (submit_job s))) = true.
Proof.
  cbv zeta. split; [reflexivity|].
  pose (s := Mock.start Cases.terse Scenario.ready).
  assert (Hexec : _execute_command
                    ("cd " ++ py_str (JStr Scenario.job_dir)
                       ++ ";sbatch submit_script.sh") false s
                  = (fst (_execute_command Scenario.sbatch false s),
                     Ok "Submitted batch job 7771234"))
    by (vm_compute; reflexivity).
  destruct (submit_job_needs_a_line_feed s _
              (JStr "20210512_101500") (JStr Scenario.job_dir)
              "Submitted batch job 7771234"
              eq_refl eq_refl eq_refl eq_refl Hexec eq_refl) as [Hrun Hcfg].
  fold s. rewrite Hrun. cbn [fst snd].
  split; [reflexivity|]. split; [exact Hcfg|]. vm_compute. reflexivity.
Defined.

Lemma submit_job_records_identifier_witness :
  let s := Mock.start Scenario.cluster Scenario.ready in
  snd (submit_job s) = Ok Scenario.submitted
  /\ exists dir s' out line id,
       Py.getitem (job_config s) "job_dir" = Ok dir
       /\ _execute_command
            ("cd " ++ py_str dir ++ ";sbatch submit_script.sh") false s
          = (s', Ok out)
       /\ Py.last_but_one (Py.split LF out) = Ok line
       /\ Py.last (Py.split " " line) = Ok id
       /\ Py.getitem2 Scenario.submitted "slurm" "slurm_id" = Ok (JStr id)
       /\ Py.getitem2 Scenario.submitted "slurm" "sbatch_ret"
          = Raise (KeyError "sbatch_ret").
Proof.
  cbv zeta. split; [vm_compute; reflexivity|].
  apply (submit_job_records_identifier
           (Mock.start Scenario.cluster Scenario.ready)
           (fst (submit_job (Mock.start Scenario.cluster Scenario.ready)))
           Scenario.submitted).
  vm_compute. reflexivity.
Defined.

Lemma cancel_job_failure_keeps_record_witness :
  let s := Mock.start Scenario.stuck Scenario.submitted in
  snd (cancel_job s)
  = Raise (Exception "scancel: error: Kill job error on job id 7771234")
  /\ job_config (fst (cancel_job s)) = Scenario.submitted.
Proof.
  cbv zeta.
  pose (s := Mock.start Scenario.stuck Scenario.submitted).
  assert (Hexec : _execute_command ("scancel " ++ "7771234") false s
                  = (fst (_execute_command "scancel 7771234" false s),
                     Raise (Exception
                              "scancel: error: Kill job error on job id 7771234")))
    by (vm_compute; reflexivity).
  destruct (cancel_job_failure_keeps_record s _
              (JStr "20210512_101700") "7771234" _
              eq_refl eq_refl eq_refl Hexec)
    as [Hrun Hcfg].
  fold s. rewrite Hrun. split; [reflexivity|exact Hcfg].
Defined.

Lemma setup_job_names_the_job_witness :
  let run :=
    setup_job Scenario.manager "." "job.json" "project.ini"
      (Mock.start (Scenario.setup_cluster Mock.quiet 1000 Scenario.data_txt)
         JNull) in
  snd run = Ok (job_config (fst run))
  /\ exists name ts,
       Py.getitem (job_config (fst run)) "name" = Ok name
       /\ Py.getitem2 (job_config (fst run)) "ts" "setup_ts" = Ok (JStr ts)
       /\ Py.getitem (job_config (fst run)) "job_id"
          = Ok (JStr (py_str name ++ "_" ++ ts))
       /\ Py.getitem (job_config (fst run)) "job_dir"
          = Ok (JStr (jobs_dir Scenario.manager ++ "/" ++ py_str name
                        ++ "_" ++ ts)).
Proof.
  cbv zeta. split; [vm_compute; reflexivity|].
  pose (s := Mock.start
               (Scenario.setup_cluster Mock.quiet 1000 Scenario.data_txt)
               JNull).
  assert (Hrun : setup_job Scenario.manager "." "job.json" "project.ini" s
                 = (fst (setup_job Scenario.manager "." "job.json"
                           "project.ini" s),
                    Ok (job_config
                          (fst (setup_job Scenario.manager "." "job.json"
                                  "project.ini" s)))))
    by (vm_compute; reflexivity).
  exact (setup_job_names_the_job Scenario.manager "." "job.json"
           "project.ini" s _ _ Hrun).
Defined.

Lemma setup_defaults_job_wins_witness :
  let s := Mock.start Scenario.cluster Cases.job_with_queue in
  let after := job_config (fst (setup_defaults Scenario.app_json s)) in
  snd (setup_defaults Scenario.app_json s) = Ok tt
  /\ Py.getitem after "queue" = Ok (JStr "normal")
  /\ Py.getitem after "maxRunTime" = Ok (JStr "00:10:00")
  /\ Py.getitem after "name" = Ok (JStr "test").
Proof.
  cbv zeta. split; [vm_compute; reflexivity|].
  pose (s := Mock.start Scenario.cluster Cases.job_with_queue).
  assert (Hrun : setup_defaults Scenario.app_json s
                 = (fst (setup_defaults Scenario.app_json s), Ok tt))
    by (vm_compute; reflexivity).
  destruct (setup_defaults_job_wins Scenario.app_json s _ Hrun)
    as [Hfilled Hkept].
  fold s. split; [|split].
  - rewrite (Hfilled "queue" "defaultQueue") by (cbn; auto). reflexivity.
  - rewrite (Hfilled "maxRunTime" "defaultMaxRunTime") by (cbn; auto 10).
    reflexivity.
  - rewrite (Hkept "name"); [reflexivity|].
    cbn. intros [H|[H|[H|[H|[H|[]]]]]]; discriminate H.
Defined.

Lemma send_file_failed_upload_keeps_archive_witness :
  let run :=
    send_file "assets" "/scratch/06307/clos21/taccjm-apps/test_app" true
      (Mock.start Cases.unpacked JNull) in
  snd run = Raise FileNotFoundError
  /\ trace (fst run)
     = [ETar "assets" "test_app" ".assets.taccjm.tar";
        EOpenSftp;
        EPut ".assets.taccjm.tar"
          "/scratch/06307/clos21/taccjm-apps/.taccjm_temp_assets.tar";
        ECloseSftp].
Proof.
  cbv zeta.
  rewrite (send_file_failed_upload_keeps_archive
             "assets" "/scratch/06307/clos21/taccjm-apps/test_app" true
             (Mock.start Cases.unpacked JNull)
             Cases.unpacked Cases.unpacked Cases.unpacked Cases.unpacked
             FileNotFoundError).
  - split; vm_compute; reflexivity.
  - reflexivity.
  - reflexivity.
  - reflexivity.
  - vm_compute. reflexivity.
  - reflexivity.
Defined.


Lemma deploy_then_load_round_trip_witness :
  let s := Mock.start Cases.deploying JNull in
  let run := deploy_app Scenario.manager "." "app.json" "project.ini" true s in
  snd run = Ok Scenario.app_json
  /\ snd (load_app_config Scenario.manager (JStr "test_app--1.0.0") (fst run))
     = Ok Scenario.app_json.
Proof.
  cbv zeta. split; [vm_compute; reflexivity|].
  pose (s := Mock.start Cases.deploying JNull).
  pose (s1 := fst (deploy_app Scenario.manager "." "app.json" "project.ini"
                     true s)).
  pose (s2 := fst (get_apps Scenario.manager s1)).
  refine (deploy_then_load_round_trip Scenario.manager
            "." "app.json" "project.ini" true s s1 s2
            Scenario.app_json "test_app--1.0.0" ["test_app--1.0.0"]
            (Scenario.text Scenario.app_json)
            (world s2) (world s2) (world s2) (world s2) (world s2)
            _ _ _ _ _ _ _ _ _ _ _).
  all: vm_compute; reflexivity.
Defined.

Lemma init_creates_jobs_and_apps_only_witness :
  let run :=
    __init__ "stampede2" "clos21" None None
      "taccjm-apps" "taccjm-jobs" "taccjm-trash"
      (Mock.start Cases.fresh JNull) in
  snd run = Ok ("stampede2.tacc.utexas.edu", Scenario.manager)
  /\ exists w1 w2 w3 ch out,
       Py.mem "stampede2" TACC_SYSTEMS = true
       /\ "stampede2.tacc.utexas.edu" = "stampede2" ++ ".tacc.utexas.edu"
       /\ load_system_host_keys (world (Mock.start Cases.fresh JNull))
          = (w1, Ok tt)
       /\ connect "stampede2.tacc.utexas.edu" "clos21" None None w1
          = (w2, Ok tt)
       /\ exec_command "echo $SCRATCH" w2 = (w3, Ok ch)
       /\ stdout_text ch = Ok out
       /\ jobs_dir Scenario.manager = Str.strip out ++ "/" ++ "taccjm-jobs"
       /\ apps_dir Scenario.manager = Str.strip out ++ "/" ++ "taccjm-apps"
       /\ trash_dir Scenario.manager = Str.strip out ++ "/" ++ "taccjm-trash"
       /\ trace (fst run)
          = ([] ++ [EExec "echo $SCRATCH";
                    EExec ("mkdir -p " ++ jobs_dir Scenario.manager);
                    EExec ("mkdir -p " ++ apps_dir Scenario.manager)])%list.
Proof.
  cbv zeta. split; [vm_compute; reflexivity|].
  pose (s := Mock.start Cases.fresh JNull).
  assert (Hrun : __init__ "stampede2" "clos21" None None
                   "taccjm-apps" "taccjm-jobs" "taccjm-trash" s
                 = (fst (__init__ "stampede2" "clos21" None None
                           "taccjm-apps" "taccjm-jobs" "taccjm-trash" s),
                    Ok ("stampede2.tacc.utexas.edu", Scenario.manager)))
    by (vm_compute; reflexivity).
  exact (init_creates_jobs_and_apps_only "stampede2" "clos21" None None
           "taccjm-apps" "taccjm-jobs" "taccjm-trash" s _ _ _ Hrun).
Defined.

Lemma lifecycle_success_is_persisted_witness :
  let s := Mock.start Scenario.cluster Scenario.ready in
  snd (submit_job s) = Ok Scenario.submitted
  /\ exists dir,
       Py.getitem Scenario.submitted "job_dir" = Ok (JStr dir)
       /\ written (trace (fst (submit_job s))) (dir ++ "/job_config.json")
          = Some (String.concat EmptyString
                    (json_iterencode Scenario.submitted)).
Proof.
  cbv zeta. split; [vm_compute; reflexivity|].
  pose (s := Mock.start Scenario.cluster Scenario.ready).
  assert (Hrun : submit_job s = (fst (submit_job s), Ok Scenario.submitted))
    by (vm_compute; reflexivity).
  exact (lifecycle_success_is_persisted Scenario.manager
           EmptyString EmptyString EmptyString s _ _
           (or_intror (or_introl Hrun))).
Defined.

(** The helpers for the files of a job, on a job directory that holds
    [out.txt]: the download falls back on the plain file, a look at it
    sends [head], and a record without its directory is turned down. *)
Lemma job_file_helpers_run :
  let s := Mock.start Cases.finished Scenario.ready in
  snd (get_job_file "out.txt" "." s)
  = Ok "./test_20210512_101500/out.txt"
  /\ Dict.get "./test_20210512_101500/out.txt"
       (Mock.local_files (world (fst (get_job_file "out.txt" "." s))))
     = Some ("42" ++ nl)
  /\ trace (fst (peak_job_file "out.txt" 0 5 s))
     = [EExec ("tail -5 " ++ Scenario.job_dir ++ "/out.txt")]
  /\ snd (send_job_file "data/run1/" "." s)
     = Raise (Exception
                ("Unable to send file data/run1/ to destination destination "
                   ++ Scenario.job_dir ++ "/./run1"))
  /\ snd (send_job_file "data/run1/" "."
            (Mock.start Cases.finished Cases.cleaned))
     = Raise (UnboundLocalError "dest_path")
  /\ snd (ls_job "test_20210512_101500" EmptyString s)
     = Raise (NameError "job_config").
Proof. by_running. Qed.

